(** * DRM PRIME video presentation: the direct-scanout bridge and the
      GLES texture renderer

    A shallow embedding of
    [xbmc/cores/VideoPlayer/VideoRenderers/HwDecRender/VideoLayerBridgeDRMPRIME.cpp]
    and
    [xbmc/cores/VideoPlayer/VideoRenderers/HwDecRender/RendererDRMPRIMEGLES.cpp].

    Both classes work on decoder buffers through pointers, so the buffers
    live in a store indexed by pointer and every method is a function on
    the state of its object together with that store.  A call into libdrm,
    EGL/GL or the logger is appended to a trace; what such a call answers
    is read from a record of answers that the method takes as its first
    argument. *)

From Stdlib Require Import ZArith QArith Qround Bool List Ascii String Lia.
From stdpp Require Import base functions list strings.
Import ListNotations.

Local Open Scope Z_scope.

(** ** Decoder buffers *)

Module Buffer.

(** A [CVideoBufferDRMPRIME*]; [nullptr] is [None] where a pointer may be
    null. *)
Definition ptr := nat.

(** libavutil/hwcontext_drm.h *)
Definition AV_DRM_MAX_PLANES : nat := 4.

Record AVDRMObjectDescriptor := {
  fd : Z;
  format_modifier : Z
}.

Record AVDRMPlaneDescriptor := {
  object_index : nat;
  offset : Z;
  pitch : Z
}.

Record AVDRMLayerDescriptor := {
  format : Z;
  nb_planes : nat;
  planes : list AVDRMPlaneDescriptor
}.

Record AVDRMFrameDescriptor := {
  nb_objects : nat;
  objects : list AVDRMObjectDescriptor;
  nb_layers : nat;
  layers : list AVDRMLayerDescriptor
}.

(** The arrays of a descriptor have [AV_DRM_MAX_PLANES] entries whatever
    the [nb_] counts say; an entry that the list does not spell out reads
    as zeroes. *)
Definition no_object : AVDRMObjectDescriptor :=
  {| fd := 0; format_modifier := 0 |}.
Definition no_plane : AVDRMPlaneDescriptor :=
  {| object_index := 0%nat; offset := 0; pitch := 0 |}.
Definition no_layer : AVDRMLayerDescriptor :=
  {| format := 0; nb_planes := 0%nat; planes := [] |}.

Definition object_at (d : AVDRMFrameDescriptor) (i : nat) := nth i (objects d) no_object.
Definition layer_at (d : AVDRMFrameDescriptor) (i : nat) := nth i (layers d) no_layer.
Definition plane_at (l : AVDRMLayerDescriptor) (i : nat) := nth i (planes l) no_plane.

(** The fields of [VideoPicture] that the two classes read. *)
Record VideoPicture := {
  videoBuffer : ptr;
  iWidth : Z;
  iHeight : Z;
  iDisplayWidth : Z;
  iDisplayHeight : Z;
  color_primaries : Z;
  color_space : Z;
  color_range : Z;
  colorBits : Z;
  chroma_position : Z;
  stereoMode : string
}.

(** Modelled from the spec: [CVideoBufferDRMPRIME] and its base
    [CVideoBuffer] are declared in VideoBufferDRMPRIME.h and VideoBuffer.h,
    outside the two files embedded here.  The spec describes a
    reference-counted hardware buffer ("Acquire/Release adjust a shared
    refcount") that exposes format, width, height and a multi-plane
    descriptor whose acquisition "is itself refcounted/cached and must be
    explicitly released".  [m_fb_id] and [m_handles] are the two public
    members the bridge writes. *)
Record CVideoBufferDRMPRIME := {
  m_refCount : Z;
  m_descRefs : Z;
  m_fb_id : Z;
  m_handles : list Z;
  m_descriptor : AVDRMFrameDescriptor;
  m_picture : VideoPicture;
  m_format : Z
}.

Definition GetWidth (b : CVideoBufferDRMPRIME) : Z := iWidth (m_picture b).
Definition GetHeight (b : CVideoBufferDRMPRIME) : Z := iHeight (m_picture b).

(** [buffer->m_handles[i]] *)
Definition handle (b : CVideoBufferDRMPRIME) (i : nat) : Z := nth i (m_handles b) 0.

Definition with_refCount (f : Z -> Z) (b : CVideoBufferDRMPRIME) :=
  {| m_refCount := f (m_refCount b); m_descRefs := m_descRefs b;
     m_fb_id := m_fb_id b; m_handles := m_handles b;
     m_descriptor := m_descriptor b; m_picture := m_picture b;
     m_format := m_format b |}.

Definition with_descRefs (f : Z -> Z) (b : CVideoBufferDRMPRIME) :=
  {| m_refCount := m_refCount b; m_descRefs := f (m_descRefs b);
     m_fb_id := m_fb_id b; m_handles := m_handles b;
     m_descriptor := m_descriptor b; m_picture := m_picture b;
     m_format := m_format b |}.

Definition with_fb_id (v : Z) (b : CVideoBufferDRMPRIME) :=
  {| m_refCount := m_refCount b; m_descRefs := m_descRefs b;
     m_fb_id := v; m_handles := m_handles b;
     m_descriptor := m_descriptor b; m_picture := m_picture b;
     m_format := m_format b |}.

(** [buffer->m_handles[i] = v]; a write past the end of the array is
    undefined in the source and leaves the list as it is here. *)
Definition with_handle (i : nat) (v : Z) (b : CVideoBufferDRMPRIME) :=
  {| m_refCount := m_refCount b; m_descRefs := m_descRefs b;
     m_fb_id := m_fb_id b; m_handles := <[i:=v]> (m_handles b);
     m_descriptor := m_descriptor b; m_picture := m_picture b;
     m_format := m_format b |}.

(** The store of buffer objects. *)
Definition store := ptr -> CVideoBufferDRMPRIME.

Definition update (p : ptr) (f : CVideoBufferDRMPRIME -> CVideoBufferDRMPRIME)
    (h : store) : store :=
  <[p := f (h p)]> h.

End Buffer.

(** ** Fixed-width integers and the constants of drm_fourcc.h and drm_mode.h *)

Module Drm.

Definition to_uint16 (x : Z) : Z := x mod 2 ^ 16.
Definition to_uint32 (x : Z) : Z := x mod 2 ^ 32.
Definition to_uint64 (x : Z) : Z := x mod 2 ^ 64.
Definition to_int32 (x : Z) : Z := (x + 2 ^ 31) mod 2 ^ 32 - 2 ^ 31.
(** The reading of a 64-bit property value as a signed number, as the
    kernel does for a signed-range property such as CRTC_X. *)
Definition as_int64 (x : Z) : Z := (x + 2 ^ 63) mod 2 ^ 64 - 2 ^ 63.

Definition code (c : ascii) : Z := Z.of_nat (nat_of_ascii c).

(** [fourcc_code(a, b, c, d)] *)
Definition fourcc_code (a b c d : ascii) : Z :=
  Z.lor (Z.lor (code a) (Z.shiftl (code b) 8))
        (Z.lor (Z.shiftl (code c) 16) (Z.shiftl (code d) 24)).

Definition DRM_FORMAT_R8 : Z := fourcc_code "R" "8" " " " ".
Definition DRM_FORMAT_R16 : Z := fourcc_code "R" "1" "6" " ".
Definition DRM_FORMAT_GR88 : Z := fourcc_code "G" "R" "8" "8".
Definition DRM_FORMAT_GR1616 : Z := fourcc_code "G" "R" "3" "2".
Definition DRM_FORMAT_NV12 : Z := fourcc_code "N" "V" "1" "2".
Definition DRM_FORMAT_P010 : Z := fourcc_code "P" "0" "1" "0".
Definition DRM_FORMAT_YUV420 : Z := fourcc_code "Y" "U" "1" "2".

(** [fourcc_mod_code(NONE, DRM_FORMAT_RESERVED)] *)
Definition DRM_FORMAT_MOD_INVALID : Z := 2 ^ 56 - 1.

Definition DRM_MODE_FB_MODIFIERS : Z := Z.shiftl 1 1.

End Drm.

(** ** Rectangles *)

Module Geometry.

(** Modelled from the spec: [CRect] is [CRectGen<float>] of
    utils/Geometry.h, outside the two files embedded here; the spec
    gives a destination rectangle by its corner and its width and height.
    A coordinate is kept as the rational number the float stands for, and
    [Width]/[Height] as the difference of the corners. *)
Record CRect := {
  x1 : Q;
  y1 : Q;
  x2 : Q;
  y2 : Q
}.

Definition Width (r : CRect) : Q := (x2 r - x1 r)%Q.
Definition Height (r : CRect) : Q := (y2 r - y1 r)%Q.

(** The value of [static_cast<int32_t>(f)] and [static_cast<uint32_t>(f)] on
    a float inside the range of the target type: the fraction is dropped
    (rounding toward zero).  Outside that range the cast is undefined in
    the source; the model wraps. *)
Definition truncate (f : Q) : Z := Z.quot (Qnum f) (Z.pos (Qden f)).

Definition float_to_int32 (f : Q) : Z := Drm.to_int32 (truncate f).
Definition float_to_uint32 (f : Q) : Z := Drm.to_uint32 (truncate f).

(** The spec's words for the destination rectangle, "x/y rounded down to
    even, width/height rounded up to even": the largest even integer not
    above, and the smallest even integer not below, the coordinate. *)
Definition spec_round_down_even (f : Q) : Z := 2 * Qfloor (f / 2).
Definition spec_round_up_even (f : Q) : Z := 2 * Qceiling (f / 2).

End Geometry.

(** ** The direct-scanout bridge: [CVideoLayerBridgeDRMPRIME] *)

Module Bridge.
Import Buffer Drm Geometry.

Record AVRational := {
  num : Z;
  den : Z
}.

Record AVMasteringDisplayMetadata := {
  display_primaries : list (AVRational * AVRational);
  white_point : AVRational * AVRational;
  min_luminance : AVRational;
  max_luminance : AVRational;
  has_primaries : bool;
  has_luminance : bool
}.

Record AVContentLightMetadata := {
  MaxCLL : Z;
  MaxFALL : Z
}.

(** [struct hdr_output_metadata] with its [hdmi_metadata_type1] member
    laid out flat. *)
Record hdr_output_metadata := {
  metadata_type : Z;
  type1_eotf : Z;
  type1_metadata_type : Z;
  type1_display_primaries : list (Z * Z);
  type1_white_point : Z * Z;
  max_display_mastering_luminance : Z;
  min_display_mastering_luminance : Z;
  max_cll : Z;
  max_fall : Z
}.

Inductive LogLevel := LOGDEBUG | LOGERROR.

(** What the bridge asks of its collaborators, in the order it asks. *)
Inductive Call :=
| BufferAcquire (b : ptr)
| BufferRelease (b : ptr)
| BufferAcquireDescriptor (b : ptr)
| BufferReleaseDescriptor (b : ptr)
| PrimeFDToHandle (prime_fd : Z)
| AddFB2WithModifiers (width height pixel_format : Z)
    (bo_handles pitches offsets modifier : list Z) (flags : Z)
| RmFB (fb_id : Z)
| GemClose (gem_handle : Z)
| CreatePropertyBlob (data : hdr_output_metadata)
| DestroyPropertyBlob (blob_id : Z)
| AddProperty (object : option Z) (name : string) (value : Z)
| SetActive (active : bool)
| Log (level : LogLevel) (message : string).

(** The answers of the collaborators.  libdrm calls answer with the pair of
    their return value and of what they store through their out pointer
    when the return value is zero.  The free functions of namespace
    [DRMPRIME], the EDID parser and the constant
    [HDMI_STATIC_METADATA_TYPE1] belong to files outside the two embedded
    here and are taken as they come. *)
Record World := {
  AcquireDescriptor_result : ptr -> bool;
  drmPrimeFDToHandle : Z -> Z * Z;
  drmModeAddFB2WithModifiers :
    Z -> Z -> Z -> list Z -> list Z -> list Z -> list Z -> Z -> Z * Z;
  drmModeCreatePropertyBlob : hdr_output_metadata -> Z * Z;
  GetVideoPlane : option Z;
  GetGuiPlane : option Z;
  GetConnector : option Z;
  GetCrtcId : Z;
  GetPropertyValue : option Z -> string -> string -> bool * Z;
  SupportsProperty : option Z -> string -> bool;
  GetEDID : bool * list Z;
  SupportsColorimetry : option (list Z) -> string -> bool;
  SupportsEOTF : option (list Z) -> Z -> bool;
  GetColorEncoding : VideoPicture -> string;
  GetColorRange : VideoPicture -> string;
  GetColorimetry : VideoPicture -> string;
  GetEOTF : VideoPicture -> Z;
  GetMasteringDisplayMetadata : VideoPicture -> option AVMasteringDisplayMetadata;
  GetContentLightMetadata : VideoPicture -> option AVContentLightMetadata;
  HDMI_STATIC_METADATA_TYPE1 : Z;
  (** [std::round(av_q2d(q) * scale)] stored into a 16-bit field: double
      arithmetic, left to the caller of the model *)
  round_scaled : AVRational -> Z -> Z
}.

(** The members of the class, then the store of buffers it points into,
    the property blobs that are live in the kernel, and the trace. *)
Record State := {
  m_buffer : option ptr;
  m_prev_buffer : option ptr;
  m_hdr_blob_id : Z;
  m_hdr_metadata : hdr_output_metadata;
  heap : store;
  blobs : list Z;
  calls : list Call
}.

Definition set_buffers (cur prev : option ptr) (s : State) : State :=
  {| m_buffer := cur; m_prev_buffer := prev;
     m_hdr_blob_id := m_hdr_blob_id s; m_hdr_metadata := m_hdr_metadata s;
     heap := heap s; blobs := blobs s; calls := calls s |}.

Definition set_blob_id (id : Z) (s : State) : State :=
  {| m_buffer := m_buffer s; m_prev_buffer := m_prev_buffer s;
     m_hdr_blob_id := id; m_hdr_metadata := m_hdr_metadata s;
     heap := heap s; blobs := blobs s; calls := calls s |}.

Definition set_metadata (md : hdr_output_metadata) (s : State) : State :=
  {| m_buffer := m_buffer s; m_prev_buffer := m_prev_buffer s;
     m_hdr_blob_id := m_hdr_blob_id s; m_hdr_metadata := md;
     heap := heap s; blobs := blobs s; calls := calls s |}.

Definition set_blobs (live : list Z) (s : State) : State :=
  {| m_buffer := m_buffer s; m_prev_buffer := m_prev_buffer s;
     m_hdr_blob_id := m_hdr_blob_id s; m_hdr_metadata := m_hdr_metadata s;
     heap := heap s; blobs := live; calls := calls s |}.

Definition on_buffer (b : ptr)
    (f : CVideoBufferDRMPRIME -> CVideoBufferDRMPRIME) (s : State) : State :=
  {| m_buffer := m_buffer s; m_prev_buffer := m_prev_buffer s;
     m_hdr_blob_id := m_hdr_blob_id s; m_hdr_metadata := m_hdr_metadata s;
     heap := update b f (heap s); blobs := blobs s; calls := calls s |}.

Definition emit (c : Call) (s : State) : State :=
  {| m_buffer := m_buffer s; m_prev_buffer := m_prev_buffer s;
     m_hdr_blob_id := m_hdr_blob_id s; m_hdr_metadata := m_hdr_metadata s;
     heap := heap s; blobs := blobs s; calls := calls s ++ [c] |}.

(** *** The buffer's own methods *)

(** Modelled from the spec: [CVideoBuffer::Acquire], which VideoBuffer.h
    declares; "Acquire/Release adjust a shared refcount". *)
Definition BufferAcquire_ (b : ptr) (s : State) : State :=
  on_buffer b (with_refCount (fun n => n + 1)) (emit (BufferAcquire b) s).

(** Modelled from the spec: [CVideoBuffer::Release], the other half of
    the same sentence. *)
Definition BufferRelease_ (b : ptr) (s : State) : State :=
  on_buffer b (with_refCount (fun n => n - 1)) (emit (BufferRelease b) s).

(** Modelled from the spec: [CVideoBufferDRMPRIME::ReleaseDescriptor],
    which VideoBufferDRMPRIME.h declares; the acquisition of the
    descriptor "is itself refcounted/cached and must be explicitly
    released". *)
Definition ReleaseDescriptor (b : ptr) (s : State) : State :=
  on_buffer b (with_descRefs (fun n => n - 1)) (emit (BufferReleaseDescriptor b) s).

(** Modelled from the spec: [CVideoBufferDRMPRIME::AcquireDescriptor], by
    the same sentence; whether it succeeds is up to the buffer. *)
Definition AcquireDescriptor (w : World) (b : ptr) (s : State) : bool * State :=
  let s1 := emit (BufferAcquireDescriptor b) s in
  if AcquireDescriptor_result w b
  then (true, on_buffer b (with_descRefs (fun n => n + 1)) s1)
  else (false, s1).

(** *** Unmap, Release, Acquire *)

(** One turn of the loop over [m_handles] in [Unmap]. *)
Definition close_handle (b : ptr) (s : State) (i : nat) : State :=
  let h := handle (heap s b) i in
  if h =? 0 then s
  else on_buffer b (with_handle i 0) (emit (GemClose h) s).

Definition Unmap (b : ptr) (s : State) : State :=
  let fb := m_fb_id (heap s b) in
  let s1 := if fb =? 0 then s
            else on_buffer b (with_fb_id 0) (emit (RmFB fb) s) in
  let s2 := foldl (close_handle b) s1 (seq 0 AV_DRM_MAX_PLANES) in
  ReleaseDescriptor b s2.

Definition Release (buffer : option ptr) (s : State) : State :=
  match buffer with
  | None => s
  | Some b => BufferRelease_ b (Unmap b s)
  end.

Definition Acquire (buffer : ptr) (s : State) : State :=
  let s1 := Release (m_prev_buffer s) s in
  let s2 := set_buffers (Some buffer) (m_buffer s1) s1 in
  BufferAcquire_ buffer s2.

(** *** Map *)

(** The loop "convert Prime FD to GEM handle", over the object indices
    that are left.  libdrm stores the handle only when the ioctl
    succeeded; the method gives up when the return value is negative. *)
Fixpoint convert_objects (w : World) (b : ptr) (d : AVDRMFrameDescriptor)
    (todo : list nat) (s : State) : bool * State :=
  match todo with
  | [] => (true, s)
  | object :: rest =>
      let prime_fd := fd (object_at d object) in
      let '(ret, gem) := drmPrimeFDToHandle w prime_fd in
      let s1 := emit (PrimeFDToHandle prime_fd) s in
      let s2 := if ret =? 0 then on_buffer b (with_handle object gem) s1 else s1 in
      if ret <? 0
      then (false, emit (Log LOGERROR "failed to convert prime fd {} to gem handle {}, ret = {}") s2)
      else convert_objects w b d rest s2
  end.

(** The four local arrays of [Map]. *)
Record Layout := {
  handles : list Z;
  pitches : list Z;
  offsets : list Z;
  modifier : list Z
}.

Definition empty_layout : Layout :=
  {| handles := [0; 0; 0; 0]; pitches := [0; 0; 0; 0];
     offsets := [0; 0; 0; 0]; modifier := [0; 0; 0; 0] |}.

(** The four assignments at index [plane]; [pitch] and [offset] are
    [ptrdiff_t] and are stored into [uint32_t].  An index past the four
    entries of the arrays is undefined in the source and writes nothing
    here. *)
Definition put_plane (buf : CVideoBufferDRMPRIME) (d : AVDRMFrameDescriptor)
    (plane : nat) (planeDesc : AVDRMPlaneDescriptor) (l : Layout) : Layout :=
  let objectDesc := object_at d (object_index planeDesc) in
  {| handles := <[plane := handle buf (object_index planeDesc)]> (handles l);
     pitches := <[plane := to_uint32 (pitch planeDesc)]> (pitches l);
     offsets := <[plane := to_uint32 (offset planeDesc)]> (offsets l);
     modifier := <[plane := format_modifier objectDesc]> (modifier l) |}.

(** The inner loop over the planes of one layer.  When there are several
    layers and this one has a single plane, the only turn of the loop
    reads [planes[0]], sets [plane = layer], writes at that index, and the
    increment ends the loop.  Otherwise [plane] runs over
    [0 .. nb_planes - 1]. *)
Definition map_layer (buf : CVideoBufferDRMPRIME) (d : AVDRMFrameDescriptor)
    (l : Layout) (layer : nat) : Layout :=
  let layerDesc := layer_at d layer in
  if (1 <? nb_layers d)%nat && (nb_planes layerDesc =? 1)%nat
  then put_plane buf d layer (plane_at layerDesc 0) l
  else foldl (fun l plane => put_plane buf d plane (plane_at layerDesc plane) l)
             l (seq 0 (nb_planes layerDesc)).

Definition map_layers (buf : CVideoBufferDRMPRIME) (d : AVDRMFrameDescriptor) : Layout :=
  foldl (map_layer buf d) empty_layout (seq 0 (nb_layers d)).

(** The pixel format passed to the kernel: lines 138 to 159 of [Map]. *)
Definition infer_format (d : AVDRMFrameDescriptor) : Z :=
  let f0 := format (layer_at d 0) in
  let f1 := format (layer_at d 1) in
  let f2 := format (layer_at d 2) in
  let fmt := f0 in
  let fmt :=
    if (nb_layers d =? 2)%nat then
      let fmt := if (f0 =? DRM_FORMAT_R8) && (f1 =? DRM_FORMAT_GR88)
                 then DRM_FORMAT_NV12 else fmt in
      if (f0 =? DRM_FORMAT_R16) && (f1 =? DRM_FORMAT_GR1616)
      then DRM_FORMAT_P010 else fmt
    else fmt in
  if (nb_layers d =? 3)%nat then
    if (f0 =? DRM_FORMAT_R8) && (f1 =? DRM_FORMAT_R8) && (f2 =? DRM_FORMAT_R8)
    then DRM_FORMAT_YUV420 else fmt
  else fmt.

(** [if (modifier[0] && modifier[0] != DRM_FORMAT_MOD_INVALID) flags = ...] *)
Definition fb_flags (l : Layout) : Z :=
  let m0 := nth 0 (modifier l) 0 in
  if negb (m0 =? 0) && negb (m0 =? DRM_FORMAT_MOD_INVALID)
  then DRM_MODE_FB_MODIFIERS else 0.

Definition Map (w : World) (b : ptr) (s : State) : bool * State :=
  if negb (m_fb_id (heap s b) =? 0) then (true, s) else
  let '(acquired, s0) := AcquireDescriptor w b s in
  if negb acquired
  then (false, emit (Log LOGERROR "failed to acquire descriptor") s0) else
  let d := m_descriptor (heap s0 b) in
  let '(converted, s1) := convert_objects w b d (seq 0 (nb_objects d)) s0 in
  if negb converted then (false, s1) else
  let buf := heap s1 b in
  let l := map_layers buf d in
  let fmt := infer_format d in
  let flags := fb_flags l in
  let '(ret, fb) :=
    drmModeAddFB2WithModifiers w (GetWidth buf) (GetHeight buf) fmt
      (handles l) (pitches l) (offsets l) (modifier l) flags in
  let s2 := emit (AddFB2WithModifiers (GetWidth buf) (GetHeight buf) fmt
                    (handles l) (pitches l) (offsets l) (modifier l) flags) s1 in
  let s3 := if ret =? 0 then on_buffer b (with_fb_id fb) s2 else s2 in
  if ret <? 0
  then (false, emit (Log LOGERROR "failed to add fb {}, ret = {}") s3)
  else (true, Acquire b s3).

(** *** Configure and Disable *)

Definition set_types (t : Z) (m : hdr_output_metadata) : hdr_output_metadata :=
  {| metadata_type := t; type1_eotf := type1_eotf m; type1_metadata_type := t;
     type1_display_primaries := type1_display_primaries m;
     type1_white_point := type1_white_point m;
     max_display_mastering_luminance := max_display_mastering_luminance m;
     min_display_mastering_luminance := min_display_mastering_luminance m;
     max_cll := max_cll m; max_fall := max_fall m |}.

Definition set_eotf (e : Z) (m : hdr_output_metadata) : hdr_output_metadata :=
  {| metadata_type := metadata_type m; type1_eotf := e;
     type1_metadata_type := type1_metadata_type m;
     type1_display_primaries := type1_display_primaries m;
     type1_white_point := type1_white_point m;
     max_display_mastering_luminance := max_display_mastering_luminance m;
     min_display_mastering_luminance := min_display_mastering_luminance m;
     max_cll := max_cll m; max_fall := max_fall m |}.

Definition set_primaries (p : list (Z * Z)) (wp : Z * Z)
    (m : hdr_output_metadata) : hdr_output_metadata :=
  {| metadata_type := metadata_type m; type1_eotf := type1_eotf m;
     type1_metadata_type := type1_metadata_type m;
     type1_display_primaries := p; type1_white_point := wp;
     max_display_mastering_luminance := max_display_mastering_luminance m;
     min_display_mastering_luminance := min_display_mastering_luminance m;
     max_cll := max_cll m; max_fall := max_fall m |}.

Definition set_luminance (hi lo : Z) (m : hdr_output_metadata) : hdr_output_metadata :=
  {| metadata_type := metadata_type m; type1_eotf := type1_eotf m;
     type1_metadata_type := type1_metadata_type m;
     type1_display_primaries := type1_display_primaries m;
     type1_white_point := type1_white_point m;
     max_display_mastering_luminance := hi;
     min_display_mastering_luminance := lo;
     max_cll := max_cll m; max_fall := max_fall m |}.

Definition set_light (cll fall : Z) (m : hdr_output_metadata) : hdr_output_metadata :=
  {| metadata_type := metadata_type m; type1_eotf := type1_eotf m;
     type1_metadata_type := type1_metadata_type m;
     type1_display_primaries := type1_display_primaries m;
     type1_white_point := type1_white_point m;
     max_display_mastering_luminance := max_display_mastering_luminance m;
     min_display_mastering_luminance := min_display_mastering_luminance m;
     max_cll := cll; max_fall := fall |}.

(** The metadata the blob is built from: lines 255 to 312 of [Configure]
    (the debug log lines apart).  [MaxCLL] and [MaxFALL] are [unsigned]
    and are assigned to the [__u16] members [max_cll] and [max_fall]. *)
Definition fill_metadata (w : World) (picture : VideoPicture)
    (m : hdr_output_metadata) : hdr_output_metadata :=
  let mdmd := GetMasteringDisplayMetadata w picture in
  let m1 :=
    match mdmd with
    | Some md =>
        if has_primaries md then
          set_primaries
            (map (fun p => (round_scaled w (fst p) 50000, round_scaled w (snd p) 50000))
                 (firstn 3 (display_primaries md)))
            (round_scaled w (fst (white_point md)) 50000,
             round_scaled w (snd (white_point md)) 50000) m
        else m
    | None => m
    end in
  let m2 :=
    match mdmd with
    | Some md =>
        if has_luminance md then
          set_luminance (round_scaled w (max_luminance md) 1)
                        (round_scaled w (min_luminance md) 10000) m1
        else m1
    | None => m1
    end in
  match GetContentLightMetadata w picture with
  | Some clmd => set_light (to_uint16 (MaxCLL clmd)) (to_uint16 (MaxFALL clmd)) m2
  | None => m2
  end.

(** [if (m_hdr_blob_id) drmModeDestroyPropertyBlob(...); m_hdr_blob_id = 0;]
    The kernel drops the blob from its live ones. *)
Definition destroy_blob (s : State) : State :=
  let id := m_hdr_blob_id s in
  let s1 := if id =? 0 then s
            else set_blobs (List.filter (fun x => negb (x =? id)) (blobs s))
                   (emit (DestroyPropertyBlob id) s) in
  set_blob_id 0 s1.

(** [drmModeCreatePropertyBlob(fd, &m_hdr_metadata, sizeof(...), &m_hdr_blob_id)];
    the return value is not looked at.  When the ioctl succeeds the kernel
    has one more live blob and libdrm stores its id. *)
Definition create_blob (w : World) (s : State) : State :=
  let '(ret, id) := drmModeCreatePropertyBlob w (m_hdr_metadata s) in
  let s1 := emit (CreatePropertyBlob (m_hdr_metadata s)) s in
  if ret =? 0 then set_blob_id id (set_blobs (blobs s1 ++ [id]) s1) else s1.

Definition HDR_OUTPUT_METADATA : string := "HDR_OUTPUT_METADATA".

(** Lines 204 to 216: the colour encoding and range of the plane. *)
Definition configure_plane (w : World) (picture : VideoPicture) (s : State) : State :=
  let plane := match GetVideoPlane w with
               | Some p => Some p
               | None => GetGuiPlane w
               end in
  let '(result, value) := GetPropertyValue w plane "COLOR_ENCODING" (GetColorEncoding w picture) in
  let s := if result then emit (AddProperty plane "COLOR_ENCODING" value) s else s in
  let '(result, value) := GetPropertyValue w plane "COLOR_RANGE" (GetColorRange w picture) in
  if result then emit (AddProperty plane "COLOR_RANGE" value) s else s.

(** Lines 220 to 225: a [CEDIDUtils] that has the EDID of the connector
    when the connector has one. *)
Definition read_edid (w : World) : option (list Z) :=
  let '(result, raw) := GetEDID w in
  if result then Some raw else None.

(** Lines 227 to 237: the colorimetry of the connector. *)
Definition configure_colorspace (w : World) (picture : VideoPicture)
    (edid : option (list Z)) (s : State) : State :=
  let connector := GetConnector w in
  let '(result, value) := GetPropertyValue w connector "Colorspace" (GetColorimetry w picture) in
  if result && SupportsColorimetry w edid (GetColorimetry w picture)
  then emit (SetActive true)
         (emit (AddProperty connector "Colorspace" value)
            (emit (Log LOGDEBUG "setting connector colorspace to {}") s))
  else s.

(** Lines 239 to 320: the HDR metadata blob. *)
Definition configure_hdr (w : World) (picture : VideoPicture)
    (edid : option (list Z)) (s : State) : State :=
  let connector := GetConnector w in
  if SupportsProperty w connector HDR_OUTPUT_METADATA then
    let t := HDMI_STATIC_METADATA_TYPE1 w in
    let s := set_metadata (set_types t (m_hdr_metadata s)) s in
    let eotf := GetEOTF w picture in
    if SupportsEOTF w edid eotf then
      let s := set_metadata (set_eotf eotf (m_hdr_metadata s)) s in
      let s := destroy_blob s in
      let s := set_metadata (fill_metadata w picture (m_hdr_metadata s)) s in
      let s := create_blob w s in
      emit (AddProperty connector HDR_OUTPUT_METADATA (m_hdr_blob_id s)) s
    else s
  else s.

Definition Configure (w : World) (b : ptr) (s : State) : State :=
  let picture := m_picture (heap s b) in
  let s := configure_plane w picture s in
  let edid := read_edid w in
  let s := configure_colorspace w picture edid s in
  let s := configure_hdr w picture edid s in
  emit (SetActive true) s.

Definition Disable (w : World) (s : State) : State :=
  let plane := GetVideoPlane w in
  let s := match plane with
           | Some _ => emit (AddProperty plane "CRTC_ID" 0)
                         (emit (AddProperty plane "FB_ID" 0) s)
           | None => s
           end in
  let connector := GetConnector w in
  let '(result, value) := GetPropertyValue w connector "Colorspace" "Default" in
  let s := if result
           then emit (AddProperty connector "Colorspace" value)
                  (emit (Log LOGDEBUG "setting connector colorspace to Default") s)
           else s in
  if SupportsProperty w connector HDR_OUTPUT_METADATA
  then destroy_blob (emit (SetActive true)
                       (emit (AddProperty connector HDR_OUTPUT_METADATA 0) s))
  else s.

(** *** SetVideoPlane and UpdateVideoPlane *)

(** [m_DRM->AddProperty(object, name, value)] for each pair in turn; the
    parameter is a [uint64_t]. *)
Definition stage (object : option Z) (props : list (string * Z)) (s : State) : State :=
  foldl (fun s p => emit (AddProperty object (fst p) (to_uint64 (snd p))) s) s props.

(** The ten properties of [SetVideoPlane], with the arithmetic of their
    C++ types: [int32_t & int], [uint32_t + int], [uint32_t << int]. *)
Definition plane_properties (w : World) (buf : CVideoBufferDRMPRIME)
    (destRect : CRect) : list (string * Z) :=
  [ ("FB_ID", m_fb_id buf);
    ("CRTC_ID", GetCrtcId w);
    ("SRC_X", 0);
    ("SRC_Y", 0);
    ("SRC_W", to_uint32 (Z.shiftl (GetWidth buf) 16));
    ("SRC_H", to_uint32 (Z.shiftl (GetHeight buf) 16));
    ("CRTC_X", Z.land (float_to_int32 (x1 destRect)) (Z.lnot 1));
    ("CRTC_Y", Z.land (float_to_int32 (y1 destRect)) (Z.lnot 1));
    ("CRTC_W", Z.land (to_uint32 (float_to_uint32 (Width destRect) + 1))
                      (to_uint32 (Z.lnot 1)));
    ("CRTC_H", Z.land (to_uint32 (float_to_uint32 (Height destRect) + 1))
                      (to_uint32 (Z.lnot 1))) ].

(** *** What the properties are stated about *)

(** The reference count of the buffer at [x]. *)
Definition refs (s : State) (x : ptr) : Z := m_refCount (heap s x).

(** How many of the two members of the bridge point at [x]. *)
Definition held (s : State) (x : ptr) : Z :=
  (if decide (m_prev_buffer s = Some x) then 1 else 0) +
  (if decide (m_buffer s = Some x) then 1 else 0).

(** How many calls of the kind [P] the trace has. *)
Definition count (P : Call -> bool) (s : State) : nat :=
  length (List.filter P (calls s)).

Definition is_AddFB2 (c : Call) : bool :=
  match c with AddFB2WithModifiers _ _ _ _ _ _ _ _ => true | _ => false end.

Definition is_AddProperty (c : Call) : bool :=
  match c with AddProperty _ _ _ => true | _ => false end.

(** A call that belongs to releasing a buffer. *)
Definition is_release (c : Call) : bool :=
  match c with
  | BufferAcquire _ | BufferRelease _ | BufferReleaseDescriptor _
  | RmFB _ | GemClose _ => true
  | _ => false
  end.

(** [s'] differs from [s] in the trace and in the import state of the
    buffer at [b] at most: the members of the bridge, every reference
    count and every other buffer are the same. *)
Definition touches_only (b : ptr) (s s' : State) : Prop :=
  m_buffer s' = m_buffer s /\ m_prev_buffer s' = m_prev_buffer s /\
  m_hdr_blob_id s' = m_hdr_blob_id s /\ blobs s' = blobs s /\
  (forall x, refs s' x = refs s x) /\
  (forall x, x <> b -> heap s' x = heap s x).

(** The three shapes [Map] knows. *)
Definition semi_planar_8 (d : AVDRMFrameDescriptor) : Prop :=
  nb_layers d = 2%nat /\ format (layer_at d 0) = DRM_FORMAT_R8 /\
  format (layer_at d 1) = DRM_FORMAT_GR88.

Definition semi_planar_16 (d : AVDRMFrameDescriptor) : Prop :=
  nb_layers d = 2%nat /\ format (layer_at d 0) = DRM_FORMAT_R16 /\
  format (layer_at d 1) = DRM_FORMAT_GR1616.

Definition planar_8 (d : AVDRMFrameDescriptor) : Prop :=
  nb_layers d = 3%nat /\ format (layer_at d 0) = DRM_FORMAT_R8 /\
  format (layer_at d 1) = DRM_FORMAT_R8 /\ format (layer_at d 2) = DRM_FORMAT_R8.

(** A call that creates, destroys or stages the HDR metadata blob. *)
Definition is_hdr_call (c : Call) : bool :=
  match c with
  | CreatePropertyBlob _ | DestroyPropertyBlob _ => true
  | AddProperty _ name _ => String.eqb name HDR_OUTPUT_METADATA
  | _ => false
  end.

(** The calls that the step from [s] to [s'] added to the trace. *)
Definition new_calls (s s' : State) : list Call :=
  skipn (length (calls s)) (calls s').

(** The blobs that are live in the kernel are the one the bridge has the
    id of, if it has one; and it has none when the connector has no
    HDR_OUTPUT_METADATA property. *)
Definition blob_inv (w : World) (s : State) : Prop :=
  blobs s = (if m_hdr_blob_id s =? 0 then [] else [m_hdr_blob_id s]) /\
  (SupportsProperty w (GetConnector w) HDR_OUTPUT_METADATA = false ->
   m_hdr_blob_id s = 0).

(** A step that leaves the blob alone and makes no call about it. *)
Definition quiet_step (s s' : State) : Prop :=
  m_hdr_blob_id s' = m_hdr_blob_id s /\ blobs s' = blobs s /\
  exists cs, calls s' = calls s ++ cs /\ List.filter is_hdr_call cs = [].

(** The kernel hands out blob ids that are not zero. *)
Definition blob_ids (w : World) : Prop :=
  forall md, fst (drmModeCreatePropertyBlob w md) = 0 ->
             snd (drmModeCreatePropertyBlob w md) <> 0.

(** The kernel hands out framebuffer ids that are not zero: an ADDFB2
    request fails with a negative value or stores such an id. *)
Definition kernel_ids (w : World) : Prop :=
  forall width height fmt hs ps os ms flags,
    let r := drmModeAddFB2WithModifiers w width height fmt hs ps os ms flags in
    fst r < 0 \/ (fst r = 0 /\ snd r <> 0).

(** The value a list of properties gives to [name]. *)
Definition property (name : string) (props : list (string * Z)) : option Z :=
  snd <$> find (fun p => String.eqb (fst p) name) props.

Definition SetVideoPlane (w : World) (b : ptr) (destRect : CRect) (s : State) : State :=
  let '(mapped, s1) := Map w b s in
  if negb mapped then Unmap b s1
  else stage (GetVideoPlane w) (plane_properties w (heap s1 b) destRect) s1.

Definition UpdateVideoPlane (w : World) (s : State) : State :=
  match m_buffer s with
  | None => s
  | Some cur =>
      if m_fb_id (heap s cur) =? 0 then s else
      let s1 := Release (m_prev_buffer s) s in
      let s2 := set_buffers (m_buffer s1) None s1 in
      stage (GetVideoPlane w)
        [ ("FB_ID", m_fb_id (heap s2 cur)); ("CRTC_ID", GetCrtcId w) ] s2
  end.

(** *** The destructor *)

(** [Release(m_prev_buffer); Release(m_buffer);] *)
Definition destructor (s : State) : State :=
  let s1 := Release (m_prev_buffer s) s in
  Release (m_buffer s1) s1.

(** *** More to state properties about *)

(** Entry [i] of the four local arrays of [Map]. *)
Definition entry (l : Layout) (i : nat) : Z * Z * Z * Z :=
  (nth i (handles l) 0, nth i (pitches l) 0, nth i (offsets l) 0,
   nth i (modifier l) 0).

(** What [Map] stores for a plane: the handle of its object, its pitch and
    offset as [uint32_t], and the modifier of its object. *)
Definition plane_entry (buf : CVideoBufferDRMPRIME) (d : AVDRMFrameDescriptor)
    (planeDesc : AVDRMPlaneDescriptor) : Z * Z * Z * Z :=
  (handle buf (object_index planeDesc), to_uint32 (pitch planeDesc),
   to_uint32 (offset planeDesc),
   format_modifier (object_at d (object_index planeDesc))).

(** The property an object is given when it has the property and the
    value asked for: the answer of [GetPropertyValue] is a pair of whether
    the value was found and the value. *)
Definition optional_property (object : option Z) (name : string)
    (answer : bool * Z) : list Call :=
  if fst answer then [AddProperty object name (snd answer)] else [].

(** The plane [Configure] works on: the video plane, or the GUI plane when
    there is no video plane. *)
Definition configured_plane (w : World) : option Z :=
  match GetVideoPlane w with
  | Some p => Some p
  | None => GetGuiPlane w
  end.

(** A step that changes neither the buffers nor what the bridge holds. *)
Definition keeps_buffers (s s' : State) : Prop :=
  heap s' = heap s /\ m_buffer s' = m_buffer s /\ m_prev_buffer s' = m_prev_buffer s.

(** The four arrays have their four entries. *)
Definition four_entries (l : Layout) : Prop :=
  length (handles l) = 4%nat /\ length (pitches l) = 4%nat /\
  length (offsets l) = 4%nat /\ length (modifier l) = 4%nat.

(** The handles of the buffer that are not zero, in the order of their
    slots. *)
Definition live_handles (buf : CVideoBufferDRMPRIME) : list Z :=
  List.filter (fun h => negb (h =? 0)) (map (handle buf) (seq 0 AV_DRM_MAX_PLANES)).

Definition is_conversion (c : Call) : bool :=
  match c with PrimeFDToHandle _ => true | _ => false end.

(** The return values of the conversions of the objects [todo]. *)
Definition conversion_results (w : World) (d : AVDRMFrameDescriptor)
    (todo : list nat) : list Z :=
  map (fun object => fst (drmPrimeFDToHandle w (fd (object_at d object)))) todo.

(** The objects up to and including the first whose conversion fails. *)
Fixpoint until_failure (w : World) (d : AVDRMFrameDescriptor)
    (todo : list nat) : list nat :=
  match todo with
  | [] => []
  | object :: rest =>
      if fst (drmPrimeFDToHandle w (fd (object_at d object))) <? 0
      then [object]
      else object :: until_failure w d rest
  end.

End Bridge.

(** ** The texture renderer: [CRendererDRMPRIMEGLES] *)

Module Renderer.
Import Buffer.

(** libavutil/pixfmt.h *)
Definition AVCOL_SPC_BT709 : Z := 1.
Definition AVCOL_SPC_UNSPECIFIED : Z := 2.
Definition AVCOL_SPC_BT470BG : Z := 5.

(** Modelled from the spec: [CEGLFence] (utils/EGLFence.h) lies outside
    the two files embedded here.  The spec lists "fence create/destroy/
    query-signaled" and has the GPU signal a fence once it "finished
    sampling"; a fence object therefore holds no sync object, or one that
    is still pending, or one that has been signaled.  A fence without a
    sync object has nothing left to wait for and reports signaled. *)
Inductive Sync := NoSync | Pending | Signaled.

(** Modelled from the spec: [CEGLFence::IsSignaled], "query-signaled". *)
Definition IsSignaled (f : Sync) : bool :=
  match f with
  | Pending => false
  | NoSync | Signaled => true
  end.

(** Modelled from the spec: [CDRMPRIMETexture] (utils/DRMPRIMEEGL.h) lies
    outside the two files embedded here; the spec treats "texture
    import/map/unmap" as an opaque drawing backend whose map is "one call,
    idempotent per buffer".  The texture remembers the display it was
    initialised for and the buffer it is mapped to. *)
Record Texture := {
  display : option Z;
  mapped : option ptr
}.

Record BUFFER := {
  videoBuffer : option ptr;
  fence : option Sync;
  texture : Texture;
  m_srcPrimaries : Z;
  m_srcColSpace : Z;
  m_srcBits : Z;
  m_srcFullRange : bool
}.

Definition empty_BUFFER : BUFFER :=
  {| videoBuffer := None; fence := None;
     texture := {| display := None; mapped := None |};
     m_srcPrimaries := 0; m_srcColSpace := 0; m_srcBits := 8;
     m_srcFullRange := false |}.

(** RendererDRMPRIMEGLES.h; the spec has "N, fixed, e.g. 4". *)
Definition NUM_BUFFERS : nat := 4.

Inductive Call :=
| BufferAcquire (b : ptr)
| BufferRelease (b : ptr)
| LogError (message : string)
| FenceCreate (index : nat)
| FenceDestroy (index : nat)
| TextureInit (index : nat) (eglDisplay : Z)
| TextureMap (index : nat) (b : ptr)
| TextureUnmap (index : nat)
| CalculateFrameAspectRatio (width height : Z)
| SetViewMode
| ManageRenderArea
| DrawBlackBars
| GlClear
| GlBlend (enable : bool)
| DrawQuad (index : nat)
| VerifyGLState.

(** What the service broker, the window system, the buffers and the
    helpers of RenderFlags.h answer. *)
Record World := {
  GetWinSystem : bool;
  WinSystemIsEGL : bool;
  GetEGLDisplay : Z;
  UseLimitedColor : bool;
  GetRenderSystem : bool;
  IsDRMPRIME : ptr -> bool;
  IsValid : ptr -> bool;
  TextureMap_result : ptr -> bool;
  GetFlagsChromaPosition : Z -> Z;
  GetFlagsColorMatrix : Z -> Z -> Z -> Z;
  GetFlagsColorPrimaries : Z -> Z;
  GetFlagsStereoMode : string -> Z
}.

Record State := {
  m_buffers : list BUFFER;
  m_configured : bool;
  m_format : Z;
  m_sourceWidth : Z;
  m_sourceHeight : Z;
  m_renderOrientation : Z;
  m_iFlags : Z;
  m_clearColour : Q;
  heap : store;
  calls : list Call
}.

Definition set_buffers (l : list BUFFER) (s : State) : State :=
  {| m_buffers := l; m_configured := m_configured s; m_format := m_format s;
     m_sourceWidth := m_sourceWidth s; m_sourceHeight := m_sourceHeight s;
     m_renderOrientation := m_renderOrientation s; m_iFlags := m_iFlags s;
     m_clearColour := m_clearColour s; heap := heap s; calls := calls s |}.

Definition set_source (fmt width height orientation flags : Z) (s : State) : State :=
  {| m_buffers := m_buffers s; m_configured := m_configured s; m_format := fmt;
     m_sourceWidth := width; m_sourceHeight := height;
     m_renderOrientation := orientation; m_iFlags := flags;
     m_clearColour := m_clearColour s; heap := heap s; calls := calls s |}.

Definition set_configured (colour : Q) (s : State) : State :=
  {| m_buffers := m_buffers s; m_configured := true; m_format := m_format s;
     m_sourceWidth := m_sourceWidth s; m_sourceHeight := m_sourceHeight s;
     m_renderOrientation := m_renderOrientation s; m_iFlags := m_iFlags s;
     m_clearColour := colour; heap := heap s; calls := calls s |}.

Definition on_buffer (b : ptr)
    (f : CVideoBufferDRMPRIME -> CVideoBufferDRMPRIME) (s : State) : State :=
  {| m_buffers := m_buffers s; m_configured := m_configured s; m_format := m_format s;
     m_sourceWidth := m_sourceWidth s; m_sourceHeight := m_sourceHeight s;
     m_renderOrientation := m_renderOrientation s; m_iFlags := m_iFlags s;
     m_clearColour := m_clearColour s; heap := update b f (heap s);
     calls := calls s |}.

Definition emit (c : Call) (s : State) : State :=
  {| m_buffers := m_buffers s; m_configured := m_configured s; m_format := m_format s;
     m_sourceWidth := m_sourceWidth s; m_sourceHeight := m_sourceHeight s;
     m_renderOrientation := m_renderOrientation s; m_iFlags := m_iFlags s;
     m_clearColour := m_clearColour s; heap := heap s; calls := calls s ++ [c] |}.

(** [m_buffers[index]] as an lvalue; an index past the array is undefined
    in the source and changes nothing here. *)
Definition on_slot (index : nat) (f : BUFFER -> BUFFER) (s : State) : State :=
  set_buffers (alter f index (m_buffers s)) s.

Definition with_videoBuffer (v : option ptr) (buf : BUFFER) : BUFFER :=
  {| videoBuffer := v; fence := fence buf; texture := texture buf;
     m_srcPrimaries := m_srcPrimaries buf; m_srcColSpace := m_srcColSpace buf;
     m_srcBits := m_srcBits buf; m_srcFullRange := m_srcFullRange buf |}.

Definition with_fence (f : option Sync) (buf : BUFFER) : BUFFER :=
  {| videoBuffer := videoBuffer buf; fence := f; texture := texture buf;
     m_srcPrimaries := m_srcPrimaries buf; m_srcColSpace := m_srcColSpace buf;
     m_srcBits := m_srcBits buf; m_srcFullRange := m_srcFullRange buf |}.

Definition with_texture (t : Texture) (buf : BUFFER) : BUFFER :=
  {| videoBuffer := videoBuffer buf; fence := fence buf; texture := t;
     m_srcPrimaries := m_srcPrimaries buf; m_srcColSpace := m_srcColSpace buf;
     m_srcBits := m_srcBits buf; m_srcFullRange := m_srcFullRange buf |}.

Definition with_source (primaries colSpace bits : Z) (fullRange : bool)
    (buf : BUFFER) : BUFFER :=
  {| videoBuffer := videoBuffer buf; fence := fence buf; texture := texture buf;
     m_srcPrimaries := primaries; m_srcColSpace := colSpace;
     m_srcBits := bits; m_srcFullRange := fullRange |}.

(** *** Collaborators *)

(** Modelled from the spec: [CVideoBuffer::Acquire] and
    [CVideoBuffer::Release], which VideoBuffer.h declares; "Acquire/Release
    adjust a shared refcount". *)
Definition BufferAcquire_ (b : ptr) (s : State) : State :=
  on_buffer b (with_refCount (fun n => n + 1)) (emit (BufferAcquire b) s).

Definition BufferRelease_ (b : ptr) (s : State) : State :=
  on_buffer b (with_refCount (fun n => n - 1)) (emit (BufferRelease b) s).

(** [if (buf.fence) buf.fence->DestroyFence();] with, modelled from the
    spec, a [CEGLFence::DestroyFence] that leaves the fence without sync
    object. *)
Definition DestroyFence (index : nat) (s : State) : State :=
  match fence <$> m_buffers s !! index with
  | Some (Some _) => on_slot index (with_fence (Some NoSync)) (emit (FenceDestroy index) s)
  | _ => s
  end.

(** [buf.fence->CreateFence()] with, modelled from the spec, a
    [CEGLFence::CreateFence] after which a fresh sync object, not yet
    signaled, has taken the place of whatever the fence held ("records a
    new GPU completion fence ..., overwriting/recreating any prior
    fence"). *)
Definition CreateFence (index : nat) (s : State) : State :=
  match fence <$> m_buffers s !! index with
  | Some (Some _) => on_slot index (with_fence (Some Pending)) (emit (FenceCreate index) s)
  | _ => s
  end.

(** The GPU finishes the work a pending fence of the slot stands for. *)
Definition gpu_signal (index : nat) (s : State) : State :=
  match fence <$> m_buffers s !! index with
  | Some (Some Pending) => on_slot index (with_fence (Some Signaled)) s
  | _ => s
  end.

(** [buf.texture.Unmap()], modelled from the spec as said at [Texture]. *)
Definition TextureUnmap_ (index : nat) (s : State) : State :=
  on_slot index
    (fun buf => with_texture {| display := display (texture buf); mapped := None |} buf)
    (emit (TextureUnmap index) s).

(** [buf.texture.Map(buffer)], modelled from the spec as said at
    [Texture]: a mapped texture stays as it is, and whether a fresh import
    succeeds is up to EGL. *)
Definition TextureMap_ (w : World) (index : nat) (b : ptr) (s : State) : bool * State :=
  let s1 := emit (TextureMap index b) s in
  match (fun buf => mapped (texture buf)) <$> m_buffers s !! index with
  | Some (Some _) => (true, s1)
  | _ =>
      if TextureMap_result w b
      then (true, on_slot index
                    (fun buf => with_texture
                       {| display := display (texture buf); mapped := Some b |} buf) s1)
      else (false, s1)
  end.

(** *** Methods *)

Definition ReleaseBuffer (index : nat) (s : State) : State :=
  let s := DestroyFence index s in
  let s := TextureUnmap_ index s in
  match videoBuffer <$> m_buffers s !! index with
  | Some (Some b) => on_slot index (with_videoBuffer None) (BufferRelease_ b s)
  | _ => s
  end.

Definition Flush (saveBuffers : bool) (s : State) : bool * State :=
  (saveBuffers,
   if negb saveBuffers then foldl (fun s i => ReleaseBuffer i s) s (seq 0 NUM_BUFFERS)
   else s).

(** One turn of the loop over [m_buffers] in [Configure]. *)
Definition init_slot (eglDisplay : Z) (s : State) (index : nat) : State :=
  match fence <$> m_buffers s !! index with
  | Some None =>
      on_slot index
        (fun buf => with_fence (Some NoSync)
           (with_texture {| display := Some eglDisplay;
                            mapped := mapped (texture buf) |} buf))
        (emit (TextureInit index eglDisplay) s)
  | _ => s
  end.

Definition Configure (w : World) (picture : VideoPicture) (fps : Q)
    (orientation : Z) (s : State) : bool * State :=
  let s := set_source
             (Buffer.m_format (heap s (Buffer.videoBuffer picture)))
             (iWidth picture) (iHeight picture) orientation
             (Z.lor (Z.lor (Z.lor (GetFlagsChromaPosition w (chroma_position picture))
                                  (GetFlagsColorMatrix w (color_space picture)
                                     (iWidth picture) (iHeight picture)))
                           (GetFlagsColorPrimaries w (color_primaries picture)))
                    (GetFlagsStereoMode w (stereoMode picture))) s in
  let s := emit (CalculateFrameAspectRatio (iDisplayWidth picture) (iDisplayHeight picture)) s in
  let s := emit SetViewMode s in
  let s := emit ManageRenderArea s in
  let s := snd (Flush false s) in
  if negb (GetWinSystem w) then (false, s) else
  if negb (WinSystemIsEGL w) then (false, s) else
  let eglDisplay := GetEGLDisplay w in
  let s := foldl (init_slot eglDisplay) s (seq 0 (length (m_buffers s))) in
  (true, set_configured (if UseLimitedColor w then 16 # 255 else 0%Q) s).

Definition AddVideoPicture (picture : VideoPicture) (index : nat) (s : State) : State :=
  let s :=
    match videoBuffer <$> m_buffers s !! index with
    | Some (Some old) =>
        let s := emit (LogError "unreleased video buffer") s in
        let s := DestroyFence index s in
        let s := TextureUnmap_ index s in
        BufferRelease_ old s
    | _ => s
    end in
  let s := on_slot index (with_videoBuffer (Some (Buffer.videoBuffer picture))) s in
  let s := BufferAcquire_ (Buffer.videoBuffer picture) s in
  let colSpace :=
    if color_space picture =? AVCOL_SPC_UNSPECIFIED then
      if (1024 <? iWidth picture) || (600 <=? iHeight picture)
      then AVCOL_SPC_BT709 else AVCOL_SPC_BT470BG
    else color_space picture in
  on_slot index
    (with_source (color_primaries picture) colSpace (colorBits picture)
       (color_range picture =? 1)) s.

Definition NeedBuffer (index : nat) (s : State) : option bool :=
  match fence <$> m_buffers s !! index with
  | Some (Some f) => Some (negb (IsSignaled f))
  | _ => None
  end.

(** The GL calls of lines 313 to 469 write no member of the class; they
    stand in the trace as the one call [DrawQuad]. *)
Definition RenderUpdate (w : World) (index index2 : nat) (clear : bool)
    (flags alpha : Z) (s : State) : State :=
  if negb (m_configured s) then s else
  let s := emit ManageRenderArea s in
  let s := if clear
           then (if alpha =? 255 then emit DrawBlackBars s else emit GlClear s)
           else s in
  let s := emit (GlBlend (alpha <? 255)) s in
  match videoBuffer <$> m_buffers s !! index with
  | Some (Some b) =>
      if negb (IsDRMPRIME w b && IsValid w b) then s else
      let '(ok, s) := TextureMap_ w index b s in
      if negb ok then s else
      if negb (GetRenderSystem w) then s else
      let s := emit (DrawQuad index) s in
      let s := CreateFence index s in
      emit (GlBlend true) (emit VerifyGLState s)
  | _ => s
  end.

(** *** What the properties are stated about *)

(** The reference count of the buffer at [x]. *)
Definition refs (s : State) (x : ptr) : Z := m_refCount (heap s x).

(** The slot at [index], if the array has one. *)
Definition slot (s : State) (index : nat) : option BUFFER := m_buffers s !! index.

(** The configuration members, which no slot operation writes. *)
Definition same_source (s s' : State) : Prop :=
  m_configured s' = m_configured s /\ m_format s' = m_format s /\
  m_sourceWidth s' = m_sourceWidth s /\ m_sourceHeight s' = m_sourceHeight s /\
  m_renderOrientation s' = m_renderOrientation s.

(** The buffer pointer of slot [j], as far as the array reaches. *)
Definition occupant (s : State) (j : nat) : option (option ptr) :=
  videoBuffer <$> m_buffers s !! j.

(** The calls that the step from [s] to [s'] added to the trace. *)
Definition new_calls (s s' : State) : list Call :=
  skipn (length (calls s)) (calls s').

(** [RenderUpdate] gets as far as the draw and the fence after it: the
    renderer is configured, the slot holds a valid DRM PRIME buffer whose
    texture is mapped or can be, there is a GLES render system, and the
    slot has its fence object. *)
Definition draws (w : World) (index : nat) (s : State) : bool :=
  m_configured s &&
  match m_buffers s !! index with
  | Some buf =>
      match videoBuffer buf, fence buf with
      | Some b, Some _ =>
          IsDRMPRIME w b && IsValid w b && GetRenderSystem w &&
          (match mapped (texture buf) with Some _ => true | None => false end
           || TextureMap_result w b)
      | _, _ => false
      end
  | None => false
  end.

(** The spec's words for [NeedBuffer] ("NeedsSlot"): the slot is
    "reusable by the upstream producer once its GPU fence reports
    signaled" and the call "returns not yet needed while unsignaled", that
    is false while the fence is pending and true once it is signaled. *)
Definition spec_NeedsSlot (index : nat) (s : State) : option bool :=
  match fence <$> m_buffers s !! index with
  | Some (Some f) => Some (IsSignaled f)
  | _ => None
  end.

(** *** The remaining methods *)

(** The destructor: [Flush(false);] *)
Definition destructor (s : State) : State := snd (Flush false s).

Definition ConfigChanged (picture : VideoPicture) (s : State) : bool :=
  negb (Buffer.m_format (heap s (Buffer.videoBuffer picture)) =? m_format s).

Definition Update (s : State) : State :=
  if negb (m_configured s) then s else emit ManageRenderArea s.

(** What the static [Create] asks: whether the EGL headers define the macro
    [EGL_EXT_image_dma_buf_import_modifiers], whether the buffer is a
    [CVideoBufferDRMPRIME], whether it gives its descriptor and whether the
    descriptor is null, whether the window system is one on EGL, and
    whether EGL can import the format with the modifier. *)
Record Factory := {
  import_modifiers_defined : bool;
  is_DRMPRIME : ptr -> bool;
  AcquireDescriptor_result : ptr -> bool;
  GetDescriptor_null : ptr -> bool;
  winSystemEGL : bool;
  SupportsFormatAndModifier : Z -> Z -> bool
}.

(** [Create]: whether a renderer is constructed, and the store of buffers
    afterwards.  The descriptor is acquired and released as the methods of
    the buffer are modelled from the spec in [Buffer]. *)
Definition Create (f : Factory) (buffer : option ptr) (h : store) : bool * store :=
  match buffer with
  | None => (false, h)
  | Some buf =>
      if negb (is_DRMPRIME f buf) then (false, h) else
      if import_modifiers_defined f then
        if negb (AcquireDescriptor_result f buf) then (false, h) else
        let h1 := update buf (with_descRefs (fun n => n + 1)) h in
        if GetDescriptor_null f buf
        then (false, update buf (with_descRefs (fun n => n - 1)) h1) else
        let desc := m_descriptor (h1 buf) in
        let modifier := format_modifier (object_at desc 0) in
        let format := format (layer_at desc 0) in
        let h2 := update buf (with_descRefs (fun n => n - 1)) h1 in
        if negb (winSystemEGL f) then (false, h2) else
        if negb (SupportsFormatAndModifier f format modifier) then (false, h2)
        else (true, h2)
      else (true, h)
  end.

(** *** More to state properties about *)

(** What [ReleaseBuffer] makes of its slot. *)
Definition released (buf : BUFFER) : BUFFER :=
  {| videoBuffer := None;
     fence := match fence buf with Some _ => Some NoSync | None => None end;
     texture := {| display := display (texture buf); mapped := None |};
     m_srcPrimaries := m_srcPrimaries buf; m_srcColSpace := m_srcColSpace buf;
     m_srcBits := m_srcBits buf; m_srcFullRange := m_srcFullRange buf |}.

(** What one turn of the loop in [Configure] makes of its slot. *)
Definition initialised (eglDisplay : Z) (buf : BUFFER) : BUFFER :=
  match fence buf with
  | None =>
      with_fence (Some NoSync)
        (with_texture {| display := Some eglDisplay;
                         mapped := mapped (texture buf) |} buf)
  | Some _ => buf
  end.

(** How many slots hold the buffer at [x]. *)
Definition slot_refs (s : State) (x : ptr) : Z :=
  Z.of_nat (length (List.filter
    (fun buf => bool_decide (videoBuffer buf = Some x)) (m_buffers s))).

(** The references to the buffer at [x] that are not the renderer's. *)
Definition external (s : State) (x : ptr) : Z := refs s x - slot_refs s x.

End Renderer.

(** ** Sample inputs *)

Module Samples.
Import Buffer Drm Geometry.

(** A 1920x1080 NV12 frame in one dma-buf, described the way VAAPI does:
    one layer per plane. *)
Definition nv12_descriptor : AVDRMFrameDescriptor :=
  {| nb_objects := 1;
     objects := [ {| fd := 7; format_modifier := 0 |} ];
     nb_layers := 2;
     layers :=
       [ {| format := DRM_FORMAT_R8; nb_planes := 1;
            planes := [ {| object_index := 0; offset := 0; pitch := 1920 |} ] |};
         {| format := DRM_FORMAT_GR88; nb_planes := 1;
            planes := [ {| object_index := 0; offset := 2073600; pitch := 1920 |} ] |} ] |}.

Definition picture_1080p (b : ptr) : VideoPicture :=
  {| videoBuffer := b; iWidth := 1920; iHeight := 1080;
     iDisplayWidth := 1920; iDisplayHeight := 1080;
     color_primaries := 1; color_space := 2; color_range := 0;
     colorBits := 8; chroma_position := 1; stereoMode := "" |}.

(** A buffer as the decoder hands it over: one reference, nothing
    imported. *)
Definition decoded (b : ptr) : CVideoBufferDRMPRIME :=
  {| m_refCount := 1; m_descRefs := 0; m_fb_id := 0;
     m_handles := [0; 0; 0; 0];
     m_descriptor := nv12_descriptor;
     m_picture := picture_1080p b;
     m_format := 0 |}.

Definition no_metadata : Bridge.hdr_output_metadata :=
  {| Bridge.metadata_type := 0; Bridge.type1_eotf := 0;
     Bridge.type1_metadata_type := 0;
     Bridge.type1_display_primaries := [(0, 0); (0, 0); (0, 0)];
     Bridge.type1_white_point := (0, 0);
     Bridge.max_display_mastering_luminance := 0;
     Bridge.min_display_mastering_luminance := 0;
     Bridge.max_cll := 0; Bridge.max_fall := 0 |}.

(** The bridge as its constructor leaves it. *)
Definition new_bridge : Bridge.State :=
  {| Bridge.m_buffer := None; Bridge.m_prev_buffer := None;
     Bridge.m_hdr_blob_id := 0; Bridge.m_hdr_metadata := no_metadata;
     Bridge.heap := decoded; Bridge.blobs := []; Bridge.calls := [] |}.

(** A display with a video plane and an HDR capable connector; the kernel
    answers every request.  [prime] and [addfb] are the return values of
    the two ioctls of [Map], [hdr] says whether the connector has the
    HDR_OUTPUT_METADATA property and [eotf] whether the EDID lists the
    transfer function. *)
Definition display (prime addfb : Z) (hdr eotf : bool) : Bridge.World :=
  {| Bridge.AcquireDescriptor_result := fun _ => true;
     Bridge.drmPrimeFDToHandle := fun prime_fd => (prime, 40 + prime_fd);
     Bridge.drmModeAddFB2WithModifiers := fun _ _ _ _ _ _ _ _ => (addfb, 90);
     Bridge.drmModeCreatePropertyBlob := fun _ => (0, 100);
     Bridge.GetVideoPlane := Some 31;
     Bridge.GetGuiPlane := Some 32;
     Bridge.GetConnector := Some 33;
     Bridge.GetCrtcId := 34;
     Bridge.GetPropertyValue := fun _ _ _ => (false, 0);
     Bridge.SupportsProperty := fun _ _ => hdr;
     Bridge.GetEDID := (true, []);
     Bridge.SupportsColorimetry := fun _ _ => false;
     Bridge.SupportsEOTF := fun _ _ => eotf;
     Bridge.GetColorEncoding := fun _ => "ITU-R BT.709 YCbCr";
     Bridge.GetColorRange := fun _ => "YCbCr limited range";
     Bridge.GetColorimetry := fun _ => "Default";
     Bridge.GetEOTF := fun _ => 2;
     Bridge.GetMasteringDisplayMetadata := fun _ => None;
     Bridge.GetContentLightMetadata := fun _ => None;
     Bridge.HDMI_STATIC_METADATA_TYPE1 := 0;
     Bridge.round_scaled := fun q scale => Bridge.num q * scale / Bridge.den q |}.

(** The mastering display and the light levels of an HDR10 picture whose
    light levels do not fit 16 bits. *)
Definition mastering : Bridge.AVMasteringDisplayMetadata :=
  let q n d := {| Bridge.num := n; Bridge.den := d |} in
  {| Bridge.display_primaries :=
       [(q 34000 50000, q 16000 50000); (q 13250 50000, q 34500 50000);
        (q 7500 50000, q 3000 50000)];
     Bridge.white_point := (q 15635 50000, q 16450 50000);
     Bridge.min_luminance := q 50 10000;
     Bridge.max_luminance := q 1000 1;
     Bridge.has_primaries := true;
     Bridge.has_luminance := true |}.

Definition bright_light : Bridge.AVContentLightMetadata :=
  {| Bridge.MaxCLL := 70000; Bridge.MaxFALL := 65536 |}.

(** The display [display 0 0 true true] showing pictures that carry
    [mastering] and [bright_light]. *)
Definition hdr_display : Bridge.World :=
  {| Bridge.AcquireDescriptor_result := fun _ => true;
     Bridge.drmPrimeFDToHandle := fun prime_fd => (0, 40 + prime_fd);
     Bridge.drmModeAddFB2WithModifiers := fun _ _ _ _ _ _ _ _ => (0, 90);
     Bridge.drmModeCreatePropertyBlob := fun _ => (0, 100);
     Bridge.GetVideoPlane := Some 31;
     Bridge.GetGuiPlane := Some 32;
     Bridge.GetConnector := Some 33;
     Bridge.GetCrtcId := 34;
     Bridge.GetPropertyValue := fun _ _ _ => (false, 0);
     Bridge.SupportsProperty := fun _ _ => true;
     Bridge.GetEDID := (true, []);
     Bridge.SupportsColorimetry := fun _ _ => false;
     Bridge.SupportsEOTF := fun _ _ => true;
     Bridge.GetColorEncoding := fun _ => "ITU-R BT.2020 YCbCr";
     Bridge.GetColorRange := fun _ => "YCbCr limited range";
     Bridge.GetColorimetry := fun _ => "BT2020_YCC";
     Bridge.GetEOTF := fun _ => 2;
     Bridge.GetMasteringDisplayMetadata := fun _ => Some mastering;
     Bridge.GetContentLightMetadata := fun _ => Some bright_light;
     Bridge.HDMI_STATIC_METADATA_TYPE1 := 0;
     Bridge.round_scaled := fun q scale => Bridge.num q * scale / Bridge.den q |}.

(** The destination rectangle x1=101, y1=50, width=639, height=359. *)
Definition odd_rect : CRect :=
  {| x1 := 101; y1 := 50; x2 := 740; y2 := 409 |}.

(** A destination rectangle 640.5 wide. *)
Definition half_pixel_rect : CRect :=
  {| x1 := 0; y1 := 0; x2 := 1281 # 2; y2 := 360 |}.

(** Three layers: two single-channel ones and an interleaved pair. *)
Definition three_layers : AVDRMFrameDescriptor :=
  {| nb_objects := 1;
     objects := [ {| fd := 7; format_modifier := 0 |} ];
     nb_layers := 3;
     layers :=
       [ {| format := DRM_FORMAT_R8; nb_planes := 1;
            planes := [ {| object_index := 0; offset := 0; pitch := 1920 |} ] |};
         {| format := DRM_FORMAT_R8; nb_planes := 1;
            planes := [ {| object_index := 0; offset := 2073600; pitch := 960 |} ] |};
         {| format := DRM_FORMAT_GR88; nb_planes := 1;
            planes := [ {| object_index := 0; offset := 2592000; pitch := 1920 |} ] |} ] |}.

(** The renderer as its constructor leaves it. *)
Definition new_renderer : Renderer.State :=
  {| Renderer.m_buffers := replicate Renderer.NUM_BUFFERS Renderer.empty_BUFFER;
     Renderer.m_configured := false;
     Renderer.m_format := 0;
     Renderer.m_sourceWidth := 0; Renderer.m_sourceHeight := 0;
     Renderer.m_renderOrientation := 0; Renderer.m_iFlags := 0;
     Renderer.m_clearColour := 0%Q;
     Renderer.heap := decoded; Renderer.calls := [] |}.

(** A GLES window system on EGL when [egl] holds, none at all otherwise. *)
Definition desktop (egl : bool) : Renderer.World :=
  {| Renderer.GetWinSystem := egl;
     Renderer.WinSystemIsEGL := egl;
     Renderer.GetEGLDisplay := 1;
     Renderer.UseLimitedColor := false;
     Renderer.GetRenderSystem := true;
     Renderer.IsDRMPRIME := fun _ => true;
     Renderer.IsValid := fun _ => true;
     Renderer.TextureMap_result := fun _ => true;
     Renderer.GetFlagsChromaPosition := fun _ => 0;
     Renderer.GetFlagsColorMatrix := fun _ _ _ => 0;
     Renderer.GetFlagsColorPrimaries := fun _ => 0;
     Renderer.GetFlagsStereoMode := fun _ => 0 |}.

(** A configured renderer that was given buffer 1 for slot 0. *)
Definition playing : Renderer.State :=
  Renderer.AddVideoPicture (picture_1080p 1%nat) 0%nat
    (snd (Renderer.Configure (desktop true) (picture_1080p 1%nat) 25 0 new_renderer)).

(** A 720x576 picture in buffer 2. *)
Definition picture_576p : VideoPicture :=
  {| videoBuffer := 2%nat; iWidth := 720; iHeight := 576;
     iDisplayWidth := 768; iDisplayHeight := 576;
     color_primaries := 5; color_space := 2; color_range := 0;
     colorBits := 8; chroma_position := 1; stereoMode := "" |}.

End Samples.

(** * Properties *)

(** ** The store *)

Module BufferFacts.
Import Buffer.

Lemma update_eq p f (h : store) : update p f h p = f (h p).
Proof. unfold update. apply fn_lookup_insert. Qed.

Lemma update_ne p q f (h : store) : p <> q -> update p f h q = h q.
Proof. unfold update. apply fn_lookup_insert_ne. Qed.

Lemma update_at p q f (h : store) :
  update p f h q = if decide (p = q) then f (h q) else h q.
Proof.
  destruct (decide (p = q)) as [->|Hne].
  - apply update_eq.
  - now apply update_ne.
Qed.

(** A field that [f] does not write reads the same through [update]. *)
Lemma update_frame {A} (field : CVideoBufferDRMPRIME -> A) p q f (h : store) :
  (forall v, field (f v) = field v) -> field (update p f h q) = field (h q).
Proof.
  intros Hf. rewrite update_at. destruct (decide (p = q)); [apply Hf | reflexivity].
Qed.

Lemma nth_insert (l : list Z) (i j : nat) (v d : Z) :
  nth j (<[i:=v]> l) d =
  if decide (i = j /\ (i < length l)%nat) then v else nth j l d.
Proof.
  case_decide as H.
  - destruct H as [<- Hi]. revert i Hi.
    induction l as [|a l IH]; intros i Hi; simpl in Hi; [lia|].
    destruct i as [|i]; simpl; [reflexivity|]. apply IH. lia.
  - revert i j H. induction l as [|a l IH]; intros i j H; [reflexivity|].
    destruct i as [|i], j as [|j]; simpl; try reflexivity.
    + exfalso. apply H. simpl. split; [reflexivity | lia].
    + apply IH. intros [-> Hi]. apply H. simpl. split; [reflexivity | lia].
Qed.

(** Writing zero into a slot of [m_handles] leaves a zero wherever one
    was and puts one at the slot. *)
Lemma handle_cleared (b : CVideoBufferDRMPRIME) (i j : nat) :
  i = j \/ handle b j = 0 -> handle (with_handle i 0 b) j = 0.
Proof.
  unfold handle, with_handle; simpl. rewrite nth_insert.
  intros [-> | Hz].
  - case_decide as H; [reflexivity |].
    apply nth_overflow. destruct (decide (j < length (m_handles b))%nat); [|lia].
    exfalso. apply H. split; [reflexivity | assumption].
  - case_decide; [reflexivity | exact Hz].
Qed.

Lemma in_planes (i : nat) :
  In i (seq 0 AV_DRM_MAX_PLANES) <-> (i < AV_DRM_MAX_PLANES)%nat.
Proof. rewrite in_seq. unfold AV_DRM_MAX_PLANES. lia. Qed.

End BufferFacts.

(** ** The bridge *)

Module BridgeFacts.
Import Buffer Drm Geometry Bridge BufferFacts.

(** Reads a member through the setters. *)
Ltac members :=
  cbn [m_buffer m_prev_buffer m_hdr_blob_id m_hdr_metadata heap blobs calls
       on_buffer emit set_buffers set_blob_id set_metadata set_blobs
       m_refCount m_descRefs m_fb_id m_handles m_descriptor m_picture
       Buffer.m_format with_refCount with_descRefs with_fb_id with_handle] in *.

(** *** Unmap *)

Section UnmapFacts.
Variable b : ptr.

Lemma close_handle_members (s : State) (i : nat) :
  m_buffer (close_handle b s i) = m_buffer s /\
  m_prev_buffer (close_handle b s i) = m_prev_buffer s /\
  m_hdr_blob_id (close_handle b s i) = m_hdr_blob_id s /\
  blobs (close_handle b s i) = blobs s.
Proof. unfold close_handle. destruct (_ =? 0); simpl; auto. Qed.

Lemma close_handle_frame {A} (field : CVideoBufferDRMPRIME -> A) (s : State) i x :
  (forall j v, field (with_handle j 0 v) = field v) ->
  field (heap (close_handle b s i) x) = field (heap s x).
Proof.
  intros Hf. unfold close_handle. destruct (_ =? 0); simpl; [reflexivity|].
  apply update_frame. apply Hf.
Qed.

Lemma close_handle_other (s : State) i x :
  x <> b -> heap (close_handle b s i) x = heap s x.
Proof.
  intros Hne. unfold close_handle. destruct (_ =? 0); simpl; [reflexivity|].
  apply update_ne. congruence.
Qed.

Lemma close_handle_zero (s : State) i j :
  i = j \/ handle (heap s b) j = 0 -> handle (heap (close_handle b s i) b) j = 0.
Proof.
  intros H. unfold close_handle.
  destruct (handle (heap s b) i =? 0) eqn:E; simpl.
  - destruct H as [-> | H]; [now apply Z.eqb_eq | exact H].
  - rewrite update_eq. now apply handle_cleared.
Qed.

Lemma close_handles_zero (l : list nat) (s : State) j :
  In j l \/ handle (heap s b) j = 0 ->
  handle (heap (foldl (close_handle b) s l) b) j = 0.
Proof.
  revert s. induction l as [|i l IH]; intros s H; simpl.
  - destruct H as [[] | H]; exact H.
  - apply IH. destruct H as [[-> | Hin] | Hz].
    + right. apply close_handle_zero. now left.
    + now left.
    + right. apply close_handle_zero. now right.
Qed.

Lemma close_handles_members (l : list nat) (s : State) :
  m_buffer (foldl (close_handle b) s l) = m_buffer s /\
  m_prev_buffer (foldl (close_handle b) s l) = m_prev_buffer s /\
  m_hdr_blob_id (foldl (close_handle b) s l) = m_hdr_blob_id s /\
  blobs (foldl (close_handle b) s l) = blobs s.
Proof.
  revert s. induction l as [|i l IH]; intros s; simpl; [auto|].
  destruct (IH (close_handle b s i)) as (-> & -> & -> & ->).
  apply close_handle_members.
Qed.

Lemma close_handles_frame {A} (field : CVideoBufferDRMPRIME -> A) l (s : State) x :
  (forall j v, field (with_handle j 0 v) = field v) ->
  field (heap (foldl (close_handle b) s l) x) = field (heap s x).
Proof.
  intros Hf. revert s. induction l as [|i l IH]; intros s; simpl; [reflexivity|].
  rewrite IH. now apply close_handle_frame.
Qed.

Lemma close_handles_other l (s : State) x :
  x <> b -> heap (foldl (close_handle b) s l) x = heap s x.
Proof.
  intros Hne. revert s. induction l as [|i l IH]; intros s; simpl; [reflexivity|].
  rewrite IH. now apply close_handle_other.
Qed.

(** With every slot already zero the loop issues no call at all. *)
Lemma close_handles_idle l (s : State) :
  (forall i, In i l -> handle (heap s b) i = 0) ->
  foldl (close_handle b) s l = s.
Proof.
  revert s. induction l as [|i l IH]; intros s H; simpl; [reflexivity|].
  assert (close_handle b s i = s) as ->.
  { unfold close_handle. rewrite (H i) by now left. reflexivity. }
  apply IH. intros k Hk. apply H. now right.
Qed.

Lemma Unmap_members (s : State) :
  m_buffer (Unmap b s) = m_buffer s /\
  m_prev_buffer (Unmap b s) = m_prev_buffer s /\
  m_hdr_blob_id (Unmap b s) = m_hdr_blob_id s /\
  blobs (Unmap b s) = blobs s.
Proof.
  unfold Unmap, ReleaseDescriptor. members.
  match goal with |- context [foldl _ ?s0 ?l] =>
    destruct (close_handles_members l s0) as (-> & -> & -> & ->) end.
  destruct (_ =? 0); members; auto.
Qed.

Lemma Unmap_refs (s : State) x : refs (Unmap b s) x = refs s x.
Proof.
  unfold refs, Unmap, ReleaseDescriptor. members.
  rewrite update_frame by reflexivity.
  rewrite close_handles_frame by reflexivity.
  destruct (_ =? 0); members; [reflexivity|].
  now rewrite update_frame.
Qed.

Lemma Unmap_other (s : State) x : x <> b -> heap (Unmap b s) x = heap s x.
Proof.
  intros Hne. unfold Unmap, ReleaseDescriptor. members.
  rewrite update_ne by congruence.
  rewrite close_handles_other by assumption.
  destruct (_ =? 0); members; [reflexivity|].
  apply update_ne. congruence.
Qed.

Lemma Unmap_fb_id (s : State) : m_fb_id (heap (Unmap b s) b) = 0.
Proof.
  unfold Unmap, ReleaseDescriptor. members.
  rewrite update_eq. members.
  rewrite close_handles_frame by reflexivity.
  destruct (m_fb_id (heap s b) =? 0) eqn:E; members.
  - now apply Z.eqb_eq.
  - now rewrite update_eq.
Qed.

Lemma Unmap_handles (s : State) i :
  (i < AV_DRM_MAX_PLANES)%nat -> handle (heap (Unmap b s) b) i = 0.
Proof.
  intros Hi. unfold Unmap, ReleaseDescriptor. cbn [heap on_buffer emit].
  rewrite update_eq.
  change (handle (with_descRefs ?f ?v) i) with (handle v i).
  apply close_handles_zero. left. now apply in_planes.
Qed.

Lemma Unmap_descRefs (s : State) :
  m_descRefs (heap (Unmap b s) b) = m_descRefs (heap s b) - 1.
Proof.
  unfold Unmap, ReleaseDescriptor. members.
  rewrite update_eq. members.
  rewrite close_handles_frame by reflexivity.
  destruct (_ =? 0); members; [reflexivity|].
  now rewrite update_eq.
Qed.

Lemma Unmap_idle (s : State) :
  m_fb_id (heap s b) = 0 ->
  (forall i, (i < AV_DRM_MAX_PLANES)%nat -> handle (heap s b) i = 0) ->
  calls (Unmap b s) = calls s ++ [BufferReleaseDescriptor b].
Proof.
  intros Hfb Hh. unfold Unmap. rewrite Hfb. simpl (0 =? 0).
  cbv iota. rewrite close_handles_idle; [reflexivity|].
  intros i Hi. apply Hh. now apply in_planes.
Qed.

(** A turn of the loop writes its own slot only. *)
Lemma close_handle_at (s : State) (i j : nat) :
  handle (heap (close_handle b s i) b) j =
  if decide (i = j) then 0 else handle (heap s b) j.
Proof.
  case_decide as H.
  - apply close_handle_zero. now left.
  - unfold close_handle. destruct (_ =? 0); members; [reflexivity|].
    rewrite update_eq. unfold handle, with_handle. members.
    rewrite nth_insert. case_decide as H'; [|reflexivity].
    destruct H' as [H' _]. contradiction.
Qed.

Lemma close_handle_call (s : State) (i : nat) :
  calls (close_handle b s i) =
  calls s ++ map GemClose
    (List.filter (fun h => negb (h =? 0)) [handle (heap s b) i]).
Proof.
  unfold close_handle. cbn [List.filter map].
  destruct (handle (heap s b) i =? 0); cbn [negb map]; members;
    [now rewrite app_nil_r | reflexivity].
Qed.

(** The loop closes each handle that is not zero, once, in the order of
    the slots. *)
Lemma close_handles_trace (l : list nat) (s : State) :
  NoDup l ->
  calls (foldl (close_handle b) s l) =
  calls s ++ map GemClose
    (List.filter (fun h => negb (h =? 0)) (map (handle (heap s b)) l)).
Proof.
  revert s. induction l as [|i l IH]; intros s Hnd; cbn [foldl map List.filter].
  - now rewrite app_nil_r.
  - apply NoDup_cons in Hnd as [Hi Hnd].
    rewrite (IH _ Hnd), close_handle_call, <- app_assoc, <- map_app.
    f_equal. f_equal. cbn [List.filter].
    assert (E : map (handle (heap (close_handle b s i) b)) l
                = map (handle (heap s b)) l).
    { apply map_ext_in. intros j Hj. rewrite close_handle_at.
      case_decide as Hij; [|reflexivity].
      subst j. exfalso. apply Hi. now apply list_elem_of_In. }
    rewrite E. destruct (negb (handle (heap s b) i =? 0)); reflexivity.
Qed.

(** The calls of [Unmap]: the removal of the framebuffer when there is
    one, the closing of each handle there is, and the release of the
    descriptor. *)
Lemma Unmap_trace (s : State) :
  calls (Unmap b s) =
  calls s ++
  (if m_fb_id (heap s b) =? 0 then [] else [RmFB (m_fb_id (heap s b))]) ++
  map GemClose (live_handles (heap s b)) ++
  [BufferReleaseDescriptor b].
Proof.
  unfold Unmap, ReleaseDescriptor, live_handles. members.
  rewrite close_handles_trace by apply NoDup_seq.
  destruct (m_fb_id (heap s b) =? 0); members.
  - now rewrite <- !app_assoc.
  - rewrite update_eq. rewrite <- !app_assoc. reflexivity.
Qed.

End UnmapFacts.

(** *** Release and Acquire *)

Lemma Release_members (p : option ptr) (s : State) :
  m_buffer (Release p s) = m_buffer s /\
  m_prev_buffer (Release p s) = m_prev_buffer s /\
  m_hdr_blob_id (Release p s) = m_hdr_blob_id s /\
  blobs (Release p s) = blobs s.
Proof.
  destruct p as [b|]; [|simpl; auto].
  unfold Release, BufferRelease_. members. apply Unmap_members.
Qed.

Lemma Release_refs (p : option ptr) (s : State) (x : ptr) :
  refs (Release p s) x = refs s x - (if decide (p = Some x) then 1 else 0).
Proof.
  destruct p as [b|]; cbn [Release].
  - pose proof (Unmap_refs b s x) as HU.
    unfold refs, BufferRelease_ in *. members. rewrite update_at.
    destruct (decide (b = x)) as [->|Hne]; case_decide; try congruence; members; lia.
  - case_decide; [discriminate | lia].
Qed.

Lemma Release_other (p : option ptr) (s : State) (x : ptr) :
  p <> Some x -> heap (Release p s) x = heap s x.
Proof.
  intros Hne. destruct p as [b|]; simpl; [|reflexivity].
  unfold BufferRelease_. members.
  rewrite update_ne by congruence. apply Unmap_other. congruence.
Qed.

Lemma Acquire_buffer (b : ptr) (s : State) : m_buffer (Acquire b s) = Some b.
Proof. reflexivity. Qed.

Lemma Acquire_prev (b : ptr) (s : State) : m_prev_buffer (Acquire b s) = m_buffer s.
Proof.
  unfold Acquire, BufferAcquire_. members. apply Release_members.
Qed.

Lemma Acquire_refs (b : ptr) (s : State) (x : ptr) :
  refs (Acquire b s) x =
  refs s x + (if decide (b = x) then 1 else 0)
           - (if decide (m_prev_buffer s = Some x) then 1 else 0).
Proof.
  unfold refs, Acquire, BufferAcquire_. members. rewrite update_at.
  pose proof (Release_refs (m_prev_buffer s) s x) as HR. unfold refs in HR.
  destruct (decide (b = x)); members; lia.
Qed.

(** What other owners hold on a buffer, that is its count less the
    references of the bridge, is the same before and after [Acquire]. *)
Lemma Acquire_balance (b : ptr) (s : State) (x : ptr) :
  refs (Acquire b s) x - held (Acquire b s) x = refs s x - held s x.
Proof.
  rewrite Acquire_refs. unfold held.
  rewrite Acquire_prev, Acquire_buffer.
  repeat case_decide; try congruence; lia.
Qed.

(** *** Counting calls *)

Lemma count_emit (P : Call -> bool) (c : Call) (s : State) :
  count P (emit c s) = (count P s + (if P c then 1 else 0))%nat.
Proof.
  unfold count. members. rewrite List.filter_app, length_app.
  cbn [List.filter]. destruct (P c); reflexivity.
Qed.

Lemma count_close_handles (P : Call -> bool) (b : ptr) l (s : State) :
  (forall h, P (GemClose h) = false) ->
  count P (foldl (close_handle b) s l) = count P s.
Proof.
  intros HP. revert s. induction l as [|i l IH]; intros s; cbn [foldl]; [reflexivity|].
  rewrite IH. unfold close_handle. destruct (_ =? 0); [reflexivity|].
  change (count P (on_buffer b ?f ?t)) with (count P t).
  rewrite count_emit, HP. lia.
Qed.

Lemma count_Unmap (P : Call -> bool) (b : ptr) (s : State) :
  (forall c, is_release c = true -> P c = false) ->
  count P (Unmap b s) = count P s.
Proof.
  intros HP. unfold Unmap, ReleaseDescriptor.
  change (count P (on_buffer b ?f ?t)) with (count P t).
  rewrite count_emit, HP by reflexivity.
  rewrite count_close_handles by (intros; now apply HP).
  destruct (_ =? 0).
  - lia.
  - change (count P (on_buffer b ?f ?t)) with (count P t).
    rewrite count_emit, HP by reflexivity. lia.
Qed.

Lemma count_Release (P : Call -> bool) (p : option ptr) (s : State) :
  (forall c, is_release c = true -> P c = false) ->
  count P (Release p s) = count P s.
Proof.
  intros HP. destruct p as [b|]; cbn [Release]; [|reflexivity].
  unfold BufferRelease_.
  change (count P (on_buffer b ?f ?t)) with (count P t).
  rewrite count_emit, HP by reflexivity. rewrite count_Unmap by assumption. lia.
Qed.

Lemma count_Acquire (P : Call -> bool) (b : ptr) (s : State) :
  (forall c, is_release c = true -> P c = false) ->
  count P (Acquire b s) = count P s.
Proof.
  intros HP. unfold Acquire, BufferAcquire_.
  change (count P (on_buffer b ?f ?t)) with (count P t).
  rewrite count_emit, HP by reflexivity.
  change (count P (set_buffers ?x ?y ?t)) with (count P t).
  rewrite count_Release by assumption. lia.
Qed.

(** *** Steps that touch one buffer only *)

Lemma touches_refl (b : ptr) (s : State) : touches_only b s s.
Proof. repeat split. Qed.

Lemma touches_trans (b : ptr) (s s' s'' : State) :
  touches_only b s s' -> touches_only b s' s'' -> touches_only b s s''.
Proof.
  intros (A1 & A2 & A3 & A4 & A5 & A6) (B1 & B2 & B3 & B4 & B5 & B6).
  unfold touches_only.
  rewrite B1, B2, B3, B4, A1, A2, A3, A4.
  do 4 (split; [reflexivity|]). split.
  - intros x. now rewrite B5.
  - intros x Hx. rewrite B6 by assumption. now apply A6.
Qed.

Lemma touches_emit (b : ptr) (c : Call) (s : State) : touches_only b s (emit c s).
Proof. repeat split. Qed.

Lemma touches_on_buffer (b : ptr) f (s : State) :
  (forall v, m_refCount (f v) = m_refCount v) ->
  touches_only b s (on_buffer b f s).
Proof.
  intros Hf. unfold touches_only. do 4 (split; [reflexivity|]). split.
  - intros x. unfold refs. members. now apply update_frame.
  - intros x Hx. members. apply update_ne. congruence.
Qed.

Lemma touches_convert (w : World) (b : ptr) d todo (s : State) :
  touches_only b s (snd (convert_objects w b d todo s)).
Proof.
  revert s. induction todo as [|object rest IH]; intros s; cbn [convert_objects].
  - apply touches_refl.
  - destruct (drmPrimeFDToHandle w _) as [ret gem].
    set (s2 := if ret =? 0 then _ else _).
    assert (H2 : touches_only b s s2).
    { subst s2. destruct (ret =? 0).
      - eapply touches_trans; [apply touches_emit | now apply touches_on_buffer].
      - apply touches_emit. }
    destruct (ret <? 0); cbn [snd].
    + eapply touches_trans; [exact H2 | apply touches_emit].
    + eapply touches_trans; [exact H2 | apply IH].
Qed.

(** The conversion loop leaves alone what is not a handle, and creates no
    framebuffer. *)
Lemma convert_frame {A} (field : CVideoBufferDRMPRIME -> A)
    (w : World) (b : ptr) d todo (s : State) x :
  (forall j v u, field (with_handle j v u) = field u) ->
  field (heap (snd (convert_objects w b d todo s)) x) = field (heap s x).
Proof.
  intros Hf. revert s. induction todo as [|object rest IH]; intros s;
    cbn [convert_objects]; [reflexivity|].
  destruct (drmPrimeFDToHandle w _) as [ret gem].
  assert (H2 : field (heap (if ret =? 0
                 then on_buffer b (with_handle object gem)
                        (emit (PrimeFDToHandle (fd (object_at d object))) s)
                 else emit (PrimeFDToHandle (fd (object_at d object))) s) x)
               = field (heap s x)).
  { destruct (ret =? 0); members; [|reflexivity]. apply update_frame. apply Hf. }
  destruct (ret <? 0); cbn [snd].
  - members. exact H2.
  - rewrite IH. exact H2.
Qed.

Lemma count_convert (P : Call -> bool) (w : World) (b : ptr) d todo (s : State) :
  (forall c, P c = true -> is_AddFB2 c = true \/ is_AddProperty c = true) ->
  count P (snd (convert_objects w b d todo s)) = count P s.
Proof.
  intros HP.
  assert (Hno : forall c, is_AddFB2 c = false -> is_AddProperty c = false -> P c = false).
  { intros c H1 H2. destruct (P c) eqn:E; [|reflexivity].
    destruct (HP c E); congruence. }
  revert s. induction todo as [|object rest IH]; intros s;
    cbn [convert_objects]; [reflexivity|].
  destruct (drmPrimeFDToHandle w _) as [ret gem].
  assert (H2 : count P (if ret =? 0
                 then on_buffer b (with_handle object gem)
                        (emit (PrimeFDToHandle (fd (object_at d object))) s)
                 else emit (PrimeFDToHandle (fd (object_at d object))) s)
               = count P s).
  { destruct (ret =? 0);
      [change (count P (on_buffer b ?f ?t)) with (count P t)|];
      rewrite count_emit, Hno by reflexivity; lia. }
  destruct (ret <? 0); cbn [snd].
  - rewrite count_emit, Hno by reflexivity. lia.
  - rewrite IH. exact H2.
Qed.

(** *** The shape of Map *)

Lemma Map_mapped (w : World) (b : ptr) (s : State) :
  m_fb_id (heap s b) <> 0 -> Map w b s = (true, s).
Proof.
  intros H. unfold Map. apply Z.eqb_neq in H. now rewrite H.
Qed.

(** On a buffer without framebuffer, [Map] either fails in a state that
    differs from the first in the import state of the buffer only, or it
    ends with [Acquire] from such a state. *)
Lemma Map_shape (w : World) (b : ptr) (s : State) :
  m_fb_id (heap s b) = 0 ->
  exists s3,
    touches_only b s s3 /\
    count is_AddProperty s3 = count is_AddProperty s /\
    (AcquireDescriptor_result w b = true ->
     m_descRefs (heap s3 b) = m_descRefs (heap s b) + 1) /\
    ((Map w b s = (false, s3) /\ m_fb_id (heap s3 b) = 0) \/
     (Map w b s = (true, Acquire b s3) /\
      count is_AddFB2 s3 = (count is_AddFB2 s + 1)%nat /\
      (kernel_ids w -> m_fb_id (heap s3 b) <> 0))).
Proof.
  intros Hfb. unfold Map. rewrite Hfb. cbn [Z.eqb negb].
  unfold AcquireDescriptor.
  destruct (AcquireDescriptor_result w b) eqn:Eacq; cbn [negb].
  2:{ exists (emit (Log LOGERROR "failed to acquire descriptor")
                (emit (BufferAcquireDescriptor b) s)).
      split; [|split; [|split; [discriminate|left; split; [reflexivity|]]]].
      - eapply touches_trans; apply touches_emit.
      - rewrite !count_emit. cbn. lia.
      - members. exact Hfb. }
  set (s0 := on_buffer b (with_descRefs (fun n => n + 1))
               (emit (BufferAcquireDescriptor b) s)).
  assert (T0 : touches_only b s s0).
  { eapply touches_trans; [apply touches_emit | now apply touches_on_buffer]. }
  assert (D0 : m_descRefs (heap s0 b) = m_descRefs (heap s b) + 1).
  { subst s0. members. now rewrite update_eq. }
  assert (F0 : m_fb_id (heap s0 b) = 0).
  { subst s0. members. now rewrite update_frame. }
  assert (P0 : count is_AddProperty s0 = count is_AddProperty s).
  { subst s0. change (count ?P (on_buffer b ?f ?t)) with (count P t).
    rewrite count_emit. cbn. lia. }
  assert (B0 : count is_AddFB2 s0 = count is_AddFB2 s).
  { subst s0. change (count ?P (on_buffer b ?f ?t)) with (count P t).
    rewrite count_emit. cbn. lia. }
  clearbody s0.
  set (d := m_descriptor (heap s0 b)).
  pose proof (touches_convert w b d (seq 0 (nb_objects d)) s0) as T1.
  pose proof (convert_frame m_descRefs w b d (seq 0 (nb_objects d)) s0 b
                ltac:(reflexivity)) as D1.
  pose proof (convert_frame m_fb_id w b d (seq 0 (nb_objects d)) s0 b
                ltac:(reflexivity)) as F1.
  pose proof (count_convert is_AddProperty w b d (seq 0 (nb_objects d)) s0
                ltac:(auto)) as P1.
  pose proof (count_convert is_AddFB2 w b d (seq 0 (nb_objects d)) s0
                ltac:(auto)) as B1.
  destruct (convert_objects w b d (seq 0 (nb_objects d)) s0) as [conv s1].
  cbn [snd] in *.
  destruct conv; cbn [negb].
  2:{ exists s1. split; [|split; [|split; [|left; split]]].
      - eapply touches_trans; eassumption.
      - congruence.
      - intros _. congruence.
      - reflexivity.
      - congruence. }
  match goal with
  | |- context [drmModeAddFB2WithModifiers w ?a1 ?a2 ?a3 ?a4 ?a5 ?a6 ?a7 ?a8] =>
      pose proof (fun Hk : kernel_ids w => Hk a1 a2 a3 a4 a5 a6 a7 a8) as Hid
  end.
  cbv zeta in Hid.
  destruct (drmModeAddFB2WithModifiers w _ _ _ _ _ _ _ _) as [ret fb].
  cbn [fst snd] in Hid.
  match goal with |- context [emit (AddFB2WithModifiers ?a1 ?a2 ?a3 ?a4 ?a5 ?a6 ?a7 ?a8) s1] =>
    set (call := AddFB2WithModifiers a1 a2 a3 a4 a5 a6 a7 a8) end.
  set (s3 := if ret =? 0 then on_buffer b (with_fb_id fb) (emit call s1)
             else emit call s1).
  assert (T3 : touches_only b s1 s3).
  { subst s3. destruct (ret =? 0).
    - eapply touches_trans; [apply touches_emit | now apply touches_on_buffer].
    - apply touches_emit. }
  assert (D3 : m_descRefs (heap s3 b) = m_descRefs (heap s1 b)).
  { subst s3. destruct (ret =? 0); members; [|reflexivity]. now rewrite update_frame. }
  assert (P3 : count is_AddProperty s3 = count is_AddProperty s1).
  { subst s3. destruct (ret =? 0);
      [change (count ?P (on_buffer b ?f ?t)) with (count P t)|];
      rewrite count_emit; cbn; lia. }
  assert (B3 : count is_AddFB2 s3 = (count is_AddFB2 s1 + 1)%nat).
  { subst s3. destruct (ret =? 0);
      [change (count ?P (on_buffer b ?f ?t)) with (count P t)|];
      rewrite count_emit; reflexivity. }
  destruct (ret <? 0) eqn:Eneg.
  - exists (emit (Log LOGERROR "failed to add fb {}, ret = {}") s3).
    split; [|split; [|split; [|left; split; [reflexivity|]]]].
    + eapply touches_trans; [|apply touches_emit].
      eapply touches_trans; [|exact T3]. eapply touches_trans; eassumption.
    + rewrite count_emit. cbn. lia.
    + intros _. members. congruence.
    + members. subst s3. apply Z.ltb_lt in Eneg.
      destruct (ret =? 0) eqn:Ez; [apply Z.eqb_eq in Ez; lia|].
      members. congruence.
  - exists s3. split; [|split; [|split; [|right; split; [reflexivity|split]]]].
    + eapply touches_trans; [|exact T3]. eapply touches_trans; eassumption.
    + lia.
    + intros _. congruence.
    + lia.
    + intros Hk. apply Z.ltb_ge in Eneg.
      destruct (Hid Hk) as [Hneg | [-> Hnz]]; [lia|].
      subst s3. cbn [Z.eqb]. members. now rewrite update_eq.
Qed.

Lemma stage_frame (o : option Z) (props : list (string * Z)) (s : State) :
  m_buffer (stage o props s) = m_buffer s /\
  m_prev_buffer (stage o props s) = m_prev_buffer s /\
  heap (stage o props s) = heap s.
Proof.
  unfold stage. revert s. induction props as [|p props IH]; intros s; cbn [foldl].
  - auto.
  - destruct (IH (emit (AddProperty o (fst p) (to_uint64 (snd p))) s)) as (-> & -> & ->).
    auto.
Qed.

Lemma Acquire_keeps_fb (b : ptr) (s : State) :
  m_prev_buffer s <> Some b ->
  m_fb_id (heap (Acquire b s) b) = m_fb_id (heap s b).
Proof.
  intros Hne. unfold Acquire, BufferAcquire_. members.
  rewrite update_frame by reflexivity. now rewrite Release_other.
Qed.

(** What [Acquire] releases is unmapped. *)
Lemma Acquire_released (b p : ptr) (s : State) :
  m_prev_buffer s = Some p ->
  m_fb_id (heap (Acquire b s) p) = 0 /\
  (forall i, (i < AV_DRM_MAX_PLANES)%nat -> handle (heap (Acquire b s) p) i = 0).
Proof.
  intros Hp. unfold Acquire, BufferAcquire_. rewrite Hp. cbn [Release].
  unfold BufferRelease_. members. split.
  - rewrite !update_frame by reflexivity. apply Unmap_fb_id.
  - intros i Hi.
    rewrite (update_frame (fun v => handle v i)) by reflexivity.
    rewrite (update_frame (fun v => handle v i)) by reflexivity.
    now apply Unmap_handles.
Qed.

(** *** Map fails *)



(** *** Pixel format and flags *)

Lemma formats_distinct :
  DRM_FORMAT_R8 <> DRM_FORMAT_R16 /\ DRM_FORMAT_R8 <> DRM_FORMAT_GR88 /\
  DRM_FORMAT_GR88 <> DRM_FORMAT_GR1616.
Proof. repeat split; vm_compute; discriminate. Qed.

Ltac format_cases :=
  repeat match goal with
         | |- context [(?a =? ?b)%nat] => destruct (Nat.eqb_spec a b)
         | |- context [?a =? ?b] => destruct (Z.eqb_spec a b)
         end; cbn [andb].

(** *** The rectangles of SetVideoPlane *)

Lemma land_clear_bit0 (t : Z) : Z.land t (Z.lnot 1) = 2 * (t / 2).
Proof.
  rewrite <- Z.ldiff_land. change 1 with (Z.ones 1).
  rewrite Z.ldiff_ones_r by lia.
  rewrite Z.shiftr_div_pow2, Z.shiftl_mul_pow2 by lia.
  change (2 ^ 1) with 2. lia.
Qed.

Lemma land_clear_bit0_uint32 (v : Z) :
  0 <= v < 2 ^ 32 -> Z.land v (to_uint32 (Z.lnot 1)) = 2 * (v / 2).
Proof.
  intros Hv.
  change (to_uint32 (Z.lnot 1)) with (Z.land (Z.lnot 1) (Z.ones 32)).
  rewrite Z.land_comm, <- Z.land_assoc, (Z.land_comm _ v).
  rewrite Z.land_ones by lia. rewrite Z.mod_small by lia.
  rewrite Z.land_comm. apply land_clear_bit0.
Qed.

Lemma to_int32_small (t : Z) : - 2 ^ 31 <= t < 2 ^ 31 -> to_int32 t = t.
Proof. intros H. unfold to_int32. rewrite Z.mod_small; lia. Qed.

Lemma to_uint32_small (t : Z) : 0 <= t < 2 ^ 32 -> to_uint32 t = t.
Proof. intros H. unfold to_uint32. now rewrite Z.mod_small. Qed.

Lemma shiftl16_small (n : Z) :
  0 <= n < 2 ^ 16 -> to_uint32 (Z.shiftl n 16) = n * 65536.
Proof.
  intros H. rewrite Z.shiftl_mul_pow2 by lia. change (2 ^ 16) with 65536 in *.
  apply to_uint32_small. lia.
Qed.

(** A float that holds a whole number casts to that number. *)
Lemma truncate_whole (f : Q) (n : Z) : (f == inject_Z n)%Q -> truncate f = n.
Proof.
  unfold Qeq, truncate, inject_Z. cbn [Qnum Qden]. intros H.
  rewrite Z.mul_1_r in H. rewrite H. apply Z.quot_mul. discriminate.
Qed.

Lemma round_down_whole (f : Q) (n : Z) :
  (f == inject_Z n)%Q -> spec_round_down_even f = 2 * (n / 2).
Proof.
  intros H. unfold spec_round_down_even. rewrite H.
  unfold Qfloor, Qdiv, Qmult, Qinv, inject_Z. cbn [Qnum Qden].
  change (Z.pos (1 * 2)) with 2. now rewrite Z.mul_1_r.
Qed.

Lemma round_up_whole (f : Q) (n : Z) :
  (f == inject_Z n)%Q -> spec_round_up_even f = 2 * ((n + 1) / 2).
Proof.
  intros H. unfold spec_round_up_even. rewrite H.
  unfold Qceiling, Qfloor, Qdiv, Qmult, Qinv, Qopp, inject_Z. cbn [Qnum Qden].
  change (Z.pos (1 * 2)) with 2. rewrite Z.mul_1_r.
  pose proof (Z.div_mod n 2 ltac:(lia)). pose proof (Z.mod_pos_bound n 2 ltac:(lia)).
  pose proof (Z.div_mod (- n) 2 ltac:(lia)). pose proof (Z.mod_pos_bound (- n) 2 ltac:(lia)).
  pose proof (Z.div_mod (n + 1) 2 ltac:(lia)). pose proof (Z.mod_pos_bound (n + 1) 2 ltac:(lia)).
  lia.
Qed.

Lemma stage_calls (o : option Z) (props : list (string * Z)) (s : State) :
  calls (stage o props s) =
  calls s ++ map (fun p => AddProperty o (fst p) (to_uint64 (snd p))) props.
Proof.
  unfold stage. revert s. induction props as [|p props IH]; intros s; cbn [foldl map].
  - now rewrite app_nil_r.
  - rewrite IH. members. now rewrite <- app_assoc.
Qed.

(** *** The HDR metadata blob *)

Lemma new_calls_app (s s' : State) (cs : list Call) :
  calls s' = calls s ++ cs -> new_calls s s' = cs.
Proof.
  intros H. unfold new_calls. rewrite H. apply drop_app_length.
Qed.

Ltac quiet_with cs :=
  split; [reflexivity | split; [reflexivity | exists cs; split;
    [members; rewrite <- ?app_assoc, ?app_nil_r; reflexivity | reflexivity]]].

Lemma configure_plane_quiet (w : World) (picture : VideoPicture) (s : State) :
  quiet_step s (configure_plane w picture s).
Proof.
  unfold configure_plane.
  set (plane := match GetVideoPlane w with Some p => Some p | None => GetGuiPlane w end).
  destruct (GetPropertyValue w plane "COLOR_ENCODING" _) as [[] v1];
    destruct (GetPropertyValue w plane "COLOR_RANGE" _) as [[] v2].
  - quiet_with [AddProperty plane "COLOR_ENCODING" v1; AddProperty plane "COLOR_RANGE" v2].
  - quiet_with [AddProperty plane "COLOR_ENCODING" v1].
  - quiet_with [AddProperty plane "COLOR_RANGE" v2].
  - quiet_with (@nil Call).
Qed.

Lemma configure_colorspace_quiet (w : World) (picture : VideoPicture) edid (s : State) :
  quiet_step s (configure_colorspace w picture edid s).
Proof.
  unfold configure_colorspace.
  destruct (GetPropertyValue w (GetConnector w) "Colorspace" _) as [r v].
  destruct (r && SupportsColorimetry w edid _).
  - quiet_with [Log LOGDEBUG "setting connector colorspace to {}";
                AddProperty (GetConnector w) "Colorspace" v; SetActive true].
  - quiet_with (@nil Call).
Qed.

Lemma blob_filter_self (id : Z) :
  List.filter (fun x => negb (x =? id)) [id] = [].
Proof. cbn. now rewrite Z.eqb_refl. Qed.

(** What [Configure] does about the blob. *)
Lemma configure_hdr_spec (w : World) (picture : VideoPicture) edid (s : State) :
  blob_ids w -> blob_inv w s ->
  let s' := configure_hdr w picture edid s in
  blob_inv w s' /\
  calls s' = calls s ++
    (if SupportsProperty w (GetConnector w) HDR_OUTPUT_METADATA
        && SupportsEOTF w edid (GetEOTF w picture)
     then (if m_hdr_blob_id s =? 0 then []
           else [DestroyPropertyBlob (m_hdr_blob_id s)]) ++
          [CreatePropertyBlob (m_hdr_metadata s');
           AddProperty (GetConnector w) HDR_OUTPUT_METADATA (m_hdr_blob_id s')]
     else []).
Proof.
  intros Hk Hinv. pose proof Hinv as [Hb Hs]. unfold configure_hdr.
  destruct (SupportsProperty w (GetConnector w) HDR_OUTPUT_METADATA) eqn:Esup;
    cbn [andb].
  2:{ split; [exact Hinv | now rewrite app_nil_r]. }
  destruct (SupportsEOTF w edid (GetEOTF w picture)) eqn:Eeotf.
  2:{ split; [split; [exact Hb | congruence] | members; now rewrite app_nil_r]. }
  unfold create_blob, destroy_blob. members.
  set (md := fill_metadata w picture _).
  pose proof (Hk md) as Hid.
  destruct (drmModeCreatePropertyBlob w md) as [ret id]. cbn [fst snd] in Hid.
  destruct (ret =? 0) eqn:Eret.
  - apply Z.eqb_eq in Eret. specialize (Hid Eret). apply Z.eqb_neq in Hid.
    destruct (m_hdr_blob_id s =? 0) eqn:Eold; unfold blob_inv; members.
    + split; [split; [|congruence]|].
      * rewrite Hid, Hb. reflexivity.
      * now rewrite <- !app_assoc.
    + split; [split; [|congruence]|].
      * rewrite Hid, Hb, blob_filter_self. reflexivity.
      * now rewrite <- !app_assoc.
  - destruct (m_hdr_blob_id s =? 0) eqn:Eold; unfold blob_inv; members.
    + split; [split; [|congruence]|].
      * now rewrite Hb.
      * now rewrite <- !app_assoc.
    + split; [split; [|congruence]|].
      * rewrite Hb. apply blob_filter_self.
      * now rewrite <- !app_assoc.
Qed.

Lemma filter_hdr_destroy (id : Z) :
  List.filter is_hdr_call (if id =? 0 then [] else [DestroyPropertyBlob id]) =
  if id =? 0 then [] else [DestroyPropertyBlob id].
Proof. now destruct (id =? 0). Qed.

Lemma blob_inv_quiet (w : World) (s s' : State) :
  quiet_step s s' -> blob_inv w s -> blob_inv w s'.
Proof.
  intros (Hid & Hbl & _) [Hb Hs]. unfold blob_inv. rewrite Hid, Hbl. now split.
Qed.

Lemma blob_inv_length (w : World) (s : State) :
  blob_inv w s -> (length (blobs s) <= 1)%nat.
Proof.
  intros [Hb _]. rewrite Hb. destruct (_ =? 0); cbn; lia.
Qed.

(** What [Disable] does about the blob. *)
Lemma Disable_spec (w : World) (s : State) :
  blob_inv w s ->
  let t := Disable w s in
  blob_inv w t /\ m_hdr_blob_id t = 0 /\ blobs t = [] /\
  List.filter is_hdr_call (new_calls s t) =
    if SupportsProperty w (GetConnector w) HDR_OUTPUT_METADATA
    then AddProperty (GetConnector w) HDR_OUTPUT_METADATA 0 ::
         (if m_hdr_blob_id s =? 0 then []
          else [DestroyPropertyBlob (m_hdr_blob_id s)])
    else [].
Proof.
  intros Hinv. pose proof Hinv as [Hb Hs]. unfold Disable.
  set (s1 := match GetVideoPlane w with Some _ => _ | None => s end).
  assert (Q1 : quiet_step s s1).
  { subst s1. destruct (GetVideoPlane w) as [p|].
    - quiet_with [AddProperty (Some p) "FB_ID" 0; AddProperty (Some p) "CRTC_ID" 0].
    - quiet_with (@nil Call). }
  clearbody s1.
  destruct (GetPropertyValue w (GetConnector w) "Colorspace" "Default") as [r v].
  set (s2 := if r then _ else s1).
  assert (Q2 : quiet_step s1 s2).
  { subst s2. destruct r.
    - quiet_with [Log LOGDEBUG "setting connector colorspace to Default";
                  AddProperty (GetConnector w) "Colorspace" v].
    - quiet_with (@nil Call). }
  clearbody s2.
  destruct Q1 as (I1 & B1 & cs1 & C1 & F1). destruct Q2 as (I2 & B2 & cs2 & C2 & F2).
  destruct (SupportsProperty w (GetConnector w) HDR_OUTPUT_METADATA) eqn:Esup.
  - unfold destroy_blob. members. rewrite I2, I1, B2, B1.
    destruct (m_hdr_blob_id s =? 0) eqn:Eold; unfold blob_inv; members.
    + split; [split; [rewrite B2, B1; exact Hb | reflexivity]|].
      split; [reflexivity|]. split; [now rewrite B2, B1|].
      rewrite (new_calls_app _ _ (cs1 ++ cs2 ++
                 [AddProperty (GetConnector w) HDR_OUTPUT_METADATA 0; SetActive true])).
      * rewrite !List.filter_app, F1, F2. reflexivity.
      * members. rewrite C2, C1, <- !app_assoc. reflexivity.
    + rewrite Hb, blob_filter_self.
      split; [split; reflexivity|]. split; [reflexivity|]. split; [reflexivity|].
      rewrite (new_calls_app _ _ (cs1 ++ cs2 ++
                 [AddProperty (GetConnector w) HDR_OUTPUT_METADATA 0; SetActive true;
                  DestroyPropertyBlob (m_hdr_blob_id s)])).
      * rewrite !List.filter_app, F1, F2. reflexivity.
      * members. rewrite C2, C1, <- !app_assoc. reflexivity.
  - assert (Hz : m_hdr_blob_id s = 0) by (apply Hs; reflexivity).
    rewrite Hz in Hb. cbn in Hb.
    split; [|split; [congruence|split; [congruence|]]].
    + unfold blob_inv. rewrite I2, I1, B2, B1, Hz. cbn. now split.
    + rewrite (new_calls_app _ _ (cs1 ++ cs2)).
      * now rewrite List.filter_app, F1, F2.
      * now rewrite C2, C1, <- app_assoc.
Qed.

(** The methods that present buffers do not touch the blob. *)
Lemma stage_blob (o : option Z) (props : list (string * Z)) (s : State) :
  m_hdr_blob_id (stage o props s) = m_hdr_blob_id s /\
  blobs (stage o props s) = blobs s.
Proof.
  unfold stage. revert s. induction props as [|p props IH]; intros s; cbn [foldl].
  - auto.
  - destruct (IH (emit (AddProperty o (fst p) (to_uint64 (snd p))) s)) as (-> & ->).
    auto.
Qed.

Lemma Acquire_blob (b : ptr) (s : State) :
  m_hdr_blob_id (Acquire b s) = m_hdr_blob_id s /\
  blobs (Acquire b s) = blobs s.
Proof.
  unfold Acquire, BufferAcquire_. members.
  destruct (Release_members (m_prev_buffer s) s) as (_ & _ & -> & ->). auto.
Qed.

Lemma Map_blob (w : World) (b : ptr) (s : State) :
  m_hdr_blob_id (snd (Map w b s)) = m_hdr_blob_id s /\
  blobs (snd (Map w b s)) = blobs s.
Proof.
  destruct (Z.eq_dec (m_fb_id (heap s b)) 0) as [Hfb | Hfb].
  - destruct (Map_shape w b s Hfb)
      as (s3 & (_ & _ & Ti & Tb & _) & _ & _ & [[E _] | (E & _)]);
      rewrite E; cbn [snd]; [auto|].
    destruct (Acquire_blob b s3) as (-> & ->). auto.
  - rewrite (Map_mapped w b s Hfb). auto.
Qed.

Lemma presenting_keeps_blob (w : World) (b : ptr) (r : CRect) (s : State) :
  blob_inv w s ->
  blob_inv w (snd (Map w b s)) /\ blob_inv w (Unmap b s) /\
  blob_inv w (SetVideoPlane w b r s) /\ blob_inv w (UpdateVideoPlane w s).
Proof.
  intros [Hb Hs].
  assert (K : forall t, m_hdr_blob_id t = m_hdr_blob_id s /\ blobs t = blobs s ->
                        blob_inv w t).
  { intros t [Ei Eb]. unfold blob_inv. rewrite Ei, Eb. now split. }
  assert (KU : forall t, m_hdr_blob_id t = m_hdr_blob_id s /\ blobs t = blobs s ->
             m_hdr_blob_id (Unmap b t) = m_hdr_blob_id s /\ blobs (Unmap b t) = blobs s).
  { intros t [Ei Eb]. destruct (Unmap_members b t) as (_ & _ & -> & ->). auto. }
  split; [apply K, Map_blob|]. split; [apply K, KU; auto|]. split; apply K.
  - unfold SetVideoPlane. pose proof (Map_blob w b s) as HM.
    destruct (Map w b s) as [ok s1]. cbn [snd] in HM. destruct ok; cbn [negb].
    + destruct (stage_blob (GetVideoPlane w) (plane_properties w (heap s1 b) r) s1)
        as (-> & ->). exact HM.
    + now apply KU.
  - unfold UpdateVideoPlane. destruct (m_buffer s) as [cur|]; [|auto].
    destruct (m_fb_id (heap s cur) =? 0); [auto|]. cbv zeta.
    match goal with |- context [stage ?o ?ps ?t] =>
      destruct (stage_blob o ps t) as (-> & ->) end.
    members. destruct (Release_members (m_prev_buffer s) s) as (_ & _ & -> & ->). auto.
Qed.

(** C1.  After [Acquire(b1)], [Acquire(b2)], [Acquire(b3)] on distinct
    buffers the bridge has [b2] as previous and [b3] as current buffer and
    holds no other reference; the reference count of [b1], which the
    bridge did not hold before the sequence, is what it was before; and
    the count of every buffer has moved by exactly the references the
    bridge gained or gave up on it.  One [Acquire] releases the old
    previous buffer, moves the current buffer into its place, and adds one
    reference to the new buffer. *)
Theorem acquire_three (s : State) (b1 b2 b3 : ptr) :
  b1 <> b2 -> b2 <> b3 -> b1 <> b3 ->
  held s b1 = 0 ->
  let s' := Acquire b3 (Acquire b2 (Acquire b1 s)) in
  (m_prev_buffer s' = Some b2 /\ m_buffer s' = Some b3) /\
  (forall x, held s' x =
             (if decide (x = b2) then 1 else 0) + (if decide (x = b3) then 1 else 0)) /\
  refs s' b1 = refs s b1 /\
  (forall x, refs s' x = refs s x + held s' x - held s x) /\
  (forall t b x,
     m_prev_buffer (Acquire b t) = m_buffer t /\
     m_buffer (Acquire b t) = Some b /\
     refs (Acquire b t) x =
       refs (Release (m_prev_buffer t) t) x + (if decide (b = x) then 1 else 0) /\
     refs (Release (m_prev_buffer t) t) x =
       refs t x - (if decide (m_prev_buffer t = Some x) then 1 else 0)).
Proof.
  intros H12 H23 H13 Hfree s'.
  assert (Hprev : m_prev_buffer s' = Some b2).
  { unfold s'. now rewrite Acquire_prev, Acquire_buffer. }
  assert (Hcur : m_buffer s' = Some b3) by apply Acquire_buffer.
  assert (Hheld : forall x, held s' x =
             (if decide (x = b2) then 1 else 0) + (if decide (x = b3) then 1 else 0)).
  { intros x. unfold held. rewrite Hprev, Hcur.
    repeat case_decide; congruence. }
  assert (Hall : forall x, refs s' x = refs s x + held s' x - held s x).
  { intros x. unfold s'.
    pose proof (Acquire_balance b3 (Acquire b2 (Acquire b1 s)) x).
    pose proof (Acquire_balance b2 (Acquire b1 s) x).
    pose proof (Acquire_balance b1 s x). lia. }
  repeat split; try assumption.
  - rewrite Hall, Hheld, Hfree. repeat case_decide; congruence || lia.
  - apply Acquire_prev.
  - rewrite Acquire_refs, Release_refs. lia.
  - apply Release_refs.
Qed.

Lemma acquire_three_witness :
  let s := Samples.new_bridge in
  (1 <> 2 /\ 2 <> 3 /\ 1 <> 3)%nat /\ held s 1%nat = 0 /\
  refs (Acquire 3%nat (Acquire 2%nat (Acquire 1%nat s))) 1%nat = refs s 1%nat.
Proof.
  assert (H12 : 1%nat <> 2%nat) by discriminate.
  assert (H23 : 2%nat <> 3%nat) by discriminate.
  assert (H13 : 1%nat <> 3%nat) by discriminate.
  assert (Hfree : held Samples.new_bridge 1%nat = 0) by reflexivity.
  refine (conj (conj H12 (conj H23 H13)) (conj Hfree _)).
  exact (proj1 (proj2 (proj2
    (acquire_three Samples.new_bridge 1%nat 2%nat 3%nat H12 H23 H13 Hfree)))).
Defined.

(** *** The handles Map converts *)

Lemma convert_trace (w : World) (b : ptr) d todo (s : State) :
  fst (convert_objects w b d todo s) =
    forallb (fun r => negb (r <? 0)) (conversion_results w d todo) /\
  calls (snd (convert_objects w b d todo s)) =
    calls s ++
    map (fun o => PrimeFDToHandle (fd (object_at d o))) (until_failure w d todo) ++
    (if fst (convert_objects w b d todo s) then []
     else [Log LOGERROR "failed to convert prime fd {} to gem handle {}, ret = {}"]).
Proof.
  revert s. induction todo as [|object rest IH]; intros s;
    cbn [convert_objects conversion_results until_failure map forallb].
  - split; [reflexivity | now rewrite app_nil_r].
  - destruct (drmPrimeFDToHandle w (fd (object_at d object))) as [ret gem].
    cbn [fst]. destruct (ret <? 0) eqn:Eneg; cbn [negb andb fst snd map].
    + split; [reflexivity|]. members.
      destruct (ret =? 0); members; now rewrite <- app_assoc.
    + match goal with |- context [convert_objects w b d rest ?t] =>
        destruct (IH t) as [If Ic] end.
      split; [exact If|]. rewrite Ic.
      destruct (ret =? 0); members; now rewrite <- app_assoc.
Qed.

Lemma convert_handles_other (w : World) (b : ptr) d todo (s : State) (o : nat) :
  ~ In o todo ->
  handle (heap (snd (convert_objects w b d todo s)) b) o = handle (heap s b) o.
Proof.
  revert s. induction todo as [|x rest IH]; intros s Ho;
    cbn [convert_objects]; [reflexivity|].
  destruct (drmPrimeFDToHandle w _) as [ret gem].
  assert (H2 : handle (heap (if ret =? 0
                 then on_buffer b (with_handle x gem)
                        (emit (PrimeFDToHandle (fd (object_at d x))) s)
                 else emit (PrimeFDToHandle (fd (object_at d x))) s) b) o
               = handle (heap s b) o).
  { destruct (ret =? 0); members; [|reflexivity].
    rewrite update_eq. unfold handle, with_handle. members.
    rewrite nth_insert. case_decide as H; [|reflexivity].
    destruct H as [-> _]. exfalso. apply Ho. now left. }
  destruct (ret <? 0); cbn [snd]; [exact H2|].
  rewrite IH; [exact H2|]. intros Hin. apply Ho. now right.
Qed.

Lemma handles_length (w : World) (b : ptr) d todo (s : State) :
  length (m_handles (heap (snd (convert_objects w b d todo s)) b)) =
  length (m_handles (heap s b)).
Proof.
  apply (convert_frame (fun v => length (m_handles v))).
  intros j v u. unfold with_handle. members. apply length_insert.
Qed.

(** A conversion that succeeded has its handle in the slot of its object
    when the loop ends, whether the loop went through or gave up later. *)
Lemma convert_handles (w : World) (b : ptr) d todo (s : State) (o : nat) :
  NoDup todo -> In o (until_failure w d todo) ->
  fst (drmPrimeFDToHandle w (fd (object_at d o))) = 0 ->
  (o < length (m_handles (heap s b)))%nat ->
  handle (heap (snd (convert_objects w b d todo s)) b) o =
  snd (drmPrimeFDToHandle w (fd (object_at d o))).
Proof.
  revert s. induction todo as [|x rest IH]; intros s Hnd Hin Hret Hlen;
    cbn [convert_objects until_failure] in *; [destruct Hin|].
  apply NoDup_cons in Hnd as [Hx Hnd].
  destruct (drmPrimeFDToHandle w (fd (object_at d x))) as [ret gem] eqn:Ex.
  cbn [fst] in Hin.
  destruct (ret <? 0) eqn:Eneg.
  - destruct Hin as [<-|[]]. rewrite Ex in Hret. cbn [fst] in Hret.
    subst ret. discriminate.
  - cbn [snd]. destruct Hin as [<-|Hin].
    + rewrite Ex in *. cbn [fst snd] in *. subst ret. cbn [Z.eqb].
      rewrite convert_handles_other
        by (intros H; apply Hx; now apply list_elem_of_In).
      members. rewrite update_eq. unfold handle, with_handle. members.
      rewrite nth_insert. case_decide as H; [reflexivity|].
      exfalso. apply H. split; [reflexivity | exact Hlen].
    + apply IH; try assumption.
      destruct (ret =? 0); members; [|exact Hlen].
      rewrite update_eq. unfold with_handle. members.
      now rewrite length_insert.
Qed.

Lemma until_failure_all (w : World) d todo :
  forallb (fun r => negb (r <? 0)) (conversion_results w d todo) = true ->
  until_failure w d todo = todo.
Proof.
  induction todo as [|x rest IH]; cbn [conversion_results until_failure map forallb];
    [reflexivity|].
  intros H. apply andb_true_iff in H as [H1 H2].
  destruct (_ <? 0); [discriminate|]. f_equal. now apply IH.
Qed.

Lemma Acquire_keeps_handle (b : ptr) (s : State) (i : nat) :
  m_prev_buffer s <> Some b ->
  handle (heap (Acquire b s) b) i = handle (heap s b) i.
Proof.
  intros Hne. unfold Acquire, BufferAcquire_. members.
  rewrite (update_frame (fun v => handle v i)) by reflexivity.
  now rewrite Release_other.
Qed.

(** What a [Map] that got past the acquisition of the descriptor has
    done: it returns whether every conversion and the creation of the
    framebuffer went through, its last call is a log at error level when
    they did not, and the handles of the buffer are those the conversion
    loop left, unless [Acquire] released the buffer itself. *)
Lemma Map_converted (w : World) (b : ptr) (s : State) :
  m_fb_id (heap s b) = 0 -> AcquireDescriptor_result w b = true ->
  let d := m_descriptor (heap s b) in
  let todo := seq 0 (nb_objects d) in
  let s0 := on_buffer b (with_descRefs (fun n => n + 1))
              (emit (BufferAcquireDescriptor b) s) in
  let sc := snd (convert_objects w b d todo s0) in
  (fst (Map w b s) = true ->
   forallb (fun r => negb (r <? 0)) (conversion_results w d todo) = true /\
   exists width height fmt hs ps os ms flags,
     0 <= fst (drmModeAddFB2WithModifiers w width height fmt hs ps os ms flags)) /\
  (fst (Map w b s) = false ->
   exists message, last (calls (snd (Map w b s))) = Some (Log LOGERROR message)) /\
  (forall i, (fst (Map w b s) = true -> m_prev_buffer s <> Some b) ->
     handle (heap (snd (Map w b s)) b) i = handle (heap sc b) i).
Proof.
  intros Hfb Hacq d todo s0 sc.
  unfold Map, AcquireDescriptor. rewrite Hfb, Hacq. cbn [Z.eqb negb].
  fold s0.
  assert (Ed : m_descriptor (heap s0 b) = d).
  { subst s0. members. now rewrite update_eq. }
  rewrite Ed. fold todo.
  destruct (convert_trace w b d todo s0) as [Cf Cc].
  pose proof (touches_convert w b d todo s0) as (_ & Tp & _).
  fold sc in Cc, Tp. subst sc.
  destruct (convert_objects w b d todo s0) as [conv s1]. cbn [fst snd] in *.
  destruct conv; cbn [negb fst snd].
  2: { split; [discriminate|]. split; [|reflexivity].
       intros _. eexists. rewrite Cc, !app_assoc. apply last_snoc. }
  match goal with |- context [drmModeAddFB2WithModifiers w ?a1 ?a2 ?a3 ?a4 ?a5 ?a6 ?a7 ?a8] =>
    set (width := a1); set (height := a2); set (fmt := a3); set (hs := a4);
    set (ps := a5); set (os := a6); set (ms := a7); set (flags := a8)
  end.
  destruct (drmModeAddFB2WithModifiers w width height fmt hs ps os ms flags)
    as [ret fb] eqn:Efb.
  set (s3 := if ret =? 0 then _ else _).
  assert (H3 : forall i, handle (heap s3 b) i = handle (heap s1 b) i).
  { intros i. subst s3. destruct (ret =? 0); members; [|reflexivity].
    now rewrite (update_frame (fun v => handle v i)). }
  assert (P3 : m_prev_buffer s3 = m_prev_buffer s).
  { subst s3. destruct (ret =? 0); members; rewrite Tp; reflexivity. }
  destruct (ret <? 0) eqn:Eneg; cbn [fst snd].
  - split; [discriminate|]. split; [|intros i _; apply H3].
    intros _. eexists. members. apply last_snoc.
  - split; [|split; [discriminate|]].
    + intros _. split; [now symmetry|].
      exists width, height, fmt, hs, ps, os, ms, flags.
      rewrite Efb. cbn [fst]. apply Z.ltb_ge in Eneg. exact Eneg.
    + intros i Hp. rewrite Acquire_keeps_handle; [apply H3|].
      rewrite P3. now apply Hp.
Qed.


Lemma Unmap_new_calls (b : ptr) (s : State) :
  new_calls s (Unmap b s) =
  (if m_fb_id (heap s b) =? 0 then [] else [RmFB (m_fb_id (heap s b))]) ++
  map GemClose (live_handles (heap s b)) ++ [BufferReleaseDescriptor b].
Proof. unfold new_calls. rewrite Unmap_trace. apply drop_app_length. Qed.

Lemma Unmap_removes (b : ptr) (s : State) :
  m_fb_id (heap s b) <> 0 ->
  In (RmFB (m_fb_id (heap s b))) (new_calls s (Unmap b s)).
Proof.
  intros Hfb. rewrite Unmap_new_calls. apply Z.eqb_neq in Hfb. rewrite Hfb.
  apply in_or_app. left. now left.
Qed.

Lemma Unmap_closes (b : ptr) (s : State) (i : nat) :
  (i < AV_DRM_MAX_PLANES)%nat -> handle (heap s b) i <> 0 ->
  In (GemClose (handle (heap s b) i)) (new_calls s (Unmap b s)).
Proof.
  intros Hi Hh. rewrite Unmap_new_calls. apply in_or_app. right.
  apply in_or_app. left. apply in_map. unfold live_handles.
  apply filter_In. split.
  - apply in_map. now apply in_planes.
  - apply Z.eqb_neq in Hh. now rewrite Hh.
Qed.

(** C6.  [Unmap] leaves the buffer with a zero framebuffer id and a zero in
    each of the four handle slots and releases the descriptor, whatever
    was imported before, and in particular after [Map].  It gets there by
    removing the framebuffer when the buffer has one and closing each
    handle that is not zero, once and in the order of the slots, before
    it releases the descriptor; so after a [Map] that succeeded it removes
    the framebuffer [Map] created and closes every handle [Map] converted.
    On a buffer that is already unmapped it removes no framebuffer and
    closes no handle: the release of the descriptor is its only call. *)
Theorem unmap_clears (w : World) (b : ptr) (s : State) :
  (let s' := Unmap b s in
   m_fb_id (heap s' b) = 0 /\
   (forall i, (i < AV_DRM_MAX_PLANES)%nat -> handle (heap s' b) i = 0) /\
   m_descRefs (heap s' b) = m_descRefs (heap s b) - 1 /\
   last (calls s') = Some (BufferReleaseDescriptor b)) /\
  (let s' := Unmap b (snd (Map w b s)) in
   m_fb_id (heap s' b) = 0 /\
   (forall i, (i < AV_DRM_MAX_PLANES)%nat -> handle (heap s' b) i = 0)) /\
  calls (Unmap b (Unmap b s)) = calls (Unmap b s) ++ [BufferReleaseDescriptor b] /\
  (m_fb_id (heap s b) = 0 ->
   (forall i, (i < AV_DRM_MAX_PLANES)%nat -> handle (heap s b) i = 0) ->
   calls (Unmap b s) = calls s ++ [BufferReleaseDescriptor b]) /\
  new_calls s (Unmap b s) =
    (if m_fb_id (heap s b) =? 0 then [] else [RmFB (m_fb_id (heap s b))]) ++
    map GemClose (live_handles (heap s b)) ++
    [BufferReleaseDescriptor b] /\
  ((m_fb_id (heap s b) <> 0 ->
    In (RmFB (m_fb_id (heap s b))) (new_calls s (Unmap b s))) /\
   (forall i, (i < AV_DRM_MAX_PLANES)%nat -> handle (heap s b) i <> 0 ->
    In (GemClose (handle (heap s b) i)) (new_calls s (Unmap b s)))) /\
  (m_fb_id (heap s b) = 0 -> fst (Map w b s) = true ->
   kernel_ids w -> m_prev_buffer s <> Some b ->
   length (m_handles (heap s b)) = AV_DRM_MAX_PLANES ->
   let d := m_descriptor (heap s b) in
   let s1 := snd (Map w b s) in
   m_fb_id (heap s1 b) <> 0 /\
   In (RmFB (m_fb_id (heap s1 b))) (new_calls s1 (Unmap b s1)) /\
   (forall o, (o < nb_objects d)%nat -> (o < AV_DRM_MAX_PLANES)%nat ->
      let r := drmPrimeFDToHandle w (fd (object_at d o)) in
      fst r = 0 -> snd r <> 0 ->
      In (GemClose (snd r)) (new_calls s1 (Unmap b s1)))).
Proof.
  split; [|split; [|split; [|split; [|split; [|split]]]]].
  - repeat split.
    + apply Unmap_fb_id.
    + apply Unmap_handles.
    + apply Unmap_descRefs.
    + unfold Unmap, ReleaseDescriptor. members. apply last_snoc.
  - split; [apply Unmap_fb_id | apply Unmap_handles].
  - apply Unmap_idle; [apply Unmap_fb_id | apply Unmap_handles].
  - apply Unmap_idle.
  - apply Unmap_new_calls.
  - split; [apply Unmap_removes | intros i; apply Unmap_closes].
  - intros Hfb Hok Hk Hprev Hlen d s1.
    assert (Hacq : AcquireDescriptor_result w b = true).
    { revert Hok. unfold Map, AcquireDescriptor. rewrite Hfb. cbn [Z.eqb negb].
      destruct (AcquireDescriptor_result w b); [reflexivity|]. cbn. discriminate. }
    assert (Hlive : m_fb_id (heap s1 b) <> 0).
    { subst s1.
      destruct (Map_shape w b s Hfb) as (s3 & T & _ & _ & [[E _] | (E & _ & Hid)]);
        rewrite E in *; [discriminate|].
      cbn [snd]. destruct T as (_ & Tp & _).
      rewrite Acquire_keeps_fb by congruence. now apply Hid. }
    split; [exact Hlive|]. split; [now apply Unmap_removes|].
    intros o Ho Ho4 r Hret Hgem.
    destruct (Map_converted w b s Hfb Hacq) as (Hall & _ & Hh).
    destruct (Hall Hok) as [Hconv _].
    assert (E : handle (heap s1 b) o = snd r).
    { subst s1. rewrite Hh by (intros _; exact Hprev).
      apply convert_handles.
      - apply NoDup_seq.
      - cbv zeta in Hconv. subst d.
        rewrite (until_failure_all _ _ _ Hconv). apply in_seq. lia.
      - exact Hret.
      - members. rewrite update_eq. members. rewrite Hlen. exact Ho4. }
    rewrite <- E. apply Unmap_closes; [exact Ho4 | now rewrite E].
Qed.

Lemma unmap_clears_witness :
  let w := Samples.display 0 0 true true in
  let s := Samples.new_bridge in
  let s1 := snd (Map w 1%nat s) in
  (m_fb_id (heap s 1%nat) = 0 /\
   (forall i, (i < AV_DRM_MAX_PLANES)%nat -> handle (heap s 1%nat) i = 0)) /\
  calls (Unmap 1%nat s) = [BufferReleaseDescriptor 1%nat] /\
  (fst (Map w 1%nat s) = true /\ kernel_ids w /\ m_prev_buffer s <> Some 1%nat /\
   length (m_handles (heap s 1%nat)) = AV_DRM_MAX_PLANES) /\
  In (RmFB 90) (new_calls s1 (Unmap 1%nat s1)) /\
  In (GemClose 47) (new_calls s1 (Unmap 1%nat s1)).
Proof.
  intros w s s1.
  assert (Hfb : m_fb_id (heap s 1%nat) = 0) by reflexivity.
  assert (Hh : forall i, (i < AV_DRM_MAX_PLANES)%nat -> handle (heap s 1%nat) i = 0).
  { intros i _. do 4 (destruct i as [|i]; [reflexivity|]). now destruct i. }
  assert (Hok : fst (Map w 1%nat s) = true) by reflexivity.
  assert (Hk : kernel_ids w).
  { intros width height fmt hs ps os ms flags. right. split; [reflexivity|discriminate]. }
  assert (Hp : m_prev_buffer s <> Some 1%nat) by discriminate.
  assert (Hlen : length (m_handles (heap s 1%nat)) = AV_DRM_MAX_PLANES) by reflexivity.
  pose proof (unmap_clears w 1%nat s) as (_ & _ & _ & Hidle & _ & _ & Hmap).
  destruct (Hmap Hfb Hok Hk Hp Hlen) as (_ & Hrm & Hclose).
  refine (conj (conj Hfb Hh) (conj (Hidle Hfb Hh)
            (conj (conj Hok (conj Hk (conj Hp Hlen))) (conj Hrm _)))).
  refine (Hclose 0%nat _ _ eq_refl _); [cbn; lia | unfold AV_DRM_MAX_PLANES; lia
                                       | discriminate].
Defined.

(** C7, as the source has it.  A descriptor of two layers, a
    single-channel one followed by an interleaved pair, gives NV12 for
    8-bit channels (R8, GR88) and P010 for 16-bit channels (R16, GR1616);
    three single-channel 8-bit layers give YUV420; every other shape keeps
    the format of layer 0; and the flag DRM_MODE_FB_MODIFIERS is set
    exactly when the modifier of plane 0 is neither zero nor
    DRM_FORMAT_MOD_INVALID. *)
Theorem infer_format_shapes (d : AVDRMFrameDescriptor) (l : Layout) :
  (semi_planar_8 d -> infer_format d = DRM_FORMAT_NV12) /\
  (semi_planar_16 d -> infer_format d = DRM_FORMAT_P010) /\
  (planar_8 d -> infer_format d = DRM_FORMAT_YUV420) /\
  (~ semi_planar_8 d -> ~ semi_planar_16 d -> ~ planar_8 d ->
   infer_format d = format (layer_at d 0)) /\
  (nth 0 (modifier l) 0 <> 0 /\ nth 0 (modifier l) 0 <> DRM_FORMAT_MOD_INVALID ->
   fb_flags l = DRM_MODE_FB_MODIFIERS) /\
  (~ (nth 0 (modifier l) 0 <> 0 /\ nth 0 (modifier l) 0 <> DRM_FORMAT_MOD_INVALID) ->
   fb_flags l = 0).
Proof.
  destruct formats_distinct as (H816 & H888 & H8816).
  unfold semi_planar_8, semi_planar_16, planar_8, infer_format, fb_flags.
  repeat split.
  - intros (-> & -> & ->). format_cases; congruence.
  - intros (-> & -> & ->). format_cases; congruence.
  - intros (-> & -> & -> & ->). format_cases; congruence.
  - intros N1 N2 N3. format_cases; try reflexivity; exfalso; tauto.
  - intros [Hz Hi]. format_cases; cbn [negb andb]; congruence.
  - intros N. format_cases; cbn [negb andb]; try reflexivity. exfalso. tauto.
Qed.

Lemma infer_format_shapes_witness :
  semi_planar_8 Samples.nv12_descriptor /\
  infer_format Samples.nv12_descriptor = DRM_FORMAT_NV12.
Proof.
  assert (H : semi_planar_8 Samples.nv12_descriptor).
  { unfold semi_planar_8. repeat split. }
  exact (conj H
    (proj1 (infer_format_shapes Samples.nv12_descriptor empty_layout) H)).
Defined.

(** C7, as the claim words it: two single-channel 8-bit layers plus one
    interleaved-pair layer are three layers, and for them [Map] keeps the
    format of layer 0, which is R8 and not NV12. *)
Lemma infer_format_three_layers :
  map format (layers Samples.three_layers) =
    [DRM_FORMAT_R8; DRM_FORMAT_R8; DRM_FORMAT_GR88] /\
  infer_format Samples.three_layers = DRM_FORMAT_R8 /\
  infer_format Samples.three_layers <> DRM_FORMAT_NV12.
Proof. repeat split. vm_compute. discriminate. Qed.

(** C8, as the source has it.  After a successful [Map], [SetVideoPlane]
    stages ten properties on the video plane: the framebuffer and CRTC
    ids, the source rectangle (0, 0, width << 16, height << 16), which is
    the full extent of the buffer in 16.16 fixed point, and a destination
    rectangle whose CRTC_X and CRTC_Y are x1 and y1 with the fraction
    dropped and then rounded down to an even number, and whose CRTC_W and
    CRTC_H are the width and the height with the fraction dropped and then
    rounded up to an even number.  For a coordinate that is a whole number
    this is the coordinate rounded down, respectively up, to the nearest
    even integer. *)
Theorem plane_rectangle (w : World) (b : ptr) (r : CRect) (s : State) :
  fst (Map w b s) = true ->
  - 2 ^ 31 <= truncate (x1 r) < 2 ^ 31 ->
  - 2 ^ 31 <= truncate (y1 r) < 2 ^ 31 ->
  0 <= truncate (Width r) < 2 ^ 32 - 1 ->
  0 <= truncate (Height r) < 2 ^ 32 - 1 ->
  let s1 := snd (Map w b s) in
  let buf := heap s1 b in
  let plane := GetVideoPlane w in
  calls (SetVideoPlane w b r s) =
    calls s1 ++
    [ AddProperty plane "FB_ID" (to_uint64 (m_fb_id buf));
      AddProperty plane "CRTC_ID" (to_uint64 (GetCrtcId w));
      AddProperty plane "SRC_X" 0;
      AddProperty plane "SRC_Y" 0;
      AddProperty plane "SRC_W" (to_uint64 (to_uint32 (Z.shiftl (GetWidth buf) 16)));
      AddProperty plane "SRC_H" (to_uint64 (to_uint32 (Z.shiftl (GetHeight buf) 16)));
      AddProperty plane "CRTC_X" (to_uint64 (2 * (truncate (x1 r) / 2)));
      AddProperty plane "CRTC_Y" (to_uint64 (2 * (truncate (y1 r) / 2)));
      AddProperty plane "CRTC_W" (2 * ((truncate (Width r) + 1) / 2));
      AddProperty plane "CRTC_H" (2 * ((truncate (Height r) + 1) / 2)) ] /\
  (as_int64 (to_uint64 (2 * (truncate (x1 r) / 2))) = 2 * (truncate (x1 r) / 2) /\
   as_int64 (to_uint64 (2 * (truncate (y1 r) / 2))) = 2 * (truncate (y1 r) / 2)) /\
  (0 <= GetWidth buf < 2 ^ 16 ->
   to_uint64 (to_uint32 (Z.shiftl (GetWidth buf) 16)) = GetWidth buf * 65536) /\
  (0 <= GetHeight buf < 2 ^ 16 ->
   to_uint64 (to_uint32 (Z.shiftl (GetHeight buf) 16)) = GetHeight buf * 65536) /\
  (forall n, (x1 r == inject_Z n)%Q ->
     2 * (truncate (x1 r) / 2) = spec_round_down_even (x1 r)) /\
  (forall n, (y1 r == inject_Z n)%Q ->
     2 * (truncate (y1 r) / 2) = spec_round_down_even (y1 r)) /\
  (forall n, (Width r == inject_Z n)%Q ->
     2 * ((truncate (Width r) + 1) / 2) = spec_round_up_even (Width r)) /\
  (forall n, (Height r == inject_Z n)%Q ->
     2 * ((truncate (Height r) + 1) / 2) = spec_round_up_even (Height r)).
Proof.
  intros Hmap Hx Hy Hw Hh s1 buf plane.
  assert (Heven : forall t, 0 <= t < 2 ^ 32 - 1 ->
            0 <= 2 * ((t + 1) / 2) < 2 ^ 32).
  { intros t Ht. pose proof (Z.div_mod (t + 1) 2 ltac:(lia)).
    pose proof (Z.mod_pos_bound (t + 1) 2 ltac:(lia)). lia. }
  assert (Hsigned : forall t, - 2 ^ 31 <= t < 2 ^ 31 ->
            as_int64 (to_uint64 (2 * (t / 2))) = 2 * (t / 2)).
  { intros t Ht. pose proof (Z.div_mod t 2 ltac:(lia)).
    pose proof (Z.mod_pos_bound t 2 ltac:(lia)).
    unfold as_int64, to_uint64.
    rewrite Zplus_mod_idemp_l. rewrite Z.mod_small; lia. }
  split; [|split; [|split; [|split; [|split; [|split; [|split]]]]]].
  - unfold SetVideoPlane. subst s1 buf plane.
    destruct (Map w b s) as [ok s1]. cbn [fst snd] in *. subst ok. cbn [negb].
    rewrite stage_calls. f_equal.
    unfold plane_properties, float_to_int32, float_to_uint32.
    cbn [map fst snd].
    rewrite !to_int32_small by assumption.
    rewrite !land_clear_bit0.
    rewrite (to_uint32_small (truncate (Width r))) by lia.
    rewrite (to_uint32_small (truncate (Height r))) by lia.
    rewrite (to_uint32_small (truncate (Width r) + 1)) by lia.
    rewrite (to_uint32_small (truncate (Height r) + 1)) by lia.
    rewrite !land_clear_bit0_uint32 by lia.
    pose proof (Heven _ Hw). pose proof (Heven _ Hh).
    unfold to_uint64 at 9 10. rewrite !(Z.mod_small (2 * _)) by lia.
    reflexivity.
  - split; apply Hsigned; assumption.
  - intros Hb. rewrite shiftl16_small by assumption.
    unfold to_uint64. apply Z.mod_small. lia.
  - intros Hb. rewrite shiftl16_small by assumption.
    unfold to_uint64. apply Z.mod_small. lia.
  - intros n Hn. rewrite (truncate_whole _ _ Hn). symmetry. now apply round_down_whole.
  - intros n Hn. rewrite (truncate_whole _ _ Hn). symmetry. now apply round_down_whole.
  - intros n Hn. rewrite (truncate_whole _ _ Hn). symmetry. now apply round_up_whole.
  - intros n Hn. rewrite (truncate_whole _ _ Hn). symmetry. now apply round_up_whole.
Qed.

Lemma plane_rectangle_witness :
  let w := Samples.display 0 0 true true in
  let s := Samples.new_bridge in
  let r := Samples.odd_rect in
  (fst (Map w 1%nat s) = true /\
   (- 2 ^ 31 <= truncate (x1 r) < 2 ^ 31) /\
   (- 2 ^ 31 <= truncate (y1 r) < 2 ^ 31) /\
   (0 <= truncate (Width r) < 2 ^ 32 - 1) /\
   (0 <= truncate (Height r) < 2 ^ 32 - 1)) /\
  calls (SetVideoPlane w 1%nat r s) =
    calls (snd (Map w 1%nat s)) ++
    [ AddProperty (Some 31) "FB_ID" 90;
      AddProperty (Some 31) "CRTC_ID" 34;
      AddProperty (Some 31) "SRC_X" 0;
      AddProperty (Some 31) "SRC_Y" 0;
      AddProperty (Some 31) "SRC_W" (1920 * 65536);
      AddProperty (Some 31) "SRC_H" (1080 * 65536);
      AddProperty (Some 31) "CRTC_X" 100;
      AddProperty (Some 31) "CRTC_Y" 50;
      AddProperty (Some 31) "CRTC_W" 640;
      AddProperty (Some 31) "CRTC_H" 360 ].
Proof.
  intros w s r.
  assert (Hmap : fst (Map w 1%nat s) = true) by reflexivity.
  assert (Hx : - 2 ^ 31 <= truncate (x1 r) < 2 ^ 31)
    by (vm_compute; split; [discriminate | reflexivity]).
  assert (Hy : - 2 ^ 31 <= truncate (y1 r) < 2 ^ 31)
    by (vm_compute; split; [discriminate | reflexivity]).
  assert (Hw : 0 <= truncate (Width r) < 2 ^ 32 - 1)
    by (vm_compute; split; [discriminate | reflexivity]).
  assert (Hh : 0 <= truncate (Height r) < 2 ^ 32 - 1)
    by (vm_compute; split; [discriminate | reflexivity]).
  refine (conj (conj Hmap (conj Hx (conj Hy (conj Hw Hh)))) _).
  exact (proj1 (plane_rectangle w 1%nat r s Hmap Hx Hy Hw Hh)).
Defined.

(** C8, as the claim words it: a destination rectangle 640.5 wide would
    have CRTC_W = 642, the width rounded up to the nearest even integer.
    [SetVideoPlane] stages 640, which is less than the width. *)
Lemma width_fraction_dropped :
  let w := Samples.display 0 0 true true in
  let s := Samples.new_bridge in
  let r := Samples.half_pixel_rect in
  fst (Map w 1%nat s) = true /\
  nth_error (rev (calls (SetVideoPlane w 1%nat r s))) 1 =
    Some (AddProperty (Some 31) "CRTC_W" 640) /\
  property "CRTC_W" (plane_properties w (heap (snd (Map w 1%nat s)) 1%nat) r) = Some 640 /\
  spec_round_up_even (Width r) = 642 /\
  property "CRTC_W" (plane_properties w (heap (snd (Map w 1%nat s)) 1%nat) r)
    <> Some (spec_round_up_even (Width r)).
Proof.
  cbv zeta. repeat split; try (vm_compute; reflexivity).
  vm_compute. discriminate.
Qed.

(** C5.  On a buffer whose framebuffer id is not zero [Map] returns true
    at once: the state, and with it the trace, is unchanged, so no
    descriptor is acquired, no handle converted and no framebuffer
    created.  Hence when a first [Map] of an unmapped buffer has succeeded
    and left its framebuffer, a second [Map] changes nothing and the two
    calls together have created exactly one framebuffer.  The first call
    leaves a framebuffer whenever the kernel hands out non-zero ids and
    the buffer is not the one that [Acquire] releases. *)
Theorem map_idempotent (w w' : World) (b : ptr) (s : State) :
  (m_fb_id (heap s b) <> 0 -> Map w b s = (true, s)) /\
  (m_fb_id (heap s b) = 0 ->
   fst (Map w b s) = true ->
   m_fb_id (heap (snd (Map w b s)) b) <> 0 ->
   Map w' b (snd (Map w b s)) = (true, snd (Map w b s)) /\
   count is_AddFB2 (snd (Map w' b (snd (Map w b s)))) = (count is_AddFB2 s + 1)%nat) /\
  (m_fb_id (heap s b) = 0 ->
   fst (Map w b s) = true ->
   kernel_ids w -> m_prev_buffer s <> Some b ->
   m_fb_id (heap (snd (Map w b s)) b) <> 0).
Proof.
  split; [apply Map_mapped|]. split.
  - intros Hfb Hok Hlive.
    rewrite (Map_mapped w' b _ Hlive). split; [reflexivity|]. cbn [snd].
    destruct (Map_shape w b s Hfb) as (s3 & _ & _ & _ & [[E _] | (E & Hc & _)]);
      rewrite E in *; [discriminate|].
    cbn [snd]. rewrite count_Acquire; [exact Hc|].
    intros c Hc'. destruct c; try discriminate; reflexivity.
  - intros Hfb Hok Hk Hprev.
    destruct (Map_shape w b s Hfb) as (s3 & T & _ & _ & [[E _] | (E & _ & Hid)]);
      rewrite E in *; [discriminate|].
    cbn [snd]. destruct T as (_ & Tp & _).
    rewrite Acquire_keeps_fb by congruence. now apply Hid.
Qed.

Lemma map_idempotent_witness :
  let w := Samples.display 0 0 true true in
  let s := Samples.new_bridge in
  (m_fb_id (heap s 1%nat) = 0 /\ fst (Map w 1%nat s) = true /\
   m_fb_id (heap (snd (Map w 1%nat s)) 1%nat) <> 0) /\
  Map w 1%nat (snd (Map w 1%nat s)) = (true, snd (Map w 1%nat s)) /\
  count is_AddFB2 (snd (Map w 1%nat (snd (Map w 1%nat s)))) = 1%nat.
Proof.
  intros w s.
  assert (Hfb : m_fb_id (heap s 1%nat) = 0) by reflexivity.
  assert (Hok : fst (Map w 1%nat s) = true) by reflexivity.
  assert (Hlive : m_fb_id (heap (snd (Map w 1%nat s)) 1%nat) <> 0)
    by (vm_compute; discriminate).
  refine (conj (conj Hfb (conj Hok Hlive)) _).
  exact (proj1 (proj2 (map_idempotent w w 1%nat s)) Hfb Hok Hlive).
Defined.

(** C10.  A [Map] that goes all the way (the buffer had no framebuffer and
    the call returns true) ends with [Acquire]: afterwards, and so after
    the [SetVideoPlane] that made the call, the buffer is the current one
    of the bridge, the old current buffer is the previous one, the old
    previous buffer has been unmapped and has lost one reference, and the
    buffer has gained one.  A [Map] that returns false, or that returns at
    once because the buffer has a framebuffer, leaves the current and the
    previous buffer and all reference counts as they were. *)
Theorem map_acquires (w : World) (b : ptr) (r : CRect) (s : State) :
  (m_fb_id (heap s b) = 0 -> fst (Map w b s) = true ->
   let s' := snd (Map w b s) in
   (exists s3, touches_only b s s3 /\ s' = Acquire b s3) /\
   m_buffer s' = Some b /\
   m_prev_buffer s' = m_buffer s /\
   (forall x, refs s' x =
      refs s x + (if decide (b = x) then 1 else 0)
               - (if decide (m_prev_buffer s = Some x) then 1 else 0)) /\
   (forall p, m_prev_buffer s = Some p ->
      m_fb_id (heap s' p) = 0 /\
      (forall i, (i < AV_DRM_MAX_PLANES)%nat -> handle (heap s' p) i = 0)) /\
   m_buffer (SetVideoPlane w b r s) = Some b /\
   m_prev_buffer (SetVideoPlane w b r s) = m_buffer s /\
   heap (SetVideoPlane w b r s) = heap s') /\
  (fst (Map w b s) = false \/ m_fb_id (heap s b) <> 0 ->
   let s' := snd (Map w b s) in
   m_buffer s' = m_buffer s /\
   m_prev_buffer s' = m_prev_buffer s /\
   (forall x, refs s' x = refs s x)).
Proof.
  split.
  - intros Hfb Hok s'.
    assert (HS : SetVideoPlane w b r s =
                 stage (GetVideoPlane w) (plane_properties w (heap s' b) r) s').
    { unfold SetVideoPlane. subst s'. destruct (Map w b s) as [ok s1].
      cbn [fst snd] in *. now subst ok. }
    destruct (stage_frame (GetVideoPlane w) (plane_properties w (heap s' b) r) s')
      as (S1 & S2 & S3).
    rewrite HS, S1, S2, S3. clear HS S1 S2 S3. subst s'.
    destruct (Map_shape w b s Hfb) as (s3 & T & _ & _ & [[E _] | (E & _ & _)]);
      rewrite E in *; [discriminate|].
    cbn [snd]. pose proof T as (Tb & Tp & _ & _ & Tr & To).
    assert (Hcur : m_buffer (Acquire b s3) = Some b) by apply Acquire_buffer.
    assert (Hprev : m_prev_buffer (Acquire b s3) = m_buffer s)
      by (now rewrite Acquire_prev).
    split; [|split; [|split; [|split; [|split; [|split; [|split]]]]]];
      try assumption.
    + exists s3. split; [exact T | reflexivity].
    + intros x. now rewrite Acquire_refs, Tr, Tp.
    + intros p Hp. apply Acquire_released. congruence.
    + reflexivity.
  - intros Hcase s'. subst s'.
    destruct (Z.eq_dec (m_fb_id (heap s b)) 0) as [Hfb | Hfb].
    + destruct Hcase as [Hfail | Hne]; [|contradiction].
      destruct (Map_shape w b s Hfb) as (s3 & T & _ & _ & [[E _] | (E & _ & _)]);
        rewrite E in *; [|discriminate].
      cbn [snd]. destruct T as (Tb & Tp & _ & _ & Tr & _). auto.
    + rewrite (Map_mapped w b s Hfb). cbn [snd]. auto.
Qed.

Lemma map_acquires_witness :
  let w := Samples.display 0 0 true true in
  let s := Samples.new_bridge in
  (m_fb_id (heap s 1%nat) = 0 /\ fst (Map w 1%nat s) = true) /\
  m_buffer (snd (Map w 1%nat s)) = Some 1%nat /\
  m_prev_buffer (snd (Map w 1%nat s)) = m_buffer s.
Proof.
  intros w s.
  assert (Hfb : m_fb_id (heap s 1%nat) = 0) by reflexivity.
  assert (Hok : fst (Map w 1%nat s) = true) by reflexivity.
  refine (conj (conj Hfb Hok) _).
  pose proof (proj1 (map_acquires w 1%nat Samples.odd_rect s) Hfb Hok) as H.
  exact (conj (proj1 (proj2 H)) (proj1 (proj2 (proj2 H)))).
Defined.

(** C4.  With a kernel that hands out non-zero blob ids, the blobs that
    are live are the one whose id the bridge has, so at most one, before
    and after every [Configure] and [Disable].  [Configure] makes calls
    about the blob exactly when the connector has the HDR_OUTPUT_METADATA
    property and the EDID supports the EOTF of the picture; it then
    destroys the old blob, if there is one, before it creates the new one
    and stages its id.  [Disable] stages zero and destroys the live blob,
    and leaves the id at zero and no blob live.  The methods that present
    buffers leave the blob alone. *)
Theorem hdr_blob_single (w : World) (b : ptr) (r : CRect) (s : State) :
  blob_ids w -> blob_inv w s ->
  let picture := m_picture (heap s b) in
  let hdr := SupportsProperty w (GetConnector w) HDR_OUTPUT_METADATA
             && SupportsEOTF w (read_edid w) (GetEOTF w picture) in
  let s' := Configure w b s in
  (blob_inv w s' /\ (length (blobs s') <= 1)%nat) /\
  List.filter is_hdr_call (new_calls s s') =
    (if hdr
     then (if m_hdr_blob_id s =? 0 then []
           else [DestroyPropertyBlob (m_hdr_blob_id s)]) ++
          [CreatePropertyBlob (m_hdr_metadata s');
           AddProperty (GetConnector w) HDR_OUTPUT_METADATA (m_hdr_blob_id s')]
     else []) /\
  (hdr = false -> m_hdr_blob_id s' = m_hdr_blob_id s /\ blobs s' = blobs s) /\
  (let t := Disable w s in
   (blob_inv w t /\ (length (blobs t) <= 1)%nat) /\
   m_hdr_blob_id t = 0 /\ blobs t = [] /\
   List.filter is_hdr_call (new_calls s t) =
     if SupportsProperty w (GetConnector w) HDR_OUTPUT_METADATA
     then AddProperty (GetConnector w) HDR_OUTPUT_METADATA 0 ::
          (if m_hdr_blob_id s =? 0 then []
           else [DestroyPropertyBlob (m_hdr_blob_id s)])
     else []) /\
  (blob_inv w (snd (Map w b s)) /\ blob_inv w (Unmap b s) /\
   blob_inv w (SetVideoPlane w b r s) /\ blob_inv w (UpdateVideoPlane w s)).
Proof.
  intros Hk Hinv picture hdr s'.
  pose proof (presenting_keeps_blob w b r s Hinv) as Hother.
  assert (HD := Disable_spec w s Hinv). cbv zeta in HD.
  destruct HD as (D1 & D2 & D3 & D4).
  assert (Hconf : s' = emit (SetActive true)
            (configure_hdr w picture (read_edid w)
               (configure_colorspace w picture (read_edid w)
                  (configure_plane w picture s)))) by reflexivity.
  pose proof (configure_plane_quiet w picture s) as Q1.
  set (s1 := configure_plane w picture s) in *.
  pose proof (configure_colorspace_quiet w picture (read_edid w) s1) as Q2.
  set (s2 := configure_colorspace w picture (read_edid w) s1) in *.
  assert (Hinv2 : blob_inv w s2) by (eauto using blob_inv_quiet).
  pose proof (configure_hdr_spec w picture (read_edid w) s2 Hk Hinv2) as [Hinv3 C3].
  set (s3 := configure_hdr w picture (read_edid w) s2) in *.
  fold hdr in C3.
  destruct Q1 as (I1 & B1 & cs1 & C1 & F1). destruct Q2 as (I2 & B2 & cs2 & C2 & F2).
  assert (Hinv' : blob_inv w s') by (rewrite Hconf; exact Hinv3).
  rewrite I2, I1 in C3.
  split; [split; [exact Hinv' | now apply (blob_inv_length w)]|].
  split; [|split; [|split; [split; [split;
    [exact D1 | now apply (blob_inv_length w)]|auto]|exact Hother]]].
  - replace (m_hdr_metadata s') with (m_hdr_metadata s3) by (now rewrite Hconf).
    replace (m_hdr_blob_id s') with (m_hdr_blob_id s3) by (now rewrite Hconf).
    match type of C3 with _ = _ ++ ?l => set (cs3 := l) in * end.
    rewrite (new_calls_app _ _ (cs1 ++ cs2 ++ cs3 ++ [SetActive true])).
    + rewrite !List.filter_app, F1, F2. cbn [List.filter is_hdr_call app].
      rewrite app_nil_r. subst cs3. destruct hdr; [|reflexivity].
      rewrite List.filter_app, filter_hdr_destroy. reflexivity.
    + rewrite Hconf. members. rewrite C3, C2, C1, <- !app_assoc. reflexivity.
  - intros Hoff. rewrite Hconf. members.
    subst s3. unfold configure_hdr. unfold hdr in Hoff.
    destruct (SupportsProperty w (GetConnector w) HDR_OUTPUT_METADATA);
      cbn [andb] in Hoff; [rewrite Hoff|]; members; split; congruence.
Qed.

Lemma hdr_blob_single_witness :
  let w := Samples.display 0 0 true true in
  let s := Samples.new_bridge in
  (blob_ids w /\ blob_inv w s) /\
  List.filter is_hdr_call (new_calls s (Configure w 1%nat s)) =
    [CreatePropertyBlob (m_hdr_metadata (Configure w 1%nat s));
     AddProperty (Some 33) HDR_OUTPUT_METADATA 100].
Proof.
  intros w s.
  assert (Hk : blob_ids w).
  { intros md _. discriminate. }
  assert (Hinv : blob_inv w s) by (split; [reflexivity | discriminate]).
  refine (conj (conj Hk Hinv) _).
  exact (proj1 (proj2 (hdr_blob_single w 1%nat Samples.odd_rect s Hk Hinv))).
Defined.

End BridgeFacts.

(** ** The renderer *)

Module RendererFacts.
Import Buffer Renderer BufferFacts.

(** Reads a member through the setters. *)
Ltac members :=
  cbn [m_buffers m_configured Renderer.m_format m_sourceWidth m_sourceHeight
       m_renderOrientation m_iFlags m_clearColour heap calls
       set_buffers set_source set_configured on_buffer emit on_slot
       videoBuffer fence texture m_srcPrimaries m_srcColSpace m_srcBits
       m_srcFullRange with_videoBuffer with_fence with_texture with_source
       display mapped] in *.

Lemma slot_calls_app (s s' : State) (cs : list Call) :
  calls s' = calls s ++ cs -> new_calls s s' = cs.
Proof.
  intros H. unfold new_calls. rewrite H. apply drop_app_length.
Qed.

Lemma slot_on_slot (index : nat) f (s : State) :
  m_buffers (on_slot index f s) !! index = f <$> m_buffers s !! index.
Proof. unfold on_slot. members. apply list_lookup_alter_eq. Qed.

Lemma slot_on_slot_ne (i j : nat) f (s : State) :
  i <> j -> m_buffers (on_slot i f s) !! j = m_buffers s !! j.
Proof. intros H. unfold on_slot. members. now apply list_lookup_alter_ne. Qed.

Lemma NeedBuffer_fence (index : nat) (s : State) (f : Sync) :
  fence <$> m_buffers s !! index = Some (Some f) ->
  NeedBuffer index s = Some (negb (IsSignaled f)).
Proof. intros H. unfold NeedBuffer. now rewrite H. Qed.

(** *** RenderUpdate and NeedBuffer *)

Lemma RenderUpdate_draws (w : World) (index index2 : nat) (clear : bool)
    (flags alpha : Z) (s : State) :
  draws w index s = true ->
  let s' := RenderUpdate w index index2 clear flags alpha s in
  fence <$> slot s' index = Some (Some Pending) /\
  exists before, calls s' =
    calls s ++ before ++ [DrawQuad index; FenceCreate index; VerifyGLState; GlBlend true].
Proof.
  unfold draws, RenderUpdate, slot. intros H.
  destruct (m_configured s); [|discriminate]. cbn [andb negb] in *.
  destruct (m_buffers s !! index) as [buf|] eqn:Eslot; [|discriminate].
  destruct (videoBuffer buf) as [b|] eqn:Evb; [|discriminate].
  destruct (fence buf) as [f|] eqn:Ef; [|discriminate].
  apply andb_true_iff in H as [H Hmap]. apply andb_true_iff in H as [H Hrs].
  set (s1 := emit (GlBlend (alpha <? 255)) _).
  assert (E1 : m_buffers s1 = m_buffers s).
  { subst s1. destruct clear; [destruct (alpha =? 255)|]; reflexivity. }
  assert (C1 : exists cs, calls s1 = calls s ++ cs).
  { subst s1. destruct clear; [destruct (alpha =? 255)|]; members;
      rewrite <- ?app_assoc; eexists; reflexivity. }
  clearbody s1. destruct C1 as [cs C1].
  rewrite E1, Eslot. cbn [fmap option_fmap option_map]. rewrite Evb.
  rewrite H, Hrs. cbn [negb].
  unfold TextureMap_. members. rewrite E1, Eslot. cbn [fmap option_fmap option_map].
  destruct (mapped (texture buf)) as [m|] eqn:Em.
  - cbn [negb]. unfold CreateFence. members. rewrite E1, Eslot.
    cbn [fmap option_fmap option_map]. rewrite Ef. members.
    rewrite list_lookup_alter_eq, E1, Eslot. split; [reflexivity|].
    exists (cs ++ [TextureMap index b]). rewrite C1, <- !app_assoc. reflexivity.
  - cbn [orb] in Hmap. rewrite Hmap. cbn [negb]. unfold CreateFence. members.
    rewrite list_lookup_alter_eq, E1, Eslot. cbn [fmap option_fmap option_map].
    members. rewrite Ef. members.
    rewrite !list_lookup_alter_eq, E1, Eslot. split; [reflexivity|].
    exists (cs ++ [TextureMap index b]). rewrite C1, <- !app_assoc. reflexivity.
Qed.

Lemma gpu_signal_pending (index : nat) (s : State) :
  fence <$> slot s index = Some (Some Pending) ->
  fence <$> slot (gpu_signal index s) index = Some (Some Signaled).
Proof.
  unfold gpu_signal, slot. intros H. rewrite H. members.
  rewrite list_lookup_alter_eq.
  destruct (m_buffers s !! index); [reflexivity | discriminate].
Qed.

(** C2, as the source has it.  Right after [RenderUpdate] has recorded a
    fresh fence for a slot, [NeedBuffer] on the slot returns true: the
    renderer still needs the buffer.  It returns false once the GPU has
    signaled the fence, and in no state does it return false while the
    fence of the slot is pending. *)
Theorem need_buffer_after_render (w : World) (index index2 : nat)
    (clear : bool) (flags alpha : Z) (s : State) :
  draws w index s = true ->
  let s' := RenderUpdate w index index2 clear flags alpha s in
  In (FenceCreate index) (new_calls s s') /\
  fence <$> slot s' index = Some (Some Pending) /\
  NeedBuffer index s' = Some true /\
  NeedBuffer index (gpu_signal index s') = Some false /\
  (forall t, fence <$> slot t index = Some (Some Pending) ->
             NeedBuffer index t = Some true) /\
  (forall t, NeedBuffer index t = Some false ->
             fence <$> slot t index <> Some (Some Pending)).
Proof.
  intros Hd s'.
  destruct (RenderUpdate_draws w index index2 clear flags alpha s Hd)
    as (Hf & before & Hc).
  fold s' in Hf, Hc.
  assert (Hneed : forall t, fence <$> slot t index = Some (Some Pending) ->
                            NeedBuffer index t = Some true).
  { intros t Ht. now rewrite (NeedBuffer_fence index t Pending Ht). }
  split; [|split; [exact Hf|split; [now apply Hneed|split; [|split; [exact Hneed|]]]]].
  - rewrite (slot_calls_app _ _ _ Hc). apply in_or_app. right. cbn. auto.
  - apply gpu_signal_pending in Hf.
    now rewrite (NeedBuffer_fence _ _ Signaled Hf).
  - intros t Ht Hp. rewrite (Hneed t Hp) in Ht. discriminate.
Qed.

Lemma need_buffer_after_render_witness :
  let w := Samples.desktop true in
  let s := Samples.playing in
  draws w 0 s = true /\
  NeedBuffer 0 (RenderUpdate w 0 0 false 0 255 s) = Some true /\
  NeedBuffer 0 (gpu_signal 0 (RenderUpdate w 0 0 false 0 255 s)) = Some false.
Proof.
  intros w s.
  assert (Hd : draws w 0 s = true) by reflexivity.
  pose proof (need_buffer_after_render w 0%nat 0%nat false 0 255 s Hd) as H.
  exact (conj Hd (conj (proj1 (proj2 (proj2 H))) (proj1 (proj2 (proj2 (proj2 H)))))).
Defined.

(** C2, as the claim words it: false right after the fence is recorded and
    true after the signal.  [NeedBuffer] gives the opposite of both. *)
Lemma need_buffer_is_negated :
  let w := Samples.desktop true in
  let s' := RenderUpdate w 0 0 false 0 255 Samples.playing in
  In (FenceCreate 0) (new_calls Samples.playing s') /\
  (spec_NeedsSlot 0 s' = Some false /\ NeedBuffer 0 s' = Some true) /\
  (spec_NeedsSlot 0 (gpu_signal 0 s') = Some true /\
   NeedBuffer 0 (gpu_signal 0 s') = Some false) /\
  NeedBuffer 0 s' <> Some false.
Proof.
  cbv zeta. split; [|split; [|split]].
  - vm_compute. auto 10.
  - split; vm_compute; reflexivity.
  - split; vm_compute; reflexivity.
  - vm_compute. discriminate.
Qed.

(** *** AddVideoPicture *)

(** C9.  [AddVideoPicture] into a slot that still holds a buffer logs
    "unreleased video buffer", destroys the fence of the slot (when the
    slot has its fence object), unmaps its texture and releases the old
    buffer once, in this order, before it stores the new buffer and
    acquires it: the count of the old buffer goes down by one and that of
    the new buffer up by one. *)
Theorem add_picture_occupied (picture : VideoPicture) (index : nat)
    (s : State) (buf : BUFFER) (old : ptr) :
  slot s index = Some buf -> videoBuffer buf = Some old ->
  let new := Buffer.videoBuffer picture in
  let s' := AddVideoPicture picture index s in
  calls s' =
    calls s ++ [LogError "unreleased video buffer"] ++
    (match fence buf with Some _ => [FenceDestroy index] | None => [] end) ++
    [TextureUnmap index; BufferRelease old; BufferAcquire new] /\
  (forall x, refs s' x =
     refs s x - (if decide (old = x) then 1 else 0)
              + (if decide (new = x) then 1 else 0)) /\
  (old <> new -> refs s' old = refs s old - 1 /\ refs s' new = refs s new + 1) /\
  (exists buf', slot s' index = Some buf' /\
     videoBuffer buf' = Some new /\
     fence buf' = match fence buf with Some _ => Some NoSync | None => None end /\
     mapped (texture buf') = None).
Proof.
  intros Hslot Hold new s'. unfold slot in *.
  assert (Hrefs : forall x, refs s' x =
     refs s x - (if decide (old = x) then 1 else 0)
              + (if decide (new = x) then 1 else 0)).
  { intros x. subst s'. unfold AddVideoPicture, refs. rewrite Hslot.
    cbn [fmap option_fmap option_map]. rewrite Hold.
    unfold BufferAcquire_, BufferRelease_, TextureUnmap_, DestroyFence.
    members. rewrite !update_at. fold new.
    assert (E : forall t, heap (match fence <$> m_buffers (emit (LogError "unreleased video buffer") s) !! index with
                   | Some (Some _) => on_slot index (with_fence (Some NoSync))
                       (emit (FenceDestroy index) (emit (LogError "unreleased video buffer") s))
                   | _ => emit (LogError "unreleased video buffer") s
                   end) t = heap s t).
    { intros t. destruct (fence <$> _) as [[?|]|]; reflexivity. }
    rewrite !E.
    destruct (decide (old = x)), (decide (new = x)); cbn [m_refCount with_refCount]; lia. }
  split; [|split; [exact Hrefs|split]].
  - subst s'. unfold AddVideoPicture. rewrite Hslot.
    cbn [fmap option_fmap option_map]. rewrite Hold.
    unfold BufferAcquire_, BufferRelease_, TextureUnmap_, DestroyFence.
    members. rewrite Hslot. cbn [fmap option_fmap option_map].
    destruct (fence buf); members; rewrite <- !app_assoc; reflexivity.
  - intros Hne. rewrite !Hrefs.
    destruct (decide (old = old)), (decide (new = old)), (decide (old = new)),
      (decide (new = new)); try congruence. lia.
  - subst s'. unfold AddVideoPicture. rewrite Hslot.
    cbn [fmap option_fmap option_map]. rewrite Hold.
    unfold BufferAcquire_, BufferRelease_, TextureUnmap_, DestroyFence.
    members. rewrite Hslot. cbn [fmap option_fmap option_map].
    destruct (fence buf) eqn:Ef; members;
      rewrite !list_lookup_alter_eq, Hslot; cbn [fmap option_fmap option_map];
      eexists; (split; [reflexivity|]); members; rewrite ?Ef; auto.
Qed.

Lemma add_picture_occupied_witness :
  let s := Samples.playing in
  let s' := AddVideoPicture Samples.picture_576p 0 s in
  (exists buf, slot s 0 = Some buf /\ videoBuffer buf = Some 1%nat) /\
  refs s' 1%nat = refs s 1%nat - 1 /\ refs s' 2%nat = refs s 2%nat + 1.
Proof.
  intros s s'.
  assert (Hne : 1%nat <> Buffer.videoBuffer Samples.picture_576p) by discriminate.
  assert (Hs : exists buf, slot s 0 = Some buf /\ videoBuffer buf = Some 1%nat)
    by (eexists; split; reflexivity).
  refine (conj Hs _).
  destruct Hs as (buf & Hslot & Hold).
  exact (proj1 (proj2 (proj2
    (add_picture_occupied Samples.picture_576p 0%nat s buf 1%nat Hslot Hold))) Hne).
Defined.

(** *** Flush and Configure *)

Lemma lookup_alter_frame {A} (g : BUFFER -> A) f (i j : nat) (l : list BUFFER) :
  (forall b, g (f b) = g b) -> g <$> alter f i l !! j = g <$> l !! j.
Proof.
  intros Hg. rewrite list_lookup_alter. case_decide; [subst|reflexivity].
  destruct (l !! j); cbn; [now rewrite Hg | reflexivity].
Qed.

Lemma ReleaseBuffer_source (index : nat) (s : State) :
  same_source s (ReleaseBuffer index s).
Proof.
  unfold ReleaseBuffer, TextureUnmap_, DestroyFence, BufferRelease_, same_source.
  destruct (fence <$> m_buffers s !! index) as [[?|]|];
    match goal with |- context [videoBuffer <$> ?l !! index] =>
      destruct (videoBuffer <$> l !! index) as [[?|]|] end;
    members; auto.
Qed.



Lemma Flush_source (l : list nat) (s : State) :
  same_source s (foldl (fun s i => ReleaseBuffer i s) s l).
Proof.
  revert s. induction l as [|i l IH]; intros s; cbn [foldl].
  - repeat split.
  - destruct (IH (ReleaseBuffer i s)) as (A1 & A2 & A3 & A4 & A5).
    destruct (ReleaseBuffer_source i s) as (B1 & B2 & B3 & B4 & B5).
    unfold same_source. rewrite A1, A2, A3, A4, A5. auto.
Qed.


End RendererFacts.

(** ** More about the bridge *)

Module BridgeMore.
Import Buffer Drm Geometry Bridge BufferFacts BridgeFacts.

(** *** The destructor *)

Lemma Acquire_sequence_balance (bs : list ptr) (s : State) (x : ptr) :
  let s' := foldl (fun t b => Acquire b t) s bs in
  refs s' x - held s' x = refs s x - held s x.
Proof.
  cbv zeta. revert s. induction bs as [|b bs IH]; intros s; cbn [foldl].
  - reflexivity.
  - rewrite IH. apply Acquire_balance.
Qed.

Lemma destructor_refs (s : State) (x : ptr) :
  refs (destructor s) x = refs s x - held s x.
Proof.
  unfold destructor, held.
  destruct (Release_members (m_prev_buffer s) s) as (-> & _).
  rewrite !Release_refs. lia.
Qed.

(** X1.  The destructor gives back every reference the bridge holds, and
    with it every reference [Acquire] ever took: after any sequence of
    [Acquire] calls and the destructor, the count of each buffer is the
    count it had at the start less the references the bridge held then.
    The buffers the bridge held at the end are left unmapped. *)
Theorem destructor_returns_all (bs : list ptr) (s : State) (x : ptr) :
  let s' := foldl (fun t b => Acquire b t) s bs in
  refs (destructor s') x = refs s x - held s x /\
  (held s' x <> 0 ->
   m_fb_id (heap (destructor s') x) = 0 /\
   forall i, (i < AV_DRM_MAX_PLANES)%nat ->
             handle (heap (destructor s') x) i = 0).
Proof.
  intros s'. split.
  - rewrite destructor_refs. apply Acquire_sequence_balance.
  - clearbody s'. intros Hheld. unfold destructor.
    destruct (Release_members (m_prev_buffer s') s') as (Ecur & _).
    rewrite Ecur.
    destruct (decide (m_buffer s' = Some x)) as [Hc | Hc].
    + rewrite Hc. cbn [Release]. unfold BufferRelease_. members. split.
      * rewrite update_frame by reflexivity. apply Unmap_fb_id.
      * intros i Hi. rewrite (update_frame (fun v => handle v i)) by reflexivity.
        now apply Unmap_handles.
    + assert (Hp : m_prev_buffer s' = Some x).
      { unfold held in Hheld. repeat case_decide; congruence || lia. }
      rewrite (Release_other (m_buffer s')) by assumption.
      rewrite Hp. cbn [Release]. unfold BufferRelease_. members. split.
      * rewrite update_frame by reflexivity. apply Unmap_fb_id.
      * intros i Hi. rewrite (update_frame (fun v => handle v i)) by reflexivity.
        now apply Unmap_handles.
Qed.

Lemma destructor_returns_all_witness :
  let s := Samples.new_bridge in
  let s' := foldl (fun t b => Acquire b t) s [1%nat; 2%nat; 3%nat] in
  held s' 3%nat <> 0 /\ m_fb_id (heap (destructor s') 3%nat) = 0.
Proof.
  intros s s'.
  assert (H : held s' 3%nat <> 0) by (vm_compute; discriminate).
  exact (conj H (proj1 (proj2
    (destructor_returns_all [1%nat; 2%nat; 3%nat] s 3%nat) H))).
Defined.

(** *** UpdateVideoPlane *)

Lemma Release_calls_quiet (p : option ptr) (s : State) :
  count is_AddProperty (Release p s) = count is_AddProperty s.
Proof.
  apply count_Release. intros c Hc. destruct c; try discriminate; reflexivity.
Qed.

(** X2.  [UpdateVideoPlane] does nothing when the bridge has no current
    buffer or the current buffer has no framebuffer.  Otherwise it
    releases the previous buffer (which loses one reference and is left
    unmapped), sets [m_prev_buffer] to null, keeps the current buffer, and
    stages FB_ID and CRTC_ID and nothing else; a second call right after
    it releases nothing any more. *)
Theorem update_plane_effect (w w' : World) (s : State) :
  (m_buffer s = None -> UpdateVideoPlane w s = s) /\
  (forall cur, m_buffer s = Some cur -> m_fb_id (heap s cur) = 0 ->
     UpdateVideoPlane w s = s) /\
  (forall cur, m_buffer s = Some cur -> m_fb_id (heap s cur) <> 0 ->
     let s' := UpdateVideoPlane w s in
     (m_buffer s' = Some cur /\ m_prev_buffer s' = None) /\
     (forall x, refs s' x =
        refs s x - (if decide (m_prev_buffer s = Some x) then 1 else 0)) /\
     (forall p, m_prev_buffer s = Some p ->
        m_fb_id (heap s' p) = 0 /\
        forall i, (i < AV_DRM_MAX_PLANES)%nat -> handle (heap s' p) i = 0) /\
     calls s' =
       calls (Release (m_prev_buffer s) s) ++
       [ AddProperty (GetVideoPlane w) "FB_ID" (to_uint64 (m_fb_id (heap s' cur)));
         AddProperty (GetVideoPlane w) "CRTC_ID" (to_uint64 (GetCrtcId w)) ] /\
     (m_prev_buffer s <> Some cur ->
      m_fb_id (heap s' cur) = m_fb_id (heap s cur) /\
      heap (UpdateVideoPlane w' s') = heap s' /\
      m_buffer (UpdateVideoPlane w' s') = Some cur /\
      m_prev_buffer (UpdateVideoPlane w' s') = None /\
      count is_release (UpdateVideoPlane w' s') = count is_release s')).
Proof.
  split; [|split].
  - intros H. unfold UpdateVideoPlane. now rewrite H.
  - intros cur H Hfb. unfold UpdateVideoPlane. now rewrite H, Hfb.
  - intros cur H Hfb s'.
    assert (E : s' = stage (GetVideoPlane w)
              [ ("FB_ID", m_fb_id (heap (Release (m_prev_buffer s) s) cur));
                ("CRTC_ID", GetCrtcId w) ]
              (set_buffers (m_buffer (Release (m_prev_buffer s) s)) None
                 (Release (m_prev_buffer s) s))).
    { subst s'. unfold UpdateVideoPlane. rewrite H.
      apply Z.eqb_neq in Hfb. now rewrite Hfb. }
    destruct (Release_members (m_prev_buffer s) s) as (Rb & _).
    match type of E with _ = stage ?o ?ps ?t =>
      destruct (stage_frame o ps t) as (S1 & S2 & S3);
      pose proof (stage_calls o ps t) as SC end.
    rewrite <- E in S1, S2, S3, SC. members.
    assert (Hcur : m_buffer s' = Some cur) by congruence.
    assert (Hheap : heap s' = heap (Release (m_prev_buffer s) s)) by exact S3.
    split; [split; assumption|]. split; [|split; [|split; [|]]].
    + intros x. unfold refs. rewrite Hheap. apply Release_refs.
    + intros p Hp. rewrite Hheap, Hp. cbn [Release]. unfold BufferRelease_. members.
      split.
      * rewrite update_frame by reflexivity. apply Unmap_fb_id.
      * intros i Hi. rewrite (update_frame (fun v => handle v i)) by reflexivity.
        now apply Unmap_handles.
    + rewrite SC, Hheap. reflexivity.
    + intros Hne.
      assert (Hsame : m_fb_id (heap s' cur) = m_fb_id (heap s cur)).
      { rewrite Hheap. now rewrite Release_other. }
      split; [exact Hsame|].
      assert (E2 : UpdateVideoPlane w' s' = stage (GetVideoPlane w')
                [ ("FB_ID", m_fb_id (heap s' cur)); ("CRTC_ID", GetCrtcId w') ]
                (set_buffers (m_buffer s') None s')).
      { unfold UpdateVideoPlane. rewrite Hcur.
        assert (Hnz : (m_fb_id (heap s' cur) =? 0) = false)
          by (apply Z.eqb_neq; congruence).
        rewrite Hnz. cbv zeta. rewrite S2. cbn [Release]. members.
        rewrite ?Hcur. reflexivity. }
      rewrite E2.
      match goal with |- context [stage ?o ?ps ?t] =>
        destruct (stage_frame o ps t) as (T1 & T2 & T3);
        pose proof (stage_calls o ps t) as TC end.
      rewrite T1, T2, T3. members. repeat split; try assumption.
      unfold count. rewrite TC. members. rewrite List.filter_app, length_app.
      cbn. lia.
Qed.

Lemma update_plane_effect_witness :
  let w := Samples.display 0 0 true true in
  let s := snd (Map w 2%nat (snd (Map w 1%nat Samples.new_bridge))) in
  (m_buffer s = Some 2%nat /\ m_fb_id (heap s 2%nat) <> 0) /\
  m_prev_buffer (UpdateVideoPlane w s) = None /\
  refs (UpdateVideoPlane w s) 1%nat = refs s 1%nat - 1.
Proof.
  intros w s.
  assert (Hc : m_buffer s = Some 2%nat) by reflexivity.
  assert (Hf : m_fb_id (heap s 2%nat) <> 0) by (vm_compute; discriminate).
  pose proof (proj2 (proj2 (update_plane_effect w w s)) 2%nat Hc Hf) as H.
  refine (conj (conj Hc Hf) (conj (proj2 (proj1 H)) _)).
  exact (proj1 (proj2 H) 1%nat).
Defined.

(** *** SetVideoPlane *)

(** X3.  [SetVideoPlane] on a buffer that has its framebuffer already takes
    no reference and moves neither the current nor the previous buffer:
    it changes no buffer and only stages the ten plane properties. *)
Theorem present_again (w : World) (b : ptr) (r : CRect) (s : State) :
  m_fb_id (heap s b) <> 0 ->
  let s' := SetVideoPlane w b r s in
  heap s' = heap s /\
  (m_buffer s' = m_buffer s /\ m_prev_buffer s' = m_prev_buffer s) /\
  calls s' =
    calls s ++
    map (fun p => AddProperty (GetVideoPlane w) (fst p) (to_uint64 (snd p)))
        (plane_properties w (heap s b) r) /\
  length (plane_properties w (heap s b) r) = 10%nat.
Proof.
  intros Hfb s'. subst s'. unfold SetVideoPlane.
  rewrite (Map_mapped w b s Hfb). cbn [negb].
  destruct (stage_frame (GetVideoPlane w) (plane_properties w (heap s b) r) s)
    as (-> & -> & ->).
  rewrite stage_calls. auto.
Qed.

Lemma present_again_witness :
  let w := Samples.display 0 0 true true in
  let s := snd (Map w 1%nat Samples.new_bridge) in
  m_fb_id (heap s 1%nat) <> 0 /\
  heap (SetVideoPlane w 1%nat Samples.odd_rect s) = heap s.
Proof.
  intros w s.
  assert (H : m_fb_id (heap s 1%nat) <> 0) by (vm_compute; discriminate).
  exact (conj H (proj1 (present_again w 1%nat Samples.odd_rect s H))).
Defined.

(** X4.  When the buffer cannot give its descriptor, [Map] fails before any
    ioctl, and the [Unmap] of [SetVideoPlane] still releases the
    descriptor: one release that no acquisition stands against.  No handle
    is converted and no framebuffer created. *)
Theorem descriptor_failure (w : World) (b : ptr) (r : CRect) (s : State) :
  m_fb_id (heap s b) = 0 ->
  AcquireDescriptor_result w b = false ->
  let s' := SetVideoPlane w b r s in
  fst (Map w b s) = false /\
  m_descRefs (heap s' b) = m_descRefs (heap s b) - 1 /\
  (count is_conversion s' = count is_conversion s /\
   count is_AddFB2 s' = count is_AddFB2 s /\
   count is_AddProperty s' = count is_AddProperty s) /\
  ((forall i, (i < AV_DRM_MAX_PLANES)%nat -> handle (heap s b) i = 0) ->
   calls s' =
     calls s ++ [ BufferAcquireDescriptor b;
                  Log LOGERROR "failed to acquire descriptor";
                  BufferReleaseDescriptor b ]).
Proof.
  intros Hfb Hacq s'.
  assert (EM : Map w b s = (false, emit (Log LOGERROR "failed to acquire descriptor")
                                     (emit (BufferAcquireDescriptor b) s))).
  { unfold Map, AcquireDescriptor. now rewrite Hfb, Hacq. }
  assert (ES : s' = Unmap b (emit (Log LOGERROR "failed to acquire descriptor")
                               (emit (BufferAcquireDescriptor b) s))).
  { subst s'. unfold SetVideoPlane. now rewrite EM. }
  rewrite EM, ES. clear EM ES s'.
  assert (Hq : forall P, (forall c, is_release c = true -> P c = false) ->
             P (Log LOGERROR "failed to acquire descriptor") = false ->
             P (BufferAcquireDescriptor b) = false ->
             count P (Unmap b (emit (Log LOGERROR "failed to acquire descriptor")
                                 (emit (BufferAcquireDescriptor b) s))) = count P s).
  { intros P HP H1 H2. rewrite count_Unmap by assumption.
    rewrite !count_emit, H1, H2. lia. }
  split; [reflexivity|]. split; [rewrite Unmap_descRefs; reflexivity|]. split.
  - repeat split; apply Hq; try reflexivity;
      intros c Hc; destruct c; try discriminate; reflexivity.
  - intros Hh. rewrite Unmap_idle by (members; assumption). members.
    now rewrite <- !app_assoc.
Qed.

Lemma descriptor_failure_witness :
  let w := {| AcquireDescriptor_result := fun _ => false;
              drmPrimeFDToHandle := fun prime_fd => (0, 40 + prime_fd);
              drmModeAddFB2WithModifiers := fun _ _ _ _ _ _ _ _ => (0, 90);
              drmModeCreatePropertyBlob := fun _ => (0, 100);
              GetVideoPlane := Some 31; GetGuiPlane := Some 32;
              GetConnector := Some 33; GetCrtcId := 34;
              GetPropertyValue := fun _ _ _ => (false, 0);
              SupportsProperty := fun _ _ => false;
              GetEDID := (false, []);
              SupportsColorimetry := fun _ _ => false;
              SupportsEOTF := fun _ _ => false;
              GetColorEncoding := fun _ => "";
              GetColorRange := fun _ => "";
              GetColorimetry := fun _ => "";
              GetEOTF := fun _ => 0;
              GetMasteringDisplayMetadata := fun _ => None;
              GetContentLightMetadata := fun _ => None;
              HDMI_STATIC_METADATA_TYPE1 := 0;
              round_scaled := fun _ _ => 0 |} in
  let s := Samples.new_bridge in
  (m_fb_id (heap s 1%nat) = 0 /\ AcquireDescriptor_result w 1%nat = false) /\
  m_descRefs (heap (SetVideoPlane w 1%nat Samples.odd_rect s) 1%nat) = -1.
Proof.
  intros w s.
  assert (Hfb : m_fb_id (heap s 1%nat) = 0) by reflexivity.
  assert (Ha : AcquireDescriptor_result w 1%nat = false) by reflexivity.
  exact (conj (conj Hfb Ha)
    (proj1 (proj2 (descriptor_failure w 1%nat Samples.odd_rect s Hfb Ha)))).
Defined.

(** *** Three presentations *)

Lemma Map_true_acquired (w : World) (b : ptr) (s : State) :
  m_fb_id (heap s b) = 0 -> fst (Map w b s) = true ->
  AcquireDescriptor_result w b = true.
Proof.
  intros Hfb. unfold Map, AcquireDescriptor. rewrite Hfb. cbn [Z.eqb negb].
  destruct (AcquireDescriptor_result w b); [reflexivity|]. cbn. discriminate.
Qed.

Lemma Acquire_other (b x : ptr) (s : State) :
  x <> b -> m_prev_buffer s <> Some x -> heap (Acquire b s) x = heap s x.
Proof.
  intros Hx Hp. unfold Acquire, BufferAcquire_. members.
  rewrite update_ne by congruence. now apply Release_other.
Qed.

Lemma Acquire_self (b : ptr) (s : State) :
  m_prev_buffer s <> Some b ->
  heap (Acquire b s) b = with_refCount (fun n => n + 1) (heap s b).
Proof.
  intros Hp. unfold Acquire, BufferAcquire_. members.
  rewrite update_eq. members. now rewrite Release_other.
Qed.

Lemma Acquire_previous (b p : ptr) (s : State) :
  m_prev_buffer s = Some p -> p <> b ->
  heap (Acquire b s) p = with_refCount (fun n => n - 1) (heap (Unmap p s) p).
Proof.
  intros Hp Hne. unfold Acquire, BufferAcquire_. members.
  rewrite update_ne by congruence. rewrite Hp. cbn [Release].
  unfold BufferRelease_. members. now rewrite update_eq.
Qed.

(** A presentation that imports its buffer. *)
Lemma present_shape (w : World) (b : ptr) (r : CRect) (s : State) :
  m_fb_id (heap s b) = 0 -> fst (Map w b s) = true ->
  exists s3,
    touches_only b s s3 /\
    m_descRefs (heap s3 b) = m_descRefs (heap s b) + 1 /\
    heap (SetVideoPlane w b r s) = heap (Acquire b s3) /\
    m_buffer (SetVideoPlane w b r s) = Some b /\
    m_prev_buffer (SetVideoPlane w b r s) = m_buffer s.
Proof.
  intros Hfb Hok.
  pose proof (Map_true_acquired w b s Hfb Hok) as Hacq.
  destruct (Map_shape w b s Hfb) as (s3 & T & _ & D & [[E _] | (E & _)]);
    [rewrite E in Hok; discriminate|].
  exists s3. split; [exact T|]. split; [now apply D|].
  unfold SetVideoPlane. rewrite E. cbn [negb].
  match goal with |- context [stage ?o ?ps ?t] =>
    destruct (stage_frame o ps t) as (-> & -> & ->) end.
  split; [reflexivity|]. split; [apply Acquire_buffer|].
  rewrite Acquire_prev. apply T.
Qed.

(** X5.  Three presentations of three different buffers, each importing
    its buffer, leave the first one as it was before it was presented:
    its reference count and the count of acquisitions of its descriptor
    are back at their old values, it has no framebuffer and no handle.
    The second buffer is then the previous and the third the current
    one. *)
Theorem third_present_retires_first
    (w1 w2 w3 : World) (b1 b2 b3 : ptr) (r1 r2 r3 : CRect) (s : State) :
  b1 <> b2 -> b1 <> b3 -> held s b1 = 0 ->
  let s1 := SetVideoPlane w1 b1 r1 s in
  let s2 := SetVideoPlane w2 b2 r2 s1 in
  let s3 := SetVideoPlane w3 b3 r3 s2 in
  (m_fb_id (heap s b1) = 0 /\ fst (Map w1 b1 s) = true) ->
  (m_fb_id (heap s1 b2) = 0 /\ fst (Map w2 b2 s1) = true) ->
  (m_fb_id (heap s2 b3) = 0 /\ fst (Map w3 b3 s2) = true) ->
  (refs s1 b1 = refs s b1 + 1 /\
   m_descRefs (heap s1 b1) = m_descRefs (heap s b1) + 1 /\
   heap s2 b1 = heap s1 b1) /\
  (refs s3 b1 = refs s b1 /\
   m_descRefs (heap s3 b1) = m_descRefs (heap s b1) /\
   m_fb_id (heap s3 b1) = 0 /\
   forall i, (i < AV_DRM_MAX_PLANES)%nat -> handle (heap s3 b1) i = 0) /\
  (m_prev_buffer s3 = Some b2 /\ m_buffer s3 = Some b3).
Proof.
  intros H12 H13 Hfree s1 s2 s3 [F1 M1] [F2 M2] [F3 M3].
  assert (Hp0 : m_prev_buffer s <> Some b1 /\ m_buffer s <> Some b1).
  { unfold held in Hfree. repeat case_decide; try lia. split; assumption. }
  destruct Hp0 as [Hp0 Hc0].
  destruct (present_shape w1 b1 r1 s F1 M1) as (t1 & T1 & D1 & E1 & C1 & P1).
  destruct (present_shape w2 b2 r2 s1 F2 M2) as (t2 & T2 & D2 & E2 & C2 & P2).
  destruct (present_shape w3 b3 r3 s2 F3 M3) as (t3 & T3 & D3 & E3 & C3 & P3).
  fold s1 in E1, C1, P1, E2, C2, P2. fold s2 in E2, C2, P2, E3, C3, P3.
  fold s3 in E3, C3, P3.
  destruct T1 as (_ & T1p & _ & _ & T1r & _).
  destruct T2 as (_ & T2p & _ & _ & _ & T2o).
  destruct T3 as (_ & T3p & _ & _ & _ & T3o).
  assert (H1 : heap s1 b1 = with_refCount (fun n => n + 1) (heap t1 b1)).
  { rewrite E1. apply Acquire_self. congruence. }
  assert (H2 : heap s2 b1 = heap s1 b1).
  { rewrite E2, Acquire_other; [now apply T2o | assumption | congruence]. }
  assert (H3 : heap s3 b1 =
               with_refCount (fun n => n - 1) (heap (Unmap b1 t3) b1)).
  { rewrite E3. apply Acquire_previous; [congruence | assumption]. }
  assert (Ht3 : heap t3 b1 = heap s1 b1) by (rewrite T3o by assumption; exact H2).
  assert (R1 : refs s1 b1 = refs s b1 + 1).
  { unfold refs. rewrite H1. members. fold (refs t1 b1). now rewrite T1r. }
  split; [|split].
  - split; [exact R1|]. split; [|exact H2]. rewrite H1. members. exact D1.
  - unfold refs. rewrite H3. members.
    fold (refs (Unmap b1 t3) b1). rewrite Unmap_refs. unfold refs.
    rewrite Unmap_descRefs, Unmap_fb_id, Ht3.
    fold (refs s1 b1). rewrite R1, H1. members. rewrite D1. unfold refs.
    split; [lia|]. split; [lia|]. split; [reflexivity|].
    intros i Hi. change (handle (with_refCount ?f ?v) i) with (handle v i).
    now apply Unmap_handles.
  - split; congruence.
Qed.

Lemma third_present_retires_first_witness :
  let w := Samples.display 0 0 true true in
  let s := Samples.new_bridge in
  let r := Samples.odd_rect in
  let s3 := SetVideoPlane w 3%nat r (SetVideoPlane w 2%nat r (SetVideoPlane w 1%nat r s)) in
  heap s3 1%nat = heap s 1%nat /\ refs s3 1%nat = refs s 1%nat.
Proof.
  intros w s r s3.
  assert (H12 : 1%nat <> 2%nat) by discriminate.
  assert (H13 : 1%nat <> 3%nat) by discriminate.
  assert (Hfree : held s 1%nat = 0) by reflexivity.
  pose proof (third_present_retires_first w w w 1%nat 2%nat 3%nat r r r s
                H12 H13 Hfree
                (conj eq_refl eq_refl) (conj eq_refl eq_refl) (conj eq_refl eq_refl)) as H.
  refine (conj _ (proj1 (proj1 (proj2 H)))).
  vm_compute. reflexivity.
Defined.

(** *** The plane layout of Map *)

Lemma put_plane_entries buf d (i : nat) pd (l : Layout) :
  four_entries l -> four_entries (put_plane buf d i pd l).
Proof.
  intros (A & B & C & D). unfold four_entries, put_plane. cbn.
  now rewrite !length_insert.
Qed.

Lemma entry_put buf d (i j : nat) pd (l : Layout) :
  four_entries l ->
  entry (put_plane buf d i pd l) j =
  if decide (i = j /\ (i < 4)%nat) then plane_entry buf d pd else entry l j.
Proof.
  intros (A & B & C & D). unfold entry, put_plane, plane_entry.
  cbn [handles pitches offsets modifier].
  rewrite !nth_insert, A, B, C, D. now case_decide.
Qed.

Lemma fold_put buf d (f : Layout -> nat -> Layout)
    (pd : nat -> AVDRMPlaneDescriptor) (n : nat) (l0 : Layout) :
  (forall l i, (i < n)%nat -> f l i = put_plane buf d i (pd i) l) ->
  four_entries l0 ->
  four_entries (foldl f l0 (seq 0 n)) /\
  forall j, (j < 4)%nat ->
    entry (foldl f l0 (seq 0 n)) j =
    if (j <? n)%nat then plane_entry buf d (pd j) else entry l0 j.
Proof.
  intros Hf H0. induction n as [|n IH].
  - split; [exact H0 | reflexivity].
  - assert (Hf' : forall l i, (i < n)%nat -> f l i = put_plane buf d i (pd i) l)
      by (intros l i Hi; apply Hf; lia).
    destruct (IH Hf') as [IHw IHe].
    rewrite seq_S, foldl_app. cbn [foldl Nat.add].
    rewrite Hf by lia. split; [now apply put_plane_entries|].
    intros j Hj. rewrite entry_put by assumption. rewrite IHe by assumption.
    case_decide as Hd.
    + destruct Hd as [<- _]. now rewrite (proj2 (Nat.ltb_lt n (S n))) by lia.
    + destruct (Nat.ltb_spec j n), (Nat.ltb_spec j (S n)); try reflexivity; lia.
Qed.

Lemma empty_entries : four_entries empty_layout.
Proof. repeat split. Qed.

Lemma entry_empty (j : nat) : entry empty_layout j = (0, 0, 0, 0).
Proof. unfold entry. do 4 (destruct j as [|j]; [reflexivity|]). now destruct j. Qed.

(** X6.  The layout [Map] hands to the kernel.  With several layers of one
    plane each, plane [j] of the framebuffer is the plane of layer [j];
    with a single layer, plane [j] is plane [j] of that layer; the entries
    after the last plane stay zero. *)
Theorem layout_planes (buf : CVideoBufferDRMPRIME) (d : AVDRMFrameDescriptor)
    (j : nat) :
  (j < AV_DRM_MAX_PLANES)%nat ->
  ((1 < nb_layers d)%nat ->
   (forall i, (i < nb_layers d)%nat -> nb_planes (layer_at d i) = 1%nat) ->
   entry (map_layers buf d) j =
     if (j <? nb_layers d)%nat
     then plane_entry buf d (plane_at (layer_at d j) 0)
     else (0, 0, 0, 0)) /\
  (nb_layers d = 1%nat ->
   entry (map_layers buf d) j =
     if (j <? nb_planes (layer_at d 0))%nat
     then plane_entry buf d (plane_at (layer_at d 0) j)
     else (0, 0, 0, 0)).
Proof.
  intros Hj. unfold AV_DRM_MAX_PLANES in Hj. split.
  - intros Hn Hone. unfold map_layers.
    destruct (fold_put buf d (map_layer buf d)
                (fun i => plane_at (layer_at d i) 0) (nb_layers d) empty_layout)
      as [_ He].
    + intros l i Hi. unfold map_layer.
      rewrite (proj2 (Nat.ltb_lt 1 (nb_layers d)) Hn), (Hone i Hi). reflexivity.
    + apply empty_entries.
    + rewrite He by assumption. now rewrite entry_empty.
  - intros H1. unfold map_layers. rewrite H1. cbn [seq foldl].
    unfold map_layer. rewrite H1. cbn [Nat.ltb Nat.leb andb].
    destruct (fold_put buf d
                (fun l plane => put_plane buf d plane (plane_at (layer_at d 0) plane) l)
                (fun i => plane_at (layer_at d 0) i)
                (nb_planes (layer_at d 0)) empty_layout) as [_ He].
    + reflexivity.
    + apply empty_entries.
    + rewrite He by assumption. now rewrite entry_empty.
Qed.

Lemma layout_planes_witness :
  let d := Samples.nv12_descriptor in
  let buf := with_handle 0 47 (Samples.decoded 1%nat) in
  ((1 < 4)%nat /\ (1 < nb_layers d)%nat /\
   (forall i, (i < nb_layers d)%nat -> nb_planes (layer_at d i) = 1%nat)) /\
  entry (map_layers buf d) 1 = (47, 1920, 2073600, 0).
Proof.
  intros d buf.
  assert (Hj : (1 < AV_DRM_MAX_PLANES)%nat) by (unfold AV_DRM_MAX_PLANES; lia).
  assert (Hn : (1 < nb_layers d)%nat) by (cbn; lia).
  assert (Hone : forall i, (i < nb_layers d)%nat -> nb_planes (layer_at d i) = 1%nat).
  { intros i Hi. cbn in Hi. destruct i as [|[|i]]; [reflexivity | reflexivity | lia]. }
  refine (conj (conj Hj (conj Hn Hone)) _).
  exact (proj1 (layout_planes buf d 1%nat Hj) Hn Hone).
Defined.

(** *** The conversion loop of Map *)

Lemma until_failure_length (w : World) d todo :
  (length (until_failure w d todo) <= length todo)%nat.
Proof.
  induction todo as [|o rest IH]; cbn; [lia|].
  destruct (_ <? 0); cbn; lia.
Qed.

(** X7.  [Map] converts the objects of the descriptor in order and gives
    up at the first conversion that fails: the objects after it are not
    converted, an error is logged, no framebuffer is requested, and the
    call returns false. *)
Theorem conversion_failure_stops (w : World) (b : ptr) (s : State) :
  m_fb_id (heap s b) = 0 ->
  AcquireDescriptor_result w b = true ->
  let d := m_descriptor (heap s b) in
  let todo := seq 0 (nb_objects d) in
  forallb (fun r => negb (r <? 0)) (conversion_results w d todo) = false ->
  fst (Map w b s) = false /\
  calls (snd (Map w b s)) =
    calls s ++ [BufferAcquireDescriptor b] ++
    map (fun o => PrimeFDToHandle (fd (object_at d o))) (until_failure w d todo) ++
    [Log LOGERROR "failed to convert prime fd {} to gem handle {}, ret = {}"] /\
  (length (until_failure w d todo) <= nb_objects d)%nat /\
  count is_AddFB2 (snd (Map w b s)) = count is_AddFB2 s.
Proof.
  intros Hfb Hacq d todo Hfail.
  assert (Hlen : (length (until_failure w d todo) <= nb_objects d)%nat).
  { pose proof (until_failure_length w d todo) as H. subst todo.
    now rewrite length_seq in H. }
  unfold Map, AcquireDescriptor. rewrite Hfb, Hacq. cbn [Z.eqb negb].
  set (s0 := on_buffer b (with_descRefs (fun n => n + 1))
               (emit (BufferAcquireDescriptor b) s)).
  assert (Ed : m_descriptor (heap s0 b) = d).
  { subst s0. members. now rewrite update_eq. }
  rewrite Ed. fold todo.
  destruct (convert_trace w b d todo s0) as [Cf Cc].
  rewrite Hfail in Cf.
  destruct (convert_objects w b d todo s0) as [conv s1]. cbn [fst snd] in *.
  subst conv. cbn [negb fst snd].
  assert (Ecalls : calls s1 = calls s ++ [BufferAcquireDescriptor b] ++
    map (fun o => PrimeFDToHandle (fd (object_at d o))) (until_failure w d todo) ++
    [Log LOGERROR "failed to convert prime fd {} to gem handle {}, ret = {}"]).
  { rewrite Cc. subst s0. members. now rewrite <- !app_assoc. }
  split; [reflexivity|]. split; [exact Ecalls|]. split; [exact Hlen|].
  unfold count. rewrite Ecalls, !List.filter_app, !length_app.
  assert (Hz : forall l, List.filter is_AddFB2
             (map (fun o => PrimeFDToHandle (fd (object_at d o))) l) = []).
  { intros l. induction l as [|o l IH]; [reflexivity | exact IH]. }
  rewrite Hz. cbn. lia.
Qed.

Lemma conversion_failure_stops_witness :
  let w := Samples.display (-1) 0 true true in
  let s := Samples.new_bridge in
  fst (Map w 1%nat s) = false /\
  count is_AddFB2 (snd (Map w 1%nat s)) = count is_AddFB2 s.
Proof.
  intros w s.
  pose proof (conversion_failure_stops w 1%nat s eq_refl eq_refl eq_refl) as H.
  exact (conj (proj1 H) (proj2 (proj2 (proj2 H)))).
Defined.

(** *** What Configure and Disable stage *)

Lemma configure_plane_calls (w : World) (picture : VideoPicture) (s : State) :
  let plane := configured_plane w in
  keeps_buffers s (configure_plane w picture s) /\
  m_hdr_metadata (configure_plane w picture s) = m_hdr_metadata s /\
  m_hdr_blob_id (configure_plane w picture s) = m_hdr_blob_id s /\
  calls (configure_plane w picture s) =
    calls s ++
    optional_property plane "COLOR_ENCODING"
      (GetPropertyValue w plane "COLOR_ENCODING" (GetColorEncoding w picture)) ++
    optional_property plane "COLOR_RANGE"
      (GetPropertyValue w plane "COLOR_RANGE" (GetColorRange w picture)).
Proof.
  unfold configure_plane, configured_plane, optional_property, keeps_buffers.
  cbv zeta.
  destruct (GetPropertyValue w _ "COLOR_ENCODING" _) as [[] v1];
    destruct (GetPropertyValue w _ "COLOR_RANGE" _) as [[] v2];
    cbn [fst snd]; members; rewrite <- ?app_assoc, ?app_nil_r; auto 10.
Qed.

Lemma configure_colorspace_calls (w : World) (picture : VideoPicture) edid (s : State) :
  let connector := GetConnector w in
  let answer := GetPropertyValue w connector "Colorspace" (GetColorimetry w picture) in
  keeps_buffers s (configure_colorspace w picture edid s) /\
  m_hdr_metadata (configure_colorspace w picture edid s) = m_hdr_metadata s /\
  m_hdr_blob_id (configure_colorspace w picture edid s) = m_hdr_blob_id s /\
  calls (configure_colorspace w picture edid s) =
    calls s ++
    (if fst answer && SupportsColorimetry w edid (GetColorimetry w picture)
     then [Log LOGDEBUG "setting connector colorspace to {}";
           AddProperty connector "Colorspace" (snd answer); SetActive true]
     else []).
Proof.
  unfold configure_colorspace, keeps_buffers. cbv zeta.
  destruct (GetPropertyValue w (GetConnector w) "Colorspace" _) as [r v].
  cbn [fst snd]. destruct (r && SupportsColorimetry w edid _);
    members; rewrite <- ?app_assoc, ?app_nil_r; auto 10.
Qed.

Lemma configure_hdr_calls (w : World) (picture : VideoPicture) edid (s : State) :
  let s' := configure_hdr w picture edid s in
  let connector := GetConnector w in
  keeps_buffers s s' /\
  m_hdr_metadata s' =
    (if SupportsProperty w connector HDR_OUTPUT_METADATA then
       if SupportsEOTF w edid (GetEOTF w picture)
       then fill_metadata w picture
              (set_eotf (GetEOTF w picture)
                 (set_types (HDMI_STATIC_METADATA_TYPE1 w) (m_hdr_metadata s)))
       else set_types (HDMI_STATIC_METADATA_TYPE1 w) (m_hdr_metadata s)
     else m_hdr_metadata s) /\
  List.filter is_AddProperty (new_calls s s') =
    (if SupportsProperty w connector HDR_OUTPUT_METADATA
        && SupportsEOTF w edid (GetEOTF w picture)
     then [AddProperty connector HDR_OUTPUT_METADATA (m_hdr_blob_id s')]
     else []).
Proof.
  unfold configure_hdr, keeps_buffers. cbv zeta.
  destruct (SupportsProperty w (GetConnector w) HDR_OUTPUT_METADATA); cbn [andb].
  2:{ unfold new_calls. rewrite drop_all. auto. }
  destruct (SupportsEOTF w edid (GetEOTF w picture)).
  2:{ unfold new_calls. members. rewrite drop_all. auto. }
  unfold create_blob, destroy_blob. members.
  set (md := fill_metadata w picture _).
  destruct (drmModeCreatePropertyBlob w md) as [ret id].
  destruct (ret =? 0), (m_hdr_blob_id s =? 0); members;
    (split; [auto|]); (split; [reflexivity|]);
    unfold new_calls; members; rewrite <- ?app_assoc; rewrite drop_app_length;
    reflexivity.
Qed.

(** X8.  [Configure] changes no buffer and releases nothing.  Of the four
    properties it can stage it stages those the display has, in this
    order: COLOR_ENCODING and COLOR_RANGE of the video plane (of the GUI
    plane when there is no video plane) when the plane has the value
    asked for, Colorspace of the connector when the connector has the
    value and the EDID supports the colorimetry, and HDR_OUTPUT_METADATA
    when the connector has the property and the EDID supports the EOTF.
    Its last call is [SetActive(true)]. *)
Theorem configure_stages (w : World) (b : ptr) (s : State) :
  let picture := m_picture (heap s b) in
  let plane := configured_plane w in
  let connector := GetConnector w in
  let edid := read_edid w in
  let s' := Configure w b s in
  keeps_buffers s s' /\
  List.filter is_AddProperty (new_calls s s') =
    optional_property plane "COLOR_ENCODING"
      (GetPropertyValue w plane "COLOR_ENCODING" (GetColorEncoding w picture)) ++
    optional_property plane "COLOR_RANGE"
      (GetPropertyValue w plane "COLOR_RANGE" (GetColorRange w picture)) ++
    (if SupportsColorimetry w edid (GetColorimetry w picture)
     then optional_property connector "Colorspace"
            (GetPropertyValue w connector "Colorspace" (GetColorimetry w picture))
     else []) ++
    (if SupportsProperty w connector HDR_OUTPUT_METADATA
        && SupportsEOTF w edid (GetEOTF w picture)
     then [AddProperty connector HDR_OUTPUT_METADATA (m_hdr_blob_id s')]
     else []) /\
  last (calls s') = Some (SetActive true).
Proof.
  intros picture plane connector edid s'.
  assert (Hconf : s' = emit (SetActive true)
            (configure_hdr w picture edid
               (configure_colorspace w picture edid
                  (configure_plane w picture s)))) by reflexivity.
  destruct (configure_plane_calls w picture s) as ((A1 & A2 & A3) & _ & _ & A4).
  set (s1 := configure_plane w picture s) in *.
  destruct (configure_colorspace_calls w picture edid s1)
    as ((B1 & B2 & B3) & _ & _ & B4).
  set (s2 := configure_colorspace w picture edid s1) in *.
  destruct (configure_hdr_calls w picture edid s2) as ((C1 & C2 & C3) & _ & C4).
  set (s3 := configure_hdr w picture edid s2) in *.
  cbv zeta in *. fold plane in A4. fold connector in B4, C4.
  split; [|split].
  - rewrite Hconf. unfold keeps_buffers. members. repeat split; congruence.
  - assert (Hsplit : new_calls s s' =
              new_calls s s1 ++ new_calls s1 s2 ++ new_calls s2 s3 ++ [SetActive true]).
    { assert (E3 : exists cs3, calls s3 = calls s2 ++ cs3).
      { subst s3. unfold configure_hdr, create_blob, destroy_blob.
        destruct (SupportsProperty w _ _); [|exists []; now rewrite app_nil_r].
        destruct (SupportsEOTF w _ _); [|exists []; members; now rewrite app_nil_r].
        members. destruct (drmModeCreatePropertyBlob w _) as [ret id].
        destruct (ret =? 0), (m_hdr_blob_id s2 =? 0); members;
          rewrite <- ?app_assoc; eexists; reflexivity. }
      destruct E3 as [cs3 E3].
      rewrite (new_calls_app s s1 _ A4), (new_calls_app s1 s2 _ B4),
        (new_calls_app s2 s3 _ E3).
      apply new_calls_app. rewrite Hconf. members.
      rewrite E3, B4, A4, <- !app_assoc. reflexivity. }
    rewrite Hsplit, !List.filter_app, C4.
    rewrite (new_calls_app s s1 _ A4), (new_calls_app s1 s2 _ B4).
    replace (m_hdr_blob_id s') with (m_hdr_blob_id s3) by (now rewrite Hconf).
    rewrite List.filter_app. unfold optional_property.
    destruct (GetPropertyValue w plane "COLOR_ENCODING" _) as [[] v1];
      destruct (GetPropertyValue w plane "COLOR_RANGE" _) as [[] v2];
      destruct (GetPropertyValue w connector "Colorspace" _) as [[] v3];
      destruct (SupportsColorimetry w edid _);
      cbn [fst snd andb List.filter is_AddProperty app];
      rewrite ?app_nil_r; reflexivity.
  - rewrite Hconf. members. apply last_snoc.
Qed.

(** X9.  [Disable] takes the plane off the screen without giving up any
    buffer: the current and the previous buffer, their reference counts
    and their framebuffers are as before.  It stages FB_ID = 0 and
    CRTC_ID = 0 when there is a video plane, the default Colorspace when
    the connector has it, and HDR_OUTPUT_METADATA = 0 when the connector
    has that property. *)
Theorem disable_keeps_buffers (w : World) (s : State) :
  let connector := GetConnector w in
  let s' := Disable w s in
  keeps_buffers s s' /\
  List.filter is_AddProperty (new_calls s s') =
    (match GetVideoPlane w with
     | Some p => [AddProperty (Some p) "FB_ID" 0; AddProperty (Some p) "CRTC_ID" 0]
     | None => []
     end) ++
    optional_property connector "Colorspace"
      (GetPropertyValue w connector "Colorspace" "Default") ++
    (if SupportsProperty w connector HDR_OUTPUT_METADATA
     then [AddProperty connector HDR_OUTPUT_METADATA 0] else []) /\
  count is_release s' = count is_release s.
Proof.
  intros connector s'. subst s' connector.
  unfold Disable, keeps_buffers, optional_property, destroy_blob, new_calls, count.
  destruct (GetVideoPlane w) as [p|];
    destruct (GetPropertyValue w (GetConnector w) "Colorspace" "Default") as [[] v];
    destruct (SupportsProperty w (GetConnector w) HDR_OUTPUT_METADATA);
    cbn [fst snd]; members;
    try (destruct (m_hdr_blob_id s =? 0); members);
    rewrite <- ?app_assoc, ?drop_app_length, ?drop_all, ?List.filter_app, ?length_app;
    (split; [auto|]); split; try reflexivity; cbn; lia.
Qed.

(** *** The metadata of the blob *)

Lemma Configure_metadata (w : World) (b : ptr) (s : State) :
  let picture := m_picture (heap s b) in
  m_hdr_metadata (Configure w b s) =
    if SupportsProperty w (GetConnector w) HDR_OUTPUT_METADATA then
      if SupportsEOTF w (read_edid w) (GetEOTF w picture)
      then fill_metadata w picture
             (set_eotf (GetEOTF w picture)
                (set_types (HDMI_STATIC_METADATA_TYPE1 w) (m_hdr_metadata s)))
      else set_types (HDMI_STATIC_METADATA_TYPE1 w) (m_hdr_metadata s)
    else m_hdr_metadata s.
Proof.
  intros picture. unfold Configure. fold picture. members.
  destruct (configure_plane_calls w picture s) as (_ & A & _).
  set (s1 := configure_plane w picture s) in *.
  destruct (configure_colorspace_calls w picture (read_edid w) s1) as (_ & B & _).
  set (s2 := configure_colorspace w picture (read_edid w) s1) in *.
  destruct (configure_hdr_calls w picture (read_edid w) s2) as (_ & C & _).
  cbv zeta in *. rewrite C, B, A. reflexivity.
Qed.

(** X10.  The metadata [Configure] builds the blob from is a member that is
    overwritten field by field.  When the connector has the property and
    the EDID supports the EOTF, the EOTF and the metadata type are those of
    the picture.  The three primaries and the white point are those of the
    picture, in units of 0.00002, when the picture has primaries, and the
    luminance bounds are those of the picture when it has them; the light
    levels are those of the picture reduced to 16 bits.  What the picture
    does not carry stays as an earlier picture left it. *)
Theorem configure_metadata_fields (w : World) (b : ptr) (s : State) :
  let picture := m_picture (heap s b) in
  let old := m_hdr_metadata s in
  let new := m_hdr_metadata (Configure w b s) in
  SupportsProperty w (GetConnector w) HDR_OUTPUT_METADATA = true ->
  SupportsEOTF w (read_edid w) (GetEOTF w picture) = true ->
  (type1_eotf new = GetEOTF w picture /\
   metadata_type new = HDMI_STATIC_METADATA_TYPE1 w /\
   type1_metadata_type new = HDMI_STATIC_METADATA_TYPE1 w) /\
  (forall md, GetMasteringDisplayMetadata w picture = Some md ->
              has_primaries md = true ->
   type1_display_primaries new =
     map (fun p => (round_scaled w (fst p) 50000, round_scaled w (snd p) 50000))
         (firstn 3 (display_primaries md)) /\
   type1_white_point new =
     (round_scaled w (fst (white_point md)) 50000,
      round_scaled w (snd (white_point md)) 50000)) /\
  ((forall md, GetMasteringDisplayMetadata w picture = Some md ->
               has_primaries md = false) ->
   type1_display_primaries new = type1_display_primaries old /\
   type1_white_point new = type1_white_point old) /\
  (forall md, GetMasteringDisplayMetadata w picture = Some md ->
              has_luminance md = true ->
   max_display_mastering_luminance new = round_scaled w (max_luminance md) 1 /\
   min_display_mastering_luminance new = round_scaled w (min_luminance md) 10000) /\
  ((forall md, GetMasteringDisplayMetadata w picture = Some md ->
               has_luminance md = false) ->
   max_display_mastering_luminance new = max_display_mastering_luminance old /\
   min_display_mastering_luminance new = min_display_mastering_luminance old) /\
  (forall c, GetContentLightMetadata w picture = Some c ->
   max_cll new = MaxCLL c mod 65536 /\ max_fall new = MaxFALL c mod 65536 /\
   (0 <= MaxCLL c < 65536 -> max_cll new = MaxCLL c) /\
   (0 <= MaxFALL c < 65536 -> max_fall new = MaxFALL c)) /\
  (GetContentLightMetadata w picture = None ->
   max_cll new = max_cll old /\ max_fall new = max_fall old).
Proof.
  intros picture old new Hsup Heotf. subst new.
  pose proof (Configure_metadata w b s) as E. cbv zeta in E. fold picture in E.
  rewrite E, Hsup, Heotf. clear E. fold old. unfold fill_metadata, to_uint16.
  change (2 ^ 16) with 65536.
  destruct (GetMasteringDisplayMetadata w picture) as [md|];
    destruct (GetContentLightMetadata w picture) as [c|];
    try destruct (has_primaries md) eqn:Ep; try destruct (has_luminance md) eqn:El;
    cbn [set_light set_luminance set_primaries set_eotf set_types
         metadata_type type1_eotf type1_metadata_type type1_display_primaries
         type1_white_point max_display_mastering_luminance
         min_display_mastering_luminance max_cll max_fall];
    repeat match goal with
           | |- _ /\ _ => split
           | |- forall _, _ => intro
           | H : forall m, Some ?md = Some m -> _ |- _ => specialize (H md eq_refl)
           | H : Some _ = Some _ |- _ => injection H as <-
           end;
    try reflexivity; try congruence;
    try (apply Z.mod_small; assumption).
Qed.

Lemma configure_metadata_fields_witness :
  let w := Samples.hdr_display in
  let s := Samples.new_bridge in
  let new := m_hdr_metadata (Configure w 1%nat s) in
  type1_eotf new = 2 /\
  type1_display_primaries new = [(34000, 16000); (13250, 34500); (7500, 3000)] /\
  type1_white_point new = (15635, 16450) /\
  (max_display_mastering_luminance new = 1000 /\
   min_display_mastering_luminance new = 50) /\
  max_cll new = 4464 /\ max_fall new = 0.
Proof.
  intros w s new.
  pose proof (configure_metadata_fields w 1%nat s eq_refl eq_refl)
    as (H1 & H2 & _ & H4 & _ & H6 & _).
  destruct (H2 Samples.mastering eq_refl eq_refl) as [P W].
  destruct (H6 Samples.bright_light eq_refl) as (C & F & _).
  exact (conj (proj1 H1) (conj P (conj W
    (conj (H4 Samples.mastering eq_refl eq_refl) (conj C F))))).
Defined.

End BridgeMore.

(** ** More of the renderer *)

Module RendererMore.
Import Buffer Renderer BufferFacts RendererFacts.

Lemma alter_missing {A} (f : A -> A) (i : nat) (l : list A) :
  l !! i = None -> alter f i l = l.
Proof.
  intros H. rewrite <- (list_alter_id id l i) at 2 by reflexivity.
  apply list_alter_ext; [|reflexivity]. intros x Hx. congruence.
Qed.

Lemma released_idempotent (buf : BUFFER) : released (released buf) = released buf.
Proof. destruct buf as [v [f|] t]; reflexivity. Qed.

(** What [ReleaseBuffer] does to the slots, to the buffers and to the trace. *)
Lemma ReleaseBuffer_shape (index : nat) (s : State) :
  let s' := ReleaseBuffer index s in
  m_buffers s' = alter released index (m_buffers s) /\
  heap s' = match occupant s index with
            | Some (Some b) => update b (with_refCount (fun n => n - 1)) (heap s)
            | _ => heap s
            end /\
  calls s' = calls s ++
    match m_buffers s !! index with
    | Some buf =>
        match fence buf with Some _ => [FenceDestroy index] | None => [] end ++
        [TextureUnmap index] ++
        match videoBuffer buf with Some b => [BufferRelease b] | None => [] end
    | None => [TextureUnmap index]
    end.
Proof.
  intros s'. subst s'.
  unfold ReleaseBuffer, TextureUnmap_, DestroyFence, BufferRelease_, occupant.
  destruct (m_buffers s !! index) as [buf|] eqn:E; cbn [fmap option_fmap option_map].
  - destruct (fence buf) as [f|] eqn:Ef; members;
      rewrite ?list_lookup_alter_eq, E; cbn [fmap option_fmap option_map]; members;
      destruct (videoBuffer buf) as [b|] eqn:Ev; members;
      (split; [|split; [reflexivity | rewrite <- ?app_assoc; reflexivity]]);
      rewrite ?list_alter_alter_eq; (apply list_alter_ext; [|reflexivity]);
      intros x Hx; assert (x = buf) by congruence; subst x;
      unfold compose, released; destruct buf; cbn in *; subst; reflexivity.
  - members. rewrite list_lookup_alter_eq, E. cbn [fmap option_fmap option_map].
    members. split; [|split; reflexivity].
    rewrite !alter_missing by assumption. reflexivity.
Qed.


(** *** Counting the slots that hold a buffer *)

Lemma holders_alter (P : BUFFER -> bool) f (i : nat) (l : list BUFFER) :
  Z.of_nat (length (List.filter P (alter f i l))) =
  Z.of_nat (length (List.filter P l))
  - match l !! i with Some buf => Z.b2z (P buf) | None => 0 end
  + match l !! i with Some buf => Z.b2z (P (f buf)) | None => 0 end.
Proof.
  revert i. induction l as [|a l IH]; intros [|i]; simpl; try lia.
  - destruct (P a), (P (f a)); cbn [length Z.b2z]; lia.
  - specialize (IH i). change (list_alter f i l) with (alter f i l).
    destruct (P a); cbn [length]; lia.
Qed.

Lemma slot_refs_alter (s s' : State) (x : ptr) g (i : nat) :
  m_buffers s' = alter g i (m_buffers s) ->
  (forall b, videoBuffer (g b) = videoBuffer b) ->
  slot_refs s' x = slot_refs s x.
Proof.
  intros E Hg. unfold slot_refs. rewrite E, holders_alter.
  destruct (m_buffers s !! i); [rewrite Hg|]; lia.
Qed.

Lemma b2z_holds (b x : ptr) :
  Z.b2z (bool_decide (Some b = Some x)) = if decide (b = x) then 1 else 0.
Proof.
  destruct (decide (b = x)) as [->|Hne].
  - now rewrite bool_decide_eq_true_2.
  - rewrite bool_decide_eq_false_2; [reflexivity | congruence].
Qed.

(** *** The references that are not the renderer's *)

Lemma external_ReleaseBuffer (index : nat) (s : State) (x : ptr) :
  external (ReleaseBuffer index s) x = external s x.
Proof.
  destruct (ReleaseBuffer_shape index s) as (Hb & Hh & _).
  unfold external, refs, slot_refs, occupant in *. rewrite Hb, Hh, holders_alter.
  destruct (m_buffers s !! index) as [buf|]; cbn [fmap option_fmap option_map]; [|lia].
  destruct (videoBuffer buf) as [b|]; cbn [released videoBuffer].
  - rewrite update_at, b2z_holds, bool_decide_eq_false_2 by discriminate.
    destruct (decide (b = x)); cbn [m_refCount with_refCount Z.b2z]; lia.
  - lia.
Qed.

Lemma external_Flush (l : list nat) (s : State) (x : ptr) :
  external (foldl (fun s i => ReleaseBuffer i s) s l) x = external s x.
Proof.
  revert s. induction l as [|i l IH]; intros s; cbn [foldl]; [reflexivity|].
  rewrite IH. apply external_ReleaseBuffer.
Qed.

Lemma init_slot_shape (d : Z) (s : State) (index : nat) :
  m_buffers (init_slot d s index) = alter (initialised d) index (m_buffers s) /\
  heap (init_slot d s index) = heap s /\
  calls (init_slot d s index) = calls s ++
    match fence <$> m_buffers s !! index with
    | Some None => [TextureInit index d]
    | _ => []
    end.
Proof.
  unfold init_slot.
  destruct (m_buffers s !! index) as [buf|] eqn:E; cbn [fmap option_fmap option_map].
  - destruct (fence buf) as [f|] eqn:Ef; members.
    + rewrite app_nil_r. split; [|split; reflexivity].
      symmetry. rewrite <- (list_alter_id id (m_buffers s) index) at 2 by reflexivity.
      apply list_alter_ext; [|reflexivity]. intros y Hy.
      assert (y = buf) by congruence. subst y. unfold initialised. now rewrite Ef.
    + split; [|split; reflexivity].
      apply list_alter_ext; [|reflexivity]. intros y Hy.
      assert (y = buf) by congruence. subst y. unfold initialised. now rewrite Ef.
  - rewrite app_nil_r. split; [|split; reflexivity].
    now rewrite alter_missing.
Qed.

Lemma initialised_videoBuffer (d : Z) (buf : BUFFER) :
  videoBuffer (initialised d buf) = videoBuffer buf.
Proof. unfold initialised. destruct (fence buf); reflexivity. Qed.

Lemma initialised_twice (d : Z) (buf : BUFFER) :
  initialised d (initialised d buf) = initialised d buf.
Proof. unfold initialised. destruct (fence buf) eqn:E; [now rewrite E | reflexivity]. Qed.

Lemma external_init (d : Z) (l : list nat) (s : State) (x : ptr) :
  external (foldl (init_slot d) s l) x = external s x.
Proof.
  revert s. induction l as [|i l IH]; intros s; cbn [foldl]; [reflexivity|].
  rewrite IH. destruct (init_slot_shape d s i) as (Hb & Hh & _).
  unfold external, refs. rewrite Hh.
  now rewrite (slot_refs_alter s _ x _ i Hb (initialised_videoBuffer d)).
Qed.

(** The same slots and the same buffers give the same balance. *)
Lemma external_same (s s' : State) (x : ptr) :
  m_buffers s' = m_buffers s -> heap s' = heap s -> external s' x = external s x.
Proof. intros Hb Hh. unfold external, refs, slot_refs. now rewrite Hb, Hh. Qed.

Lemma Configure_unfold (w : World) (picture : VideoPicture) (fps : Q)
    (orientation : Z) (s : State) :
  Configure w picture fps orientation s =
  let s0 := emit ManageRenderArea (emit SetViewMode
      (emit (CalculateFrameAspectRatio (iDisplayWidth picture) (iDisplayHeight picture))
        (set_source
             (Buffer.m_format (heap s (Buffer.videoBuffer picture)))
             (iWidth picture) (iHeight picture) orientation
             (Z.lor (Z.lor (Z.lor (GetFlagsChromaPosition w (chroma_position picture))
                                  (GetFlagsColorMatrix w (color_space picture)
                                     (iWidth picture) (iHeight picture)))
                           (GetFlagsColorPrimaries w (color_primaries picture)))
                    (GetFlagsStereoMode w (stereoMode picture))) s))) in
  let s1 := foldl (fun s i => ReleaseBuffer i s) s0 (seq 0 NUM_BUFFERS) in
  if GetWinSystem w && WinSystemIsEGL w
  then (true, set_configured (if UseLimitedColor w then 16 # 255 else 0%Q)
                (foldl (init_slot (GetEGLDisplay w)) s1 (seq 0 (length (m_buffers s1)))))
  else (false, s1).
Proof.
  unfold Configure, Flush.
  destruct (GetWinSystem w), (WinSystemIsEGL w); reflexivity.
Qed.

Lemma external_set_configured (c : Q) (s : State) (x : ptr) :
  external (set_configured c s) x = external s x.
Proof. reflexivity. Qed.

Lemma external_Configure (w : World) (picture : VideoPicture) (fps : Q)
    (orientation : Z) (s : State) (x : ptr) :
  external (snd (Configure w picture fps orientation s)) x = external s x.
Proof.
  rewrite Configure_unfold. cbv zeta.
  match goal with |- context [foldl ?f ?s0 (seq 0 NUM_BUFFERS)] =>
    pose proof (external_Flush (seq 0 NUM_BUFFERS) s0 x) as HF;
    set (s1 := foldl f s0 (seq 0 NUM_BUFFERS)) in *
  end.
  clearbody s1.
  assert (E : external s1 x = external s x) by (rewrite HF; reflexivity).
  destruct (GetWinSystem w && WinSystemIsEGL w); cbn [snd]; [|exact E].
  rewrite external_set_configured, external_init. exact E.
Qed.


(** *** AddVideoPicture *)

Lemma AddVideoPicture_shape (picture : VideoPicture) (index : nat) (s : State) :
  let new := Buffer.videoBuffer picture in
  let s' := AddVideoPicture picture index s in
  (exists g, m_buffers s' = alter g index (m_buffers s) /\
     forall buf, m_buffers s !! index = Some buf ->
       videoBuffer (g buf) = Some new /\
       (m_srcPrimaries (g buf) = color_primaries picture /\
        m_srcColSpace (g buf) =
          (if color_space picture =? AVCOL_SPC_UNSPECIFIED then
             if (1024 <? iWidth picture) || (600 <=? iHeight picture)
             then AVCOL_SPC_BT709 else AVCOL_SPC_BT470BG
           else color_space picture) /\
        m_srcBits (g buf) = colorBits picture /\
        m_srcFullRange (g buf) = (color_range picture =? 1)) /\
       (videoBuffer buf = None ->
        fence (g buf) = fence buf /\ texture (g buf) = texture buf)) /\
  heap s' = update new (with_refCount (fun n => n + 1))
              match occupant s index with
              | Some (Some old) => update old (with_refCount (fun n => n - 1)) (heap s)
              | _ => heap s
              end /\
  (occupant s index = Some None -> calls s' = calls s ++ [BufferAcquire new]).
Proof.
  intros new s'. subst s' new.
  unfold AddVideoPicture, BufferAcquire_, BufferRelease_, TextureUnmap_,
    DestroyFence, occupant.
  destruct (m_buffers s !! index) as [buf|] eqn:E; cbn [fmap option_fmap option_map].
  - destruct (videoBuffer buf) as [old|] eqn:Ev.
    + members. rewrite E. cbn [fmap option_fmap option_map].
      destruct (fence buf) as [f|] eqn:Ef; members;
        (split; [|split; [reflexivity | discriminate]]);
        rewrite ?list_alter_alter_eq; eexists; (split; [reflexivity|]);
        intros b Hb; assert (b = buf) by congruence; subst b;
        unfold compose; members; rewrite ?Ev;
        (split; [reflexivity|split; [auto|discriminate]]).
    + members. split; [|split; [reflexivity | reflexivity]].
      rewrite ?list_alter_alter_eq. eexists. split; [reflexivity|].
      intros b Hb. assert (b = buf) by congruence. subst b.
      unfold compose. members. auto 10.
  - members. split; [|split; [reflexivity | discriminate]].
    rewrite ?list_alter_alter_eq. eexists. split; [reflexivity|].
    intros b Hb. discriminate.
Qed.

Lemma external_AddVideoPicture (picture : VideoPicture) (index : nat)
    (s : State) (x : ptr) :
  (index < length (m_buffers s))%nat ->
  external (AddVideoPicture picture index s) x = external s x.
Proof.
  intros Hi. destruct (lookup_lt_is_Some_2 _ _ Hi) as [buf E].
  destruct (AddVideoPicture_shape picture index s) as ((g & Hb & Hg) & Hh & _).
  destruct (Hg buf E) as (Hv & _).
  unfold external, refs, slot_refs, occupant in *.
  rewrite Hb, Hh, holders_alter, E, Hv. cbn [fmap option_fmap option_map].
  rewrite !update_at, b2z_holds.
  destruct (videoBuffer buf) as [old|].
  - rewrite update_at, b2z_holds.
    destruct (decide (Buffer.videoBuffer picture = x)), (decide (old = x));
      cbn [m_refCount with_refCount]; lia.
  - rewrite bool_decide_eq_false_2 by discriminate.
    destruct (decide (Buffer.videoBuffer picture = x));
      cbn [m_refCount with_refCount Z.b2z]; lia.
Qed.

(** *** Folds over the slots *)

Lemma fold_slots (step : State -> nat -> State) (g : BUFFER -> BUFFER) :
  (forall s i, m_buffers (step s i) = alter g i (m_buffers s)) ->
  (forall b, g (g b) = g b) ->
  forall (l : list nat) (s : State) (j : nat),
    m_buffers (foldl step s l) !! j =
    if decide (j ∈ l) then g <$> m_buffers s !! j else m_buffers s !! j.
Proof.
  intros Hstep Hg. induction l as [|i l IH]; intros s j; cbn [foldl].
  - case_decide as H; [|reflexivity]. now apply elem_of_nil in H.
  - rewrite IH, Hstep, list_lookup_alter.
    assert (Hgg : g <$> (g <$> m_buffers s !! j) = g <$> m_buffers s !! j).
    { destruct (m_buffers s !! j); cbn; [now rewrite Hg | reflexivity]. }
    destruct (decide (i = j)) as [->|Hne].
    + rewrite (decide_True (P := j ∈ j :: l)) by (apply elem_of_cons; now left).
      case_decide; [exact Hgg | reflexivity].
    + destruct (decide (j ∈ l)) as [Hin|Hout].
      * rewrite decide_True by (apply elem_of_cons; now right). reflexivity.
      * rewrite decide_False; [reflexivity|].
        intros H. apply elem_of_cons in H as [->|H]; [now apply Hne | now apply Hout].
Qed.

Lemma Flush_slots (s : State) (j : nat) :
  m_buffers (foldl (fun s i => ReleaseBuffer i s) s (seq 0 NUM_BUFFERS)) !! j =
  if decide (j < NUM_BUFFERS)%nat then released <$> m_buffers s !! j
  else m_buffers s !! j.
Proof.
  rewrite (fold_slots (fun s i => ReleaseBuffer i s) released
             (fun s i => proj1 (ReleaseBuffer_shape i s)) released_idempotent).
  destruct (decide (j < NUM_BUFFERS)%nat) as [H|H].
  - rewrite decide_True; [reflexivity|]. apply elem_of_seq. lia.
  - rewrite decide_False; [reflexivity|]. rewrite elem_of_seq. lia.
Qed.

Lemma init_slots (d : Z) (s : State) (j : nat) :
  m_buffers (foldl (init_slot d) s (seq 0 (length (m_buffers s)))) !! j =
  initialised d <$> m_buffers s !! j.
Proof.
  rewrite (fold_slots (init_slot d) (initialised d)
             (fun s i => proj1 (init_slot_shape d s i)) (initialised_twice d)).
  case_decide as H; [reflexivity|].
  rewrite elem_of_seq in H.
  rewrite (lookup_ge_None_2 (m_buffers s) j) by lia. reflexivity.
Qed.

Lemma init_heap (d : Z) (l : list nat) (s : State) :
  heap (foldl (init_slot d) s l) = heap s.
Proof.
  revert s. induction l as [|i l IH]; intros s; cbn [foldl]; [reflexivity|].
  rewrite IH. apply init_slot_shape.
Qed.

Lemma init_slot_format (d : Z) (s : State) (i : nat) :
  Renderer.m_format (init_slot d s i) = Renderer.m_format s.
Proof. unfold init_slot. destruct (fence <$> _) as [[?|]|]; reflexivity. Qed.

Lemma init_format (d : Z) (l : list nat) (s : State) :
  Renderer.m_format (foldl (init_slot d) s l) = Renderer.m_format s.
Proof.
  revert s. induction l as [|i l IH]; intros s; cbn [foldl]; [reflexivity|].
  rewrite IH. apply init_slot_format.
Qed.

Lemma Flush_format (l : list nat) (s : State) (x : ptr) :
  Buffer.m_format (heap (foldl (fun s i => ReleaseBuffer i s) s l) x) =
  Buffer.m_format (heap s x).
Proof.
  revert s. induction l as [|i l IH]; intros s; cbn [foldl]; [reflexivity|].
  rewrite IH. destruct (ReleaseBuffer_shape i s) as (_ & Hh & _). rewrite Hh.
  destruct (occupant s i) as [[b|]|]; try reflexivity.
  now apply (update_frame Buffer.m_format).
Qed.

Lemma Flush_length (l : list nat) (s : State) :
  length (m_buffers (foldl (fun s i => ReleaseBuffer i s) s l)) = length (m_buffers s).
Proof.
  revert s. induction l as [|i l IH]; intros s; cbn [foldl]; [reflexivity|].
  rewrite IH. destruct (ReleaseBuffer_shape i s) as (Hb & _). rewrite Hb.
  apply length_alter.
Qed.


(** *** RenderUpdate *)

Lemma same_source_refl (s : State) : same_source s s.
Proof. repeat split. Qed.

Lemma RenderUpdate_cases (w : World) (index index2 : nat) (clear : bool)
    (flags alpha : Z) (s : State) :
  let s' := RenderUpdate w index index2 clear flags alpha s in
  heap s' = heap s /\ same_source s s' /\
  (m_configured s = false -> s' = s) /\
  exists g cs,
    m_buffers s' = alter g index (m_buffers s) /\
    calls s' = calls s ++ cs /\
    (forall b, videoBuffer (g b) = videoBuffer b) /\
    (draws w index s = false -> fence <$> m_buffers s !! index <> Some None ->
     (forall b, fence (g b) = fence b) /\
     ~ In (DrawQuad index) cs /\ ~ In (FenceCreate index) cs).
Proof.
  intros s'. subst s'. unfold RenderUpdate, draws.
  destruct (m_configured s) eqn:Ec; cbn [negb andb].
  2: { split; [reflexivity|]. split; [apply same_source_refl|]. split; [reflexivity|].
       exists id, []. rewrite app_nil_r, list_alter_id by reflexivity.
       repeat split; auto. }
  set (s1 := emit (GlBlend (alpha <? 255)) _).
  assert (E1 : m_buffers s1 = m_buffers s).
  { subst s1. destruct clear; [destruct (alpha =? 255)|]; reflexivity. }
  assert (H1 : heap s1 = heap s).
  { subst s1. destruct clear; [destruct (alpha =? 255)|]; reflexivity. }
  assert (S1 : same_source s s1).
  { subst s1. destruct clear; [destruct (alpha =? 255)|]; repeat split. }
  assert (C1 : exists cs, calls s1 = calls s ++ cs /\
                 ~ In (DrawQuad index) cs /\ ~ In (FenceCreate index) cs).
  { subst s1. destruct clear; [destruct (alpha =? 255)|]; members;
      rewrite <- ?app_assoc; eexists; (split; [reflexivity|]);
      cbn; intuition discriminate. }
  clearbody s1. destruct C1 as (cs & C1 & Hq & Hf).
  destruct S1 as (A1 & A2 & A3 & A4 & A5).
  assert (Hid : forall t, m_buffers t = m_buffers s1 -> heap t = heap s1 ->
            same_source s1 t -> calls t = calls s1 ->
            heap t = heap s /\ same_source s t /\ (true = false -> t = s) /\
            exists g cs,
              m_buffers t = alter g index (m_buffers s) /\
              calls t = calls s ++ cs /\
              (forall b, videoBuffer (g b) = videoBuffer b) /\
              (forall b, fence (g b) = fence b) /\
              ~ In (DrawQuad index) cs /\ ~ In (FenceCreate index) cs).
  { intros t Tb Th (B1 & B2 & B3 & B4 & B5) Tc.
    split; [congruence|]. split; [unfold same_source; repeat split; congruence|].
    split; [discriminate|]. exists id, cs.
    rewrite list_alter_id by reflexivity. repeat split; auto; congruence. }
  rewrite E1.
  destruct (m_buffers s !! index) as [buf|] eqn:Eslot;
    cbn [fmap option_fmap option_map].
  2: { destruct (Hid s1) as (P1 & P2 & P3 & g & cs' & Q1 & Q2 & Q3 & Q4 & Q5);
         try reflexivity; [apply same_source_refl|].
       split; [exact P1|]. split; [exact P2|]. split; [exact P3|].
       exists g, cs'. auto 10. }
  destruct (videoBuffer buf) as [b|] eqn:Evb.
  2: { destruct (Hid s1) as (P1 & P2 & P3 & g & cs' & Q1 & Q2 & Q3 & Q4 & Q5);
         try reflexivity; [apply same_source_refl|].
       split; [exact P1|]. split; [exact P2|]. split; [exact P3|].
       exists g, cs'. auto 10. }
  destruct (IsDRMPRIME w b && IsValid w b) eqn:Ev; cbn [negb andb].
  2: { destruct (Hid s1) as (P1 & P2 & P3 & g & cs' & Q1 & Q2 & Q3 & Q4 & Q5);
         try reflexivity; [apply same_source_refl|].
       split; [exact P1|]. split; [exact P2|]. split; [exact P3|].
       exists g, cs'. auto 10. }
  unfold TextureMap_. members. rewrite E1, Eslot. cbn [fmap option_fmap option_map].
  assert (Hmap : forall (ok : bool) (t : State) g0,
            m_buffers t = alter g0 index (m_buffers s) ->
            (forall v, videoBuffer (g0 v) = videoBuffer v) ->
            (forall v, fence (g0 v) = fence v) ->
            heap t = heap s -> same_source s t ->
            calls t = calls s ++ cs ++ [TextureMap index b] ->
            (ok = match mapped (texture buf) with Some _ => true | None => false end
                  || TextureMap_result w b) ->
            let r := if negb ok then t else
                     if negb (GetRenderSystem w) then t else
                     emit (GlBlend true) (emit VerifyGLState
                       (CreateFence index (emit (DrawQuad index) t))) in
            heap r = heap s /\ same_source s r /\ (true = false -> r = s) /\
            exists g cs',
              m_buffers r = alter g index (m_buffers s) /\
              calls r = calls s ++ cs' /\
              (forall v, videoBuffer (g v) = videoBuffer v) /\
              (match fence buf with
               | Some _ => GetRenderSystem w && ok
               | None => false
               end = false ->
               fence <$> Some buf <> Some None ->
               (forall v, fence (g v) = fence v) /\
               ~ In (DrawQuad index) cs' /\ ~ In (FenceCreate index) cs')).
  { intros ok t g0 Tb Tv Tf Th Ts Tc Hok r. subst r.
    assert (Hquiet : heap t = heap s /\ same_source s t /\ (true = false -> t = s) /\
              exists g cs',
                m_buffers t = alter g index (m_buffers s) /\
                calls t = calls s ++ cs' /\
                (forall v, videoBuffer (g v) = videoBuffer v) /\
                (match fence buf with
                 | Some _ => GetRenderSystem w && ok
                 | None => false
                 end = false ->
                 fence <$> Some buf <> Some None ->
                 (forall v, fence (g v) = fence v) /\
                 ~ In (DrawQuad index) (cs') /\ ~ In (FenceCreate index) (cs'))).
    { split; [exact Th|]. split; [exact Ts|]. split; [discriminate|].
      exists g0, (cs ++ [TextureMap index b]).
      split; [exact Tb|]. split; [exact Tc|]. split; [exact Tv|].
      intros _ _. split; [exact Tf|].
      split; intros Hin; apply in_app_or in Hin as [Hin|[Hin|[]]];
        try discriminate; auto. }
    destruct ok; cbn [negb]; [|exact Hquiet].
    destruct (GetRenderSystem w); cbn [negb andb]; [|exact Hquiet].
    unfold CreateFence. members. rewrite Tb, list_lookup_alter_eq, Eslot.
    cbn [fmap option_fmap option_map]. rewrite Tf.
    destruct (fence buf) as [f|] eqn:Ef; members.
    - split; [exact Th|]. split; [exact Ts|]. split; [discriminate|].
      rewrite Tb, list_alter_alter_eq. eexists. eexists.
      split; [reflexivity|]. rewrite Tc, <- !app_assoc.
      split; [reflexivity|]. split; [intros v; unfold compose; members; apply Tv|].
      discriminate.
    - split; [exact Th|]. split; [exact Ts|]. split; [discriminate|].
      exists g0. eexists. split; [exact Tb|]. rewrite Tc, <- !app_assoc.
      split; [reflexivity|]. split; [exact Tv|].
      intros _ Hnone. exfalso. apply Hnone.
      cbn [fmap option_fmap option_map]. congruence. }
  assert (Ss1 : same_source s (emit (TextureMap index b) s1)).
  { unfold same_source. members. repeat split; congruence. }
  destruct (mapped (texture buf)) as [m|] eqn:Em.
  - specialize (Hmap true (emit (TextureMap index b) s1) id).
    cbn [negb orb] in Hmap.
    destruct Hmap as (P1 & P2 & P3 & g & cs' & Q1 & Q2 & Q3 & Q4);
      try reflexivity; try assumption.
    { members. rewrite list_alter_id by reflexivity. exact E1. }
    { members. rewrite C1, <- app_assoc. reflexivity. }
    split; [exact P1|]. split; [exact P2|]. split; [exact P3|].
    exists g, cs'. split; [exact Q1|]. split; [exact Q2|]. split; [exact Q3|].
    intros Hd. apply Q4. destruct (fence buf); [|reflexivity].
    now rewrite andb_true_r in *.
  - cbn [orb]. destruct (TextureMap_result w b) eqn:Er.
    + specialize (Hmap true
        (on_slot index (fun buf => with_texture
            {| display := display (texture buf); mapped := Some b |} buf)
           (emit (TextureMap index b) s1))
        (fun buf => with_texture
            {| display := display (texture buf); mapped := Some b |} buf)).
      cbn [negb orb] in Hmap.
      destruct Hmap as (P1 & P2 & P3 & g & cs' & Q1 & Q2 & Q3 & Q4);
        try reflexivity; try assumption.
      { members. now rewrite E1. }
      { members. rewrite C1, <- app_assoc. reflexivity. }
      split; [exact P1|]. split; [exact P2|]. split; [exact P3|].
      exists g, cs'. split; [exact Q1|]. split; [exact Q2|]. split; [exact Q3|].
      intros Hd. apply Q4. destruct (fence buf); [|reflexivity].
      now rewrite andb_true_r in *.
    + specialize (Hmap false (emit (TextureMap index b) s1) id).
      cbn [negb orb] in Hmap.
      destruct Hmap as (P1 & P2 & P3 & g & cs' & Q1 & Q2 & Q3 & Q4);
        try reflexivity; try assumption.
      { members. rewrite list_alter_id by reflexivity. exact E1. }
      { members. rewrite C1, <- app_assoc. reflexivity. }
      split; [exact P1|]. split; [exact P2|]. split; [exact P3|].
      exists g, cs'. split; [exact Q1|]. split; [exact Q2|]. split; [exact Q3|].
      intros Hd. apply Q4. destruct (fence buf); [|reflexivity].
      now rewrite andb_false_r.
Qed.


Lemma no_holders (P : BUFFER -> bool) (l : list BUFFER) :
  (forall j buf, l !! j = Some buf -> P buf = false) ->
  length (List.filter P l) = 0%nat.
Proof.
  induction l as [|a l IH]; intros H; [reflexivity|]. cbn [List.filter].
  rewrite (H 0%nat a eq_refl). apply IH. intros j buf Hj. exact (H (S j) buf Hj).
Qed.

Lemma Update_same (s : State) : m_buffers (Update s) = m_buffers s /\ heap (Update s) = heap s.
Proof. unfold Update. destruct (m_configured s); split; reflexivity. Qed.

Lemma destructor_unfold (s : State) :
  destructor s = foldl (fun s i => ReleaseBuffer i s) s (seq 0 NUM_BUFFERS).
Proof. reflexivity. Qed.

(** *** The references of the renderer *)

(** X11.  Every reference the renderer takes on a buffer is matched by a
    slot that holds the buffer: the count of a buffer less the number of
    slots holding it is the same before and after [ReleaseBuffer], [Flush],
    [Configure], [RenderUpdate], [Update] and the destructor, for every
    index and whatever the arguments. *)
Theorem references_balanced (w : World) (s : State) (x : ptr) :
  (forall index, external (ReleaseBuffer index s) x = external s x) /\
  (forall saveBuffers, external (snd (Flush saveBuffers s)) x = external s x) /\
  (forall picture fps orientation,
     external (snd (Configure w picture fps orientation s)) x = external s x) /\
  (forall index index2 clear flags alpha,
     external (RenderUpdate w index index2 clear flags alpha s) x = external s x) /\
  external (Update s) x = external s x /\
  external (destructor s) x = external s x.
Proof.
  split; [intros; apply external_ReleaseBuffer|].
  split; [intros [|]; unfold Flush; cbn [negb snd];
          [reflexivity | apply external_Flush]|].
  split; [intros; apply external_Configure|].
  split; [|split].
  - intros index index2 clear flags alpha.
    destruct (RenderUpdate_cases w index index2 clear flags alpha s)
      as (Hh & _ & _ & g & cs & Hb & _ & Hv & _).
    unfold external, refs. rewrite Hh.
    now rewrite (slot_refs_alter s _ x g index Hb Hv).
  - destruct (Update_same s) as [Hb Hh]. now apply external_same.
  - rewrite destructor_unfold. apply external_Flush.
Qed.

(** X12.  [AddVideoPicture] into a free slot does nothing but store the
    buffer and acquire it: the one call it makes is the buffer's [Acquire],
    the count of the buffer goes up by one and no other count changes, the
    fence and the texture of the slot and all other slots stay as they
    were, and the colour space stored with the slot is never
    [AVCOL_SPC_UNSPECIFIED]: an unspecified one becomes BT.709 for pictures
    wider than 1024 or at least 600 high and BT.470BG for smaller ones. *)
Theorem add_picture_free (picture : VideoPicture) (index : nat)
    (s : State) (buf : BUFFER) :
  slot s index = Some buf -> videoBuffer buf = None ->
  let new := Buffer.videoBuffer picture in
  let s' := AddVideoPicture picture index s in
  new_calls s s' = [BufferAcquire new] /\
  (forall x, refs s' x = refs s x + (if decide (new = x) then 1 else 0)) /\
  (exists buf', slot s' index = Some buf' /\
     videoBuffer buf' = Some new /\
     fence buf' = fence buf /\ texture buf' = texture buf /\
     m_srcPrimaries buf' = color_primaries picture /\
     m_srcBits buf' = colorBits picture /\
     m_srcFullRange buf' = (color_range picture =? 1) /\
     m_srcColSpace buf' <> AVCOL_SPC_UNSPECIFIED /\
     (color_space picture <> AVCOL_SPC_UNSPECIFIED ->
      m_srcColSpace buf' = color_space picture) /\
     (color_space picture = AVCOL_SPC_UNSPECIFIED ->
      m_srcColSpace buf' =
        if (1024 <? iWidth picture) || (600 <=? iHeight picture)
        then AVCOL_SPC_BT709 else AVCOL_SPC_BT470BG)) /\
  (forall j, j <> index -> slot s' j = slot s j).
Proof.
  intros Hslot Hfree new s'. unfold slot in *.
  destruct (AddVideoPicture_shape picture index s) as ((g & Hb & Hg) & Hh & Hc).
  fold s' in Hb, Hh, Hc. fold new in Hh, Hc.
  destruct (Hg buf Hslot) as (Hv & (Hp & Hcs & Hbits & Hr) & Hkeep).
  destruct (Hkeep Hfree) as (Hf & Ht).
  assert (Hocc : occupant s index = Some None).
  { unfold occupant. rewrite Hslot. cbn. now rewrite Hfree. }
  split; [apply slot_calls_app; now apply Hc|].
  split; [|split].
  - intros x. unfold refs. rewrite Hh, Hocc, update_at.
    destruct (decide (new = x)); cbn [m_refCount with_refCount]; lia.
  - exists (g buf). rewrite Hb, list_lookup_alter_eq, Hslot.
    split; [reflexivity|]. fold new in Hv.
    split; [exact Hv|]. split; [exact Hf|]. split; [exact Ht|].
    split; [exact Hp|]. split; [exact Hbits|]. split; [exact Hr|].
    rewrite Hcs. unfold AVCOL_SPC_UNSPECIFIED, AVCOL_SPC_BT709, AVCOL_SPC_BT470BG.
    destruct (color_space picture =? 2) eqn:E.
    + apply Z.eqb_eq in E.
      split; [destruct (_ || _); discriminate|]. split; [congruence | reflexivity].
    + apply Z.eqb_neq in E. split; [exact E|]. split; [reflexivity | congruence].
  - intros j Hj. rewrite Hb. apply list_lookup_alter_ne. congruence.
Qed.

Lemma add_picture_free_witness :
  let s := Samples.playing in
  let s' := AddVideoPicture Samples.picture_576p 1 s in
  (exists buf, slot s 1 = Some buf /\ videoBuffer buf = None) /\
  new_calls s s' = [BufferAcquire 2%nat].
Proof.
  intros s s'.
  assert (Hs : exists buf, slot s 1 = Some buf /\ videoBuffer buf = None)
    by (eexists; split; reflexivity).
  refine (conj Hs _).
  destruct Hs as (buf & Hslot & Hfree).
  exact (proj1 (add_picture_free Samples.picture_576p 1%nat s buf Hslot Hfree)).
Defined.

(** X13.  [AddVideoPicture] into a slot of the array keeps the count of
    each buffer less the number of slots holding it, whether the slot was
    free or not, and so does a [ReleaseBuffer] of the slot after it; when
    the slot was free, the two calls together leave every reference count
    as it was and the slot free again. *)
Theorem add_picture_balanced (picture : VideoPicture) (index : nat)
    (s : State) (x : ptr) :
  (index < length (m_buffers s))%nat ->
  let s' := AddVideoPicture picture index s in
  external s' x = external s x /\
  external (ReleaseBuffer index s') x = external s x /\
  (occupant s index = Some None ->
   refs (ReleaseBuffer index s') x = refs s x /\
   occupant (ReleaseBuffer index s') index = Some None).
Proof.
  intros Hi s'.
  pose proof (external_AddVideoPicture picture index s x Hi) as He. fold s' in He.
  split; [exact He|]. split; [now rewrite external_ReleaseBuffer|].
  intros Hfree.
  destruct (lookup_lt_is_Some_2 _ _ Hi) as [buf E].
  destruct (AddVideoPicture_shape picture index s) as ((g & Hb & Hg) & Hh & _).
  fold s' in Hb, Hh. destruct (Hg buf E) as (Hv & _).
  destruct (ReleaseBuffer_shape index s') as (Rb & Rh & _).
  assert (Hocc : occupant s' index = Some (Some (Buffer.videoBuffer picture))).
  { unfold occupant. rewrite Hb, list_lookup_alter_eq, E. cbn. now rewrite Hv. }
  split.
  - unfold refs. rewrite Rh, Hocc, Hh, Hfree, !update_at.
    destruct (decide (Buffer.videoBuffer picture = x));
      cbn [m_refCount with_refCount]; lia.
  - unfold occupant. rewrite Rb, list_lookup_alter_eq, Hb, list_lookup_alter_eq, E.
    reflexivity.
Qed.

Lemma add_picture_balanced_witness :
  let s := Samples.playing in
  (1 < length (m_buffers s))%nat /\
  refs (ReleaseBuffer 1 (AddVideoPicture Samples.picture_576p 1 s)) 2%nat = refs s 2%nat.
Proof.
  intros s.
  assert (Hi : (1 < length (m_buffers s))%nat) by (vm_compute; lia).
  refine (conj Hi _).
  exact (proj1 (proj2 (proj2
    (add_picture_balanced Samples.picture_576p 1%nat s 2%nat Hi)) eq_refl)).
Defined.

Lemma external_unfold (s : State) (x : ptr) :
  external s x = refs s x - slot_refs s x.
Proof. reflexivity. Qed.

Lemma occupant_unfold (s : State) (j : nat) :
  occupant s j = videoBuffer <$> m_buffers s !! j.
Proof. reflexivity. Qed.

Lemma holders_none (s : State) (x : ptr) :
  (forall j, occupant s j <> Some (Some x)) -> slot_refs s x = 0.
Proof.
  intros H. unfold slot_refs. rewrite no_holders; [reflexivity|].
  intros j buf Hj. apply bool_decide_eq_false_2. intros Hx.
  apply (H j). unfold occupant. rewrite Hj. cbn. now rewrite Hx.
Qed.

Lemma destructor_occupant (s : State) (j : nat) :
  length (m_buffers s) = NUM_BUFFERS ->
  occupant (destructor s) j = if decide (j < NUM_BUFFERS)%nat then Some None else None.
Proof.
  intros Hlen. rewrite occupant_unfold, destructor_unfold, Flush_slots.
  case_decide as Hj.
  - destruct (lookup_lt_is_Some_2 (m_buffers s) j) as [buf E]; [lia|].
    rewrite E. reflexivity.
  - rewrite lookup_ge_None_2 by lia. reflexivity.
Qed.

(** X14.  The destructor gives back every reference the renderer holds:
    afterwards no slot holds a buffer, and the count of each buffer has
    gone down by the number of slots that held it. *)
Theorem destructor_releases_all (s : State) (x : ptr) :
  length (m_buffers s) = NUM_BUFFERS ->
  refs (destructor s) x = refs s x - slot_refs s x /\
  slot_refs (destructor s) x = 0 /\
  (forall j, (j < NUM_BUFFERS)%nat -> occupant (destructor s) j = Some None).
Proof.
  intros Hlen.
  assert (Hz : slot_refs (destructor s) x = 0).
  { apply holders_none. intros j. rewrite (destructor_occupant s j Hlen).
    case_decide; discriminate. }
  split; [|split; [exact Hz|]].
  - pose proof (external_Flush (seq 0 NUM_BUFFERS) s x) as He.
    rewrite <- destructor_unfold, !external_unfold, Hz in He. lia.
  - intros j Hj. rewrite (destructor_occupant s j Hlen). now rewrite decide_True.
Qed.

Lemma destructor_releases_all_witness :
  let s := Samples.playing in
  length (m_buffers s) = NUM_BUFFERS /\
  refs (destructor s) 1%nat = refs s 1%nat - slot_refs s 1%nat.
Proof.
  intros s.
  assert (Hlen : length (m_buffers s) = NUM_BUFFERS) by reflexivity.
  exact (conj Hlen (proj1 (destructor_releases_all s 1%nat Hlen))).
Defined.


(** *** Configure *)

Lemma set_configured_members (c : Q) (s : State) :
  m_buffers (set_configured c s) = m_buffers s /\
  heap (set_configured c s) = heap s /\
  Renderer.m_format (set_configured c s) = Renderer.m_format s /\
  m_configured (set_configured c s) = true /\
  m_clearColour (set_configured c s) = c.
Proof. repeat split. Qed.

Lemma Configure_lookup (w : World) (picture : VideoPicture) (fps : Q)
    (orientation : Z) (s : State) (j : nat) :
  GetWinSystem w && WinSystemIsEGL w = true ->
  length (m_buffers s) = NUM_BUFFERS ->
  m_buffers (snd (Configure w picture fps orientation s)) !! j =
  (fun buf => initialised (GetEGLDisplay w) (released buf)) <$> m_buffers s !! j.
Proof.
  intros Hw Hlen. rewrite Configure_unfold. cbv zeta. rewrite Hw.
  match goal with |- context [foldl ?f ?s0 (seq 0 NUM_BUFFERS)] =>
    pose proof (Flush_slots s0 j) as HF;
    set (s1 := foldl f s0 (seq 0 NUM_BUFFERS)) in *
  end.
  clearbody s1. members.
  change (snd (true, ?a)) with a.
  rewrite (proj1 (set_configured_members _ _)), init_slots, HF.
  case_decide as Hj.
  - destruct (m_buffers s !! j); reflexivity.
  - rewrite lookup_ge_None_2 by lia. reflexivity.
Qed.

Lemma Configure_result (w : World) (picture : VideoPicture) (fps : Q)
    (orientation : Z) (s : State) :
  GetWinSystem w && WinSystemIsEGL w = true ->
  let r := Configure w picture fps orientation s in
  fst r = true /\ m_configured (snd r) = true /\
  m_clearColour (snd r) = (if UseLimitedColor w then 16 # 255 else 0%Q).
Proof.
  intros Hw. rewrite Configure_unfold. cbv zeta. rewrite Hw.
  match goal with |- context [foldl ?f ?s0 (seq 0 NUM_BUFFERS)] =>
    set (s1 := foldl f s0 (seq 0 NUM_BUFFERS)) in *
  end.
  clearbody s1.
  match goal with |- context [set_configured ?c ?t] =>
    set (s2 := t); clearbody s2
  end.
  repeat split.
Qed.

Lemma Configure_format (w : World) (picture : VideoPicture) (fps : Q)
    (orientation : Z) (s : State) :
  let s' := snd (Configure w picture fps orientation s) in
  Renderer.m_format s' = Buffer.m_format (heap s (Buffer.videoBuffer picture)) /\
  forall x, Buffer.m_format (heap s' x) = Buffer.m_format (heap s x).
Proof.
  rewrite Configure_unfold. cbv zeta.
  match goal with |- context [foldl ?f ?s0 (seq 0 NUM_BUFFERS)] =>
    pose proof (Flush_format (seq 0 NUM_BUFFERS) s0) as HF;
    pose proof (Flush_source (seq 0 NUM_BUFFERS) s0) as (_ & HS & _);
    set (s1 := foldl f s0 (seq 0 NUM_BUFFERS)) in *
  end.
  clearbody s1. members.
  destruct (GetWinSystem w && WinSystemIsEGL w).
  - change (snd (true, ?a)) with a.
    match goal with |- context [set_configured ?c ?t] =>
      destruct (set_configured_members c t) as (_ & Eh & Ef & _)
    end.
    rewrite Ef, Eh, init_format, init_heap. split; [exact HS | exact HF].
  - change (snd (false, ?a)) with a. split; [exact HS | exact HF].
Qed.

Lemma ConfigChanged_unfold (picture : VideoPicture) (s : State) :
  ConfigChanged picture s =
  negb (Buffer.m_format (heap s (Buffer.videoBuffer picture)) =? Renderer.m_format s).
Proof. reflexivity. Qed.

Lemma NeedBuffer_unfold (index : nat) (s : State) :
  NeedBuffer index s =
  match fence <$> m_buffers s !! index with
  | Some (Some f) => Some (negb (IsSignaled f))
  | _ => None
  end.
Proof. reflexivity. Qed.

Lemma slot_unfold (s : State) (j : nat) : slot s j = m_buffers s !! j.
Proof. reflexivity. Qed.

Lemma fresh_slot (d : Z) (buf : BUFFER) :
  let buf' := initialised d (released buf) in
  videoBuffer buf' = None /\ fence buf' = Some NoSync /\
  mapped (texture buf') = None.
Proof. destruct buf as [v [f|] t]; repeat split. Qed.

(** X15.  [Configure] with a window system on EGL returns true and leaves
    the renderer configured, with the clear colour of the colour range,
    and every slot fresh: no slot holds a buffer, each has a fence object
    without sync object and an unmapped texture, and [NeedBuffer] returns
    false for each. *)
Theorem configure_succeeds (w : World) (picture : VideoPicture) (fps : Q)
    (orientation : Z) (s : State) :
  GetWinSystem w = true -> WinSystemIsEGL w = true ->
  length (m_buffers s) = NUM_BUFFERS ->
  let r := Configure w picture fps orientation s in
  fst r = true /\ m_configured (snd r) = true /\
  m_clearColour (snd r) = (if UseLimitedColor w then 16 # 255 else 0%Q) /\
  (forall j, (j < NUM_BUFFERS)%nat ->
     occupant (snd r) j = Some None /\
     fence <$> slot (snd r) j = Some (Some NoSync) /\
     (fun buf => mapped (texture buf)) <$> slot (snd r) j = Some None /\
     NeedBuffer j (snd r) = Some false).
Proof.
  intros Hws Hegl Hlen r.
  assert (Hw : GetWinSystem w && WinSystemIsEGL w = true) by now rewrite Hws, Hegl.
  destruct (Configure_result w picture fps orientation s Hw) as (R1 & R2 & R3).
  fold r in R1, R2, R3.
  split; [exact R1|]. split; [exact R2|]. split; [exact R3|].
  intros j Hj.
  pose proof (Configure_lookup w picture fps orientation s j Hw Hlen) as Hl.
  fold r in Hl.
  destruct (lookup_lt_is_Some_2 (m_buffers s) j) as [buf E]; [lia|].
  rewrite E in Hl. cbn [fmap option_fmap option_map] in Hl.
  destruct (fresh_slot (GetEGLDisplay w) buf) as (F1 & F2 & F3).
  rewrite occupant_unfold, NeedBuffer_unfold, !slot_unfold, Hl.
  cbn [fmap option_fmap option_map]. rewrite F1, F2, F3. auto.
Qed.

Lemma configure_succeeds_witness :
  let w := Samples.desktop true in
  let s := Samples.new_renderer in
  (GetWinSystem w = true /\ WinSystemIsEGL w = true /\
   length (m_buffers s) = NUM_BUFFERS) /\
  fst (Configure w (Samples.picture_1080p 1%nat) 25 0 s) = true.
Proof.
  intros w s.
  assert (H1 : GetWinSystem w = true) by reflexivity.
  assert (H2 : WinSystemIsEGL w = true) by reflexivity.
  assert (H3 : length (m_buffers s) = NUM_BUFFERS) by reflexivity.
  exact (conj (conj H1 (conj H2 H3))
    (proj1 (configure_succeeds w (Samples.picture_1080p 1%nat) 25 0 s H1 H2 H3))).
Defined.

(** X16.  [Configure] records the format of the picture's buffer, whether
    it succeeds or not, and changes the format of no buffer: right after
    it, [ConfigChanged] returns false for the picture it was given, and
    for any other picture it returns true exactly when the format of that
    picture's buffer differs. *)
Theorem configure_records_format (w : World) (picture other : VideoPicture)
    (fps : Q) (orientation : Z) (s : State) :
  let s' := snd (Configure w picture fps orientation s) in
  ConfigChanged picture s' = false /\
  ConfigChanged other s' =
    negb (Buffer.m_format (heap s (Buffer.videoBuffer other)) =?
          Buffer.m_format (heap s (Buffer.videoBuffer picture))).
Proof.
  intros s'.
  destruct (Configure_format w picture fps orientation s) as (Hf & Hh).
  fold s' in Hf, Hh.
  rewrite !ConfigChanged_unfold, Hf, !Hh, Z.eqb_refl. split; reflexivity.
Qed.

(** *** ReleaseBuffer twice *)

(** X17.  A second [ReleaseBuffer] of the same slot releases nothing: it
    leaves every slot and every reference count as the first call left
    them, and calls nothing but the fence's [DestroyFence], when the slot
    has its fence object, and the texture's [Unmap]. *)
Theorem release_twice (index : nat) (s : State) :
  let s1 := ReleaseBuffer index s in
  let s2 := ReleaseBuffer index s1 in
  m_buffers s2 = m_buffers s1 /\ heap s2 = heap s1 /\
  (forall b, ~ In (BufferRelease b) (new_calls s1 s2)) /\
  new_calls s1 s2 =
    match fence <$> slot s index with
    | Some (Some _) => [FenceDestroy index]
    | _ => []
    end ++ [TextureUnmap index].
Proof.
  intros s1 s2.
  destruct (ReleaseBuffer_shape index s) as (Hb & _). fold s1 in Hb.
  destruct (ReleaseBuffer_shape index s1) as (Hb2 & Hh2 & Hc2). fold s2 in Hb2, Hh2, Hc2.
  assert (Hnew : new_calls s1 s2 =
    match fence <$> slot s index with
    | Some (Some _) => [FenceDestroy index]
    | _ => []
    end ++ [TextureUnmap index]).
  { apply slot_calls_app. rewrite Hc2, Hb, list_lookup_alter_eq. unfold slot.
    destruct (m_buffers s !! index) as [buf|]; cbn [fmap option_fmap option_map];
      [|reflexivity].
    destruct buf as [v [f|] t]; reflexivity. }
  split; [|split; [|split; [|exact Hnew]]].
  - rewrite Hb2, Hb, list_alter_alter_eq.
    apply list_alter_ext; [|reflexivity]. intros x _. apply released_idempotent.
  - rewrite Hh2. unfold occupant. rewrite Hb, list_lookup_alter_eq.
    destruct (m_buffers s !! index); reflexivity.
  - intros b. rewrite Hnew.
    destruct (fence <$> slot s index) as [[?|]|]; cbn; intuition discriminate.
Qed.

(** *** RenderUpdate *)

(** X18.  [RenderUpdate] never touches a buffer's reference count nor the
    buffer pointer of any slot, writes no slot but the one it renders,
    leaves the configuration as it is, and does nothing at all while the
    renderer is not configured. *)
Theorem render_keeps_buffers (w : World) (index index2 : nat) (clear : bool)
    (flags alpha : Z) (s : State) :
  let s' := RenderUpdate w index index2 clear flags alpha s in
  heap s' = heap s /\
  (forall j, occupant s' j = occupant s j) /\
  (forall j, j <> index -> slot s' j = slot s j) /\
  same_source s s' /\
  (m_configured s = false -> s' = s).
Proof.
  intros s'.
  destruct (RenderUpdate_cases w index index2 clear flags alpha s)
    as (Hh & Hs & Hn & g & cs & Hb & _ & Hv & _).
  fold s' in Hh, Hs, Hn, Hb.
  split; [exact Hh|]. split; [|split; [|split; [exact Hs | exact Hn]]].
  - intros j. unfold occupant. rewrite Hb. now apply lookup_alter_frame.
  - intros j Hj. unfold slot. rewrite Hb. apply list_lookup_alter_ne. congruence.
Qed.

(** X19.  When [RenderUpdate] does not get as far as the draw (the
    renderer is not configured, the slot holds no valid DRM PRIME buffer,
    its texture cannot be mapped or there is no render system), it draws
    no quad and records no fence: the fence of every slot, and with it the
    answer of [NeedBuffer], is what it was before. *)
Theorem render_without_draw (w : World) (index index2 : nat) (clear : bool)
    (flags alpha : Z) (s : State) :
  draws w index s = false ->
  fence <$> slot s index <> Some None ->
  let s' := RenderUpdate w index index2 clear flags alpha s in
  ~ In (DrawQuad index) (new_calls s s') /\
  ~ In (FenceCreate index) (new_calls s s') /\
  (forall j, fence <$> slot s' j = fence <$> slot s j) /\
  (forall j, NeedBuffer j s' = NeedBuffer j s).
Proof.
  intros Hd Hfence s'.
  destruct (RenderUpdate_cases w index index2 clear flags alpha s)
    as (_ & _ & _ & g & cs & Hb & Hc & _ & Hq).
  fold s' in Hb, Hc.
  destruct (Hq Hd Hfence) as (Hf & Hq1 & Hq2).
  rewrite (slot_calls_app s s' cs Hc).
  split; [exact Hq1|]. split; [exact Hq2|].
  assert (Hsame : forall j, fence <$> slot s' j = fence <$> slot s j).
  { intros j. unfold slot. rewrite Hb. now apply lookup_alter_frame. }
  split; [exact Hsame|].
  intros j. unfold NeedBuffer. specialize (Hsame j). unfold slot in Hsame.
  now rewrite Hsame.
Qed.

Lemma render_without_draw_witness :
  let w := Samples.desktop true in
  let s := Samples.playing in
  (draws w 1 s = false /\ fence <$> slot s 1 <> Some None) /\
  NeedBuffer 1 (RenderUpdate w 1 0 false 0 255 s) = NeedBuffer 1 s.
Proof.
  intros w s.
  assert (Hd : draws w 1 s = false) by reflexivity.
  assert (Hf : fence <$> slot s 1 <> Some None) by (vm_compute; discriminate).
  exact (conj (conj Hd Hf)
    (proj2 (proj2 (proj2 (render_without_draw w 1%nat 0%nat false 0 255 s Hd Hf))) 1%nat)).
Defined.

(** *** Create *)

Lemma descRefs_restored (b : CVideoBufferDRMPRIME) :
  with_descRefs (fun n => n - 1) (with_descRefs (fun n => n + 1) b) = b.
Proof.
  destruct b. unfold with_descRefs. cbn. f_equal. lia.
Qed.

Lemma descriptor_restored (buf : ptr) (h : store) (x : ptr) :
  update buf (with_descRefs (fun n => n - 1))
    (update buf (with_descRefs (fun n => n + 1)) h) x = h x.
Proof.
  rewrite !update_at. destruct (decide (buf = x)); [|reflexivity].
  apply descRefs_restored.
Qed.

(** X20.  [Create] leaves every buffer as it found it: on each path on
    which it acquired the descriptor it has released it again.  It
    constructs a renderer exactly for a DRM PRIME buffer that, where the
    EGL headers know the import of modifiers, gives a descriptor, while
    the window system is one on EGL and EGL supports the format of the
    first layer together with the modifier of the first object. *)
Theorem create_balanced (f : Factory) (buffer : option ptr) (h : store) :
  (forall x, snd (Create f buffer h) x = h x) /\
  (fst (Create f buffer h) = true <->
   exists buf, buffer = Some buf /\ is_DRMPRIME f buf = true /\
     (import_modifiers_defined f = true ->
      AcquireDescriptor_result f buf = true /\
      GetDescriptor_null f buf = false /\
      winSystemEGL f = true /\
      SupportsFormatAndModifier f
        (format (layer_at (m_descriptor (h buf)) 0))
        (format_modifier (object_at (m_descriptor (h buf)) 0)) = true)).
Proof.
  unfold Create. destruct buffer as [buf|]; cbn [fst snd].
  2: { split; [reflexivity|]. split; [discriminate|]. intros (b & Hb & _). discriminate. }
  assert (Ed : m_descriptor (update buf (with_descRefs (fun n => n + 1)) h buf)
               = m_descriptor (h buf)).
  { now apply (update_frame m_descriptor). }
  rewrite Ed.
  set (fmt := format (layer_at (m_descriptor (h buf)) 0)).
  set (mdf := format_modifier (object_at (m_descriptor (h buf)) 0)).
  destruct (is_DRMPRIME f buf) eqn:E1; cbn [negb fst snd].
  2: { split; [reflexivity|]. split; [discriminate|].
       intros (b & Hb & Hp & _). congruence. }
  destruct (import_modifiers_defined f) eqn:E2; cbn [negb fst snd].
  2: { split; [reflexivity|]. split; [|reflexivity].
       intros _. exists buf. split; [reflexivity|]. split; [exact E1|]. discriminate. }
  destruct (AcquireDescriptor_result f buf) eqn:E3; cbn [negb fst snd].
  2: { split; [reflexivity|]. split; [discriminate|].
       intros (b & Hb & Hp & Hm). assert (b = buf) by congruence. subst b.
       destruct (Hm eq_refl) as (A & _). congruence. }
  destruct (GetDescriptor_null f buf) eqn:E4; cbn [negb fst snd].
  { split; [apply descriptor_restored|]. split; [discriminate|].
    intros (b & Hb & Hp & Hm). assert (b = buf) by congruence. subst b.
    destruct (Hm eq_refl) as (_ & A & _). congruence. }
  destruct (winSystemEGL f) eqn:E5; cbn [negb fst snd].
  2: { split; [apply descriptor_restored|]. split; [discriminate|].
       intros (b & Hb & Hp & Hm). assert (b = buf) by congruence. subst b.
       destruct (Hm eq_refl) as (_ & _ & A & _). congruence. }
  destruct (SupportsFormatAndModifier f fmt mdf) eqn:E6; cbn [negb fst snd].
  - split; [apply descriptor_restored|]. split; [|reflexivity].
    intros _. exists buf. auto 10.
  - split; [apply descriptor_restored|]. split; [discriminate|].
    intros (b & Hb & Hp & Hm). assert (b = buf) by congruence. subst b.
    destruct (Hm eq_refl) as (_ & _ & _ & A). subst fmt mdf. congruence.
Qed.

(** *** Configure without a window system on EGL *)



End RendererMore.

(** ** Failures *)

Module ErrorPaths.
Import Buffer Geometry.




End ErrorPaths.

